(** * readmd: a shallow embedding of [readmd.py] and its specification

    [readmd.py] reformats a Markdown document for reading in a terminal.
    It has three parts: the Text Fitter ([_fit_text]), the Group Renderer
    ([_render_group]) and the Grouper ([_groupify]), a line-by-line state
    machine that calls the renderer each time a group of lines is complete;
    the renderer calls the Grouper again on the lines of a nested element.

    The program is Python 2: a [str] is a sequence of bytes, modelled as
    [string]; an [int] is unbounded, modelled as [Z]; [print] writes to
    standard output and keeps a soft-space flag, modelled by [Stdout]. *)

From Stdlib Require Import List Ascii String ZArith Lia Bool Arith.
From Stdlib Require Import Numbers.DecimalString.
Import ListNotations.

Local Open Scope Z_scope.
Local Open Scope string_scope.

(** ** Python strings *)

Module Py.

(** [len(s)] *)
Definition len (s : string) : Z := Z.of_nat (String.length s).

(** truth value of a string: [bool(s)] *)
Definition nonempty (s : string) : bool :=
  match s with EmptyString => false | String _ _ => true end.

(** the characters [str.strip()] removes and the regex class [\s] matches
    (for byte strings: space, \t, \n, \v, \f, \r) *)
Definition isspace (c : ascii) : bool :=
  match c with
  | " "%char | "009"%char | "010"%char | "011"%char | "012"%char | "013"%char => true
  | _ => false
  end.

Definition is_char (x : ascii) (c : ascii) : bool := Ascii.eqb c x.

Definition is_nl_cr (c : ascii) : bool :=
  match c with "010"%char | "013"%char => true | _ => false end.

(** the regex class [\d] *)
Definition isdigit (c : ascii) : bool :=
  match c with
  | "0"%char | "1"%char | "2"%char | "3"%char | "4"%char
  | "5"%char | "6"%char | "7"%char | "8"%char | "9"%char => true
  | _ => false
  end.

Fixpoint take_while (p : ascii -> bool) (s : string) : string :=
  match s with
  | EmptyString => EmptyString
  | String c s' => if p c then String c (take_while p s') else EmptyString
  end.

(** [s.lstrip(chars)] *)
Fixpoint lstrip (p : ascii -> bool) (s : string) : string :=
  match s with
  | EmptyString => EmptyString
  | String c s' => if p c then lstrip p s' else s
  end.

(** [s.rstrip(chars)] *)
Fixpoint rstrip (p : ascii -> bool) (s : string) : string :=
  match s with
  | EmptyString => EmptyString
  | String c s' =>
      match rstrip p s' with
      | EmptyString => if p c then EmptyString else String c EmptyString
      | r => String c r
      end
  end.

(** [s.strip(chars)]; [strip isspace s] is [s.strip()] *)
Definition strip (p : ascii -> bool) (s : string) : string :=
  rstrip p (lstrip p s).

(** [s.endswith(suffix)] *)
Fixpoint endswith (s suffix : string) : bool :=
  String.eqb s suffix ||
  match s with
  | EmptyString => false
  | String _ s' => endswith s' suffix
  end.

(** [s[:-1]] *)
Fixpoint drop_last (s : string) : string :=
  match s with
  | EmptyString => EmptyString
  | String c EmptyString => EmptyString
  | String c s' => String c (drop_last s')
  end.

(** [s * n] *)
Fixpoint mul (s : string) (n : nat) : string :=
  match n with
  | O => EmptyString
  | S n' => s ++ mul s n'
  end.

(** [s.split(sep)] for a one-character separator: empty pieces are kept *)
Fixpoint split (sep : ascii) (s : string) : list string :=
  match s with
  | EmptyString => [EmptyString]
  | String c s' =>
      if Ascii.eqb c sep then EmptyString :: split sep s'
      else match split sep s' with
           | w :: ws => String c w :: ws
           | [] => [String c EmptyString]
           end
  end.

(** [sep.join(l)] is [String.concat sep l] *)
Definition join (sep : string) (l : list string) : string := String.concat sep l.

(** [s.expandtabs(tabsize)]: the column restarts after \n and \r *)
Fixpoint expandtabs_from (tabsize : nat) (j : nat) (s : string) : string :=
  match s with
  | EmptyString => EmptyString
  | String c s' =>
      if Ascii.eqb c "009" then
        match tabsize with
        | O => expandtabs_from tabsize j s'
        | _ => let incr := (tabsize - (j mod tabsize))%nat in
               mul " " incr ++ expandtabs_from tabsize (j + incr) s'
        end
      else String c (expandtabs_from tabsize (if is_nl_cr c then 0 else j + 1)%nat s')
  end.

Definition expandtabs (tabsize : nat) (s : string) : string :=
  expandtabs_from tabsize 0 s.

(** [l.append(x)] *)
Definition append {A : Type} (l : list A) (x : A) : list A := (l ++ [x])%list.

(** ['%s' % n] for an integer *)
Definition str_of_int (n : Z) : string := NilZero.string_of_int (Z.to_int n).

End Py.

(** ** Standard output

    [print x] writes a space first when the soft-space flag is set, then
    [x] and a newline, and clears the flag; [print x,] writes no newline
    and sets the flag unless [x] ends in whitespace other than a space. *)

Record Stdout := mkStdout { written : string; softspace : bool }.

Definition stdout0 : Stdout := mkStdout "" false.

Fixpoint last_char (s : string) : option ascii :=
  match s with
  | EmptyString => None
  | String c EmptyString => Some c
  | String _ s' => last_char s'
  end.

Definition print_item (x : string) (o : Stdout) : Stdout :=
  mkStdout (written o ++ (if softspace o then " " else "") ++ x)
           (match last_char x with
            | None => true
            | Some c => negb (Py.isspace c) || Ascii.eqb c " "
            end).

Definition print_newline (o : Stdout) : Stdout :=
  mkStdout (written o ++ String "010" "") false.

(** [print x] *)
Definition print (x : string) (o : Stdout) : Stdout :=
  print_newline (print_item x o).

(** [print x,] *)
Definition print_comma (x : string) (o : Stdout) : Stdout := print_item x o.

(** the lines of what was written: the text split at newlines, without the
    empty piece after a final newline *)
Definition output_lines (o : Stdout) : list string :=
  match rev (Py.split "010" (written o)) with
  | EmptyString :: r => rev r
  | r => rev r
  end.

(** ** Constants *)

Definition MIN_WIDTH : Z := 10.
Definition NUM_SPACES : nat := 4.
Definition SPACES : string := Py.mul " " NUM_SPACES.

(** SPECIAL STATE TYPES *)
Inductive special_type : Type :=
| TYPE_HR | TYPE_UL | TYPE_OL | TYPE_BLOCK | TYPE_CODE.

Definition special_type_eqb (a b : special_type) : bool :=
  match a, b with
  | TYPE_HR, TYPE_HR | TYPE_UL, TYPE_UL | TYPE_OL, TYPE_OL
  | TYPE_BLOCK, TYPE_BLOCK | TYPE_CODE, TYPE_CODE => true
  | _, _ => false
  end.

(** ** The regular expressions

    Every pattern of the program but [_end_space] is anchored at the start
    of the line, and in each of them a repetition is followed by a
    character it cannot match, so the greedy match is the only one.  Each
    pattern is embedded as the function that computes what the program
    takes from its match object: whether it matched, a group, or the text
    after the match (which is what [sub('', line)] leaves). *)

Module Re.

(** the number of spaces a line starts with *)
Fixpoint leading_spaces (s : string) : nat :=
  match s with
  | String " " s' => S (leading_spaces s')
  | _ => O
  end.

(** [_atx_header = '^(#+)\s*']: the match is the run of [#] the line starts
    with; the result is group 1 *)
Definition _atx_header (line : string) : option string :=
  match Py.take_while (Py.is_char "#") line with
  | EmptyString => None
  | hashes => Some hashes
  end.

(** [_setext_header = '^(=+|-+)\s*$']: a run of [=] or a run of [-], then
    only whitespace; the result is the first character of group 1 *)
Definition _setext_header (line : string) : option ascii :=
  match line with
  | String c _ =>
      if Ascii.eqb c "=" || Ascii.eqb c "-" then
        match Py.lstrip Py.isspace (Py.lstrip (Py.is_char c) line) with
        | EmptyString => Some c
        | _ => None
        end
      else None
  | EmptyString => None
  end.

(** the class [[*\-_]] *)
Definition hr_char (c : ascii) : bool :=
  match c with "*"%char | "-"%char | "_"%char => true | _ => false end.

(** one pass over the line for repetitions of a character of the class
    followed by whitespace: [n] counts the repetitions seen, [cur] is the
    text of the last one *)
Fixpoint hr_scan (s : string) (n : nat) (cur : string) : option (nat * string) :=
  match s with
  | EmptyString => Some (n, cur)
  | String c s' =>
      if hr_char c then hr_scan s' (S n) (String c EmptyString)
      else if Py.isspace c && negb (Nat.eqb n 0) then hr_scan s' n (cur ++ String c EmptyString)
      else None
  end.

(** [_hr = '^(G){3,}$'] where the group G is [([*\-_])\s*]; the result is
    group 1, the text of the last repetition *)
Definition _hr (line : string) : option string :=
  match hr_scan line 0 EmptyString with
  | Some (n, cur) => if (3 <=? n)%nat then Some cur else None
  | None => None
  end.

(** the class [[*+\-*]] *)
Definition ul_char (c : ascii) : bool :=
  match c with "*"%char | "+"%char | "-"%char => true | _ => false end.

(** the text after a match of [\s\s*] at the start of [s] *)
Definition after_spaces1 (s : string) : option string :=
  match s with
  | String c s' => if Py.isspace c then Some (Py.lstrip Py.isspace s') else None
  | EmptyString => None
  end.

(** [_ul_indent = '^ {0,3}([*+\-*])\s\s*']; the result is group 1 and the
    text after the match *)
Definition _ul_indent (line : string) : option (string * string) :=
  if (leading_spaces line <=? 3)%nat then
    match Py.lstrip (Py.is_char " ") line with
    | String c s' =>
        if ul_char c then
          match after_spaces1 s' with
          | Some rest => Some (String c EmptyString, rest)
          | None => None
          end
        else None
    | EmptyString => None
    end
  else None.

(** [_ol_indent = '^ {0,3}\d+\.\s\s*']; the result is the text after the
    match *)
Definition _ol_indent (line : string) : option string :=
  if (leading_spaces line <=? 3)%nat then
    let s := Py.lstrip (Py.is_char " ") line in
    match Py.take_while Py.isdigit s with
    | EmptyString => None
    | _ =>
        match Py.lstrip Py.isdigit s with
        | String "." s' => after_spaces1 s'
        | _ => None
        end
    end
  else None.

(** [_blockquote = '^>\s*']; the result is the text after the match *)
Definition _blockquote (line : string) : option string :=
  match line with
  | String ">" s' => Some (Py.lstrip Py.isspace s')
  | _ => None
  end.

(** [_indented = '^ {4,}'] *)
Definition _indented (line : string) : bool :=
  (4 <=? leading_spaces line)%nat.

(** [_code = '^ {4,}[^ ]'] *)
Definition _code (line : string) : bool :=
  (4 <=? leading_spaces line)%nat &&
  Py.nonempty (Py.lstrip (Py.is_char " ") line).

(** [regex.sub('', line)] for the three patterns the program removes *)
Definition sub_ul_indent (line : string) : string :=
  match _ul_indent line with Some (_, rest) => rest | None => line end.

Definition sub_ol_indent (line : string) : string :=
  match _ol_indent line with Some rest => rest | None => line end.

Definition sub_blockquote (line : string) : string :=
  match _blockquote line with Some rest => rest | None => line end.

(** [_end_space = ' +$'], [_end_space.sub('', s)]: [$] matches at the end
    and before a newline that ends the string *)
Definition sub_end_space (s : string) : string :=
  match last_char s with
  | Some "010"%char => Py.rstrip (Py.is_char " ") (Py.drop_last s) ++ String "010" ""
  | _ => Py.rstrip (Py.is_char " ") s
  end.

End Re.

(** ** The Text Fitter *)

(** [words[-1] += suffix] *)
Fixpoint append_to_last (words : list string) (suffix : string) : list string :=
  match words with
  | [] => []
  | [w] => [w ++ suffix]
  | w :: ws => w :: append_to_last ws suffix
  end.

(** [[x for x in section.split(' ') if x]] *)
Definition words_of (section : string) : list string :=
  filter Py.nonempty (Py.split " " section).

(** the test of the loop of [_fit_text]: the current line is closed *)
Definition starts_new_line (width : Z) (cur word : string) : bool :=
  Py.nonempty cur && negb (width =? -1)%Z && (Py.len cur + Py.len word + 1 >? width)%Z.

(** the loop of [_fit_text] over [enumerate(words)], from index [i] *)
Fixpoint fit_loop (width : Z) (i : nat) (words : list string)
    (result : list string) (cur : string) : list string * string :=
  match words with
  | [] => (result, cur)
  | word :: rest =>
      if starts_new_line width cur word
      then fit_loop width (S i) rest (Py.append result cur) word
      else fit_loop width (S i) rest result
             (cur ++ (if Nat.eqb i 0 then "" else " ") ++ word)
  end.

Definition _fit_text (section : string) (width : Z) (with_break : bool) : list string :=
  let words := words_of section in
  let words :=
    if with_break && negb (Nat.eqb (List.length words) 0)
    then append_to_last words "  " else words in
  let '(result, cur) := fit_loop width 0 words [] "" in
  Py.append result cur.

(** ** The Group Renderer *)

Definition enumerate {A : Type} (l : list A) : list (nat * A) :=
  combine (seq 0 (List.length l)) l.

(** the first loop of the flatten-and-wrap branch: the group is cut into
    sections at hard breaks *)
Fixpoint build_sections (num_lines : nat) (i : nat) (group : list string)
    (sections : list string) (cur_section : string) : list string :=
  match group with
  | [] => sections
  | line :: rest =>
      let cur_section :=
        cur_section ++ (if Nat.eqb i 0 then "" else " ") ++ Py.strip Py.isspace line in
      let closes :=
        Py.endswith line "  " || String.eqb line (String "010" "")
        || Nat.eqb (i + 1) num_lines in
      let sections :=
        if closes
        then Py.append sections (cur_section ++ (if Py.endswith line "  " then "  " else ""))
        else sections in
      let cur_section := if closes then "" else cur_section in
      let sections :=
        if String.eqb line (String "010" "") then Py.append sections "" else sections in
      build_sections num_lines (S i) rest sections cur_section
  end.

Definition relative_width_of (width : Z) (indent prefix_first prefix_rest : string) : Z :=
  if (width =? -1)%Z then width
  else Z.max MIN_WIDTH
         (width - Py.len indent - Z.max (Py.len prefix_first) (Py.len prefix_rest)).

(** what the second loop of the flatten-and-wrap branch prints, in order *)
Definition wrapped_lines (sections : list string) (relative_width : Z)
    (first_indent indent prefix_first prefix_rest : string) : list string :=
  let num_sections := List.length sections in
  flat_map (fun '(i, section) =>
    let fitted_text := _fit_text section relative_width (i + 1 <? num_sections)%nat in
    map (fun '(j, line) =>
           let first := Nat.eqb i 0 && Nat.eqb j 0 in
           (if first then first_indent else indent)
           ++ (if first then prefix_first else prefix_rest)
           ++ line)
        (enumerate fitted_text))
    (enumerate sections).

(** what the verbatim branch prints, in order *)
Definition pre_lines (group : list string) (first_indent indent : string) : list string :=
  map (fun '(i, line) => (if Nat.eqb i 0 then first_indent else indent) ++ line)
      (enumerate group).

Definition print_all (items : list string) (o : Stdout) : Stdout :=
  fold_left (fun o x => print x o) items o.

(** [_render_group], over the Grouper it calls for a nested element *)
Definition render_group_with
    (groupify : list string -> Z -> string -> Stdout -> option Stdout)
    (group : list string) (width : Z) (indent : string) (is_first_render : bool)
    (prefix_first prefix_rest : string) (line_after is_pre : bool)
    (o : Stdout) : option Stdout :=
  let relative_width := relative_width_of width indent prefix_first prefix_rest in
  let first_indent := if is_first_render then "" else indent in
  let rendered :=
    if is_pre then
      Some (print_all (pre_lines group first_indent indent) o)
    else if Py.nonempty prefix_first && Py.nonempty prefix_rest then
      let o := print_comma
                 (first_indent ++ (if Py.endswith prefix_first " "
                                   then Py.drop_last prefix_first else prefix_first)) o in
      groupify group width (indent ++ prefix_rest) o
    else
      let sections := build_sections (List.length group) 0 group [] "" in
      Some (print_all (wrapped_lines sections relative_width
                         first_indent indent prefix_first prefix_rest) o) in
  match rendered with
  | Some o => Some (if line_after then print (Re.sub_end_space indent) o else o)
  | None => None
  end.

(** ** The classification state

    The program keeps it in a dict with the keys [type], [prefix_first],
    [prefix_rest], [number] and [character]; a key that is absent is [None]
    here. *)

Module St.
Record t : Type := mk {
  type : option special_type;
  prefix_first : option string;
  prefix_rest : option string;
  number : option Z;
  character : option string
}.

(** [{}] *)
Definition empty : t := mk None None None None None.

(** [{'type': ty}] *)
Definition of_type (ty : special_type) : t := mk (Some ty) None None None None.

(** [state.get(key, default)] *)
Definition get {A : Type} (field : option A) (default : A) : A :=
  match field with Some v => v | None => default end.

Definition set_prefix_first (v : string) (s : t) : t :=
  mk (type s) (Some v) (prefix_rest s) (number s) (character s).
Definition set_prefix_rest (v : string) (s : t) : t :=
  mk (type s) (prefix_first s) (Some v) (number s) (character s).
Definition set_number (v : Z) (s : t) : t :=
  mk (type s) (prefix_first s) (prefix_rest s) (Some v) (character s).
Definition set_character (v : string) (s : t) : t :=
  mk (type s) (prefix_first s) (prefix_rest s) (number s) (Some v).

Definition has_type (ty : special_type) (s : t) : bool :=
  match type s with Some ty' => special_type_eqb ty ty' | None => false end.
End St.

(** the loop [while len(prefix_first) < 4: prefix_first += ' '] *)
Definition pad4 (prefix_first : string) : string :=
  prefix_first ++ Py.mul " " (4 - String.length prefix_first).

(** [_increment_ol_state(state, prev_state=None)]; the result is the
    updated [state] *)
Definition _increment_ol_state (state : St.t) (prev_state : option St.t) : St.t :=
  let prev_state := match prev_state with None => state | Some p => p end in
  let number := (St.get (St.number prev_state) 0 + 1)%Z in
  let prefix_first := pad4 (Py.str_of_int number ++ ". ") in
  St.set_prefix_first prefix_first (St.set_number number state).

(** ** The Grouper *)

(** the variables of one call of [_groupify] *)
Record Grouper : Type := mkGrouper {
  group : list string;
  has_break : bool;
  forced_break : bool;
  first_render : bool;
  prev_state : St.t;
  state : St.t
}.

Definition grouper0 : Grouper := mkGrouper [] false false true St.empty St.empty.

Definition set_group (v : list string) (g : Grouper) : Grouper :=
  mkGrouper v (has_break g) (forced_break g) (first_render g) (prev_state g) (state g).
Definition set_has_break (v : bool) (g : Grouper) : Grouper :=
  mkGrouper (group g) v (forced_break g) (first_render g) (prev_state g) (state g).
Definition set_forced_break (v : bool) (g : Grouper) : Grouper :=
  mkGrouper (group g) (has_break g) v (first_render g) (prev_state g) (state g).
Definition set_state (v : St.t) (g : Grouper) : Grouper :=
  mkGrouper (group g) (has_break g) (forced_break g) (first_render g) (prev_state g) v.

(** [prev_state, state = state, v] *)
Definition new_state (v : St.t) (g : Grouper) : Grouper :=
  mkGrouper (group g) (has_break g) (forced_break g) (first_render g) (state g) v.

(** [group.append(line)] *)
Definition group_append (line : string) (g : Grouper) : Grouper :=
  set_group (Py.append (group g) line) g.

(** [group[-1] = f(group[-1])] *)
Fixpoint map_last (f : string -> string) (l : list string) : list string :=
  match l with
  | [] => []
  | [x] => [f x]
  | x :: l' => x :: map_last f l'
  end.

Definition nonnil {A : Type} (l : list A) : bool :=
  match l with [] => false | _ :: _ => true end.

Definition is_some {A : Type} (x : option A) : bool :=
  match x with Some _ => true | None => false end.

(** [SPECIAL_TYPES]: each pattern with what [regex.search(line)] tests *)
Definition SPECIAL_TYPES : list (special_type * (string -> bool)) :=
  [ (TYPE_HR, fun line => is_some (Re._hr line));
    (TYPE_UL, fun line => is_some (Re._ul_indent line));
    (TYPE_OL, fun line => is_some (Re._ol_indent line));
    (TYPE_BLOCK, fun line => is_some (Re._blockquote line));
    (TYPE_CODE, Re._code) ].

(** the block [# first non-empty line of a new group - identify it!] *)
Definition identify (line : string) (g : Grouper) : Grouper :=
  match find (fun '(_, regex) => regex line) SPECIAL_TYPES with
  | Some (special_type, _) =>
      let g := new_state (St.of_type special_type) g in
      match special_type with
      | TYPE_UL =>
          let g := set_group (map_last Re.sub_ul_indent (group g)) g in
          let bullet := match Re._ul_indent line with Some (b, _) => b | None => "" end in
          set_state (St.set_prefix_rest SPACES
                       (St.set_prefix_first (bullet ++ "   ") (state g))) g
      | TYPE_OL =>
          let g := set_group (map_last Re.sub_ol_indent (group g)) g in
          let g := set_state (_increment_ol_state (state g) (Some (prev_state g))) g in
          set_state (St.set_prefix_rest SPACES (state g)) g
      | TYPE_BLOCK =>
          let g := set_group (map_last Re.sub_blockquote (group g)) g in
          set_state (St.set_prefix_rest "> " (St.set_prefix_first "> " (state g))) g
      | TYPE_HR =>
          let g := set_state (St.set_character (St.get (Re._hr line) "") (state g)) g in
          set_has_break true g
      | TYPE_CODE =>
          set_state (St.set_prefix_rest SPACES (St.set_prefix_first SPACES (state g))) g
      end
  | None => new_state St.empty g
  end.

(** [x <- e ;; k]: the rest of the computation runs when [e] returned *)
Notation "' p <- e ;; k" :=
  (match e with Some p => k | None => None end)
  (at level 61, p pattern, e at next level, right associativity).

Section Groupify.

(** The Grouper is written over the renderer it flushes to ([_render_group]
    with its eight parameters) and over what the renderer writes to. *)
Variable Out : Type.
Variable render :
  list string -> Z -> string -> bool -> string -> string -> bool -> bool ->
  Out -> option Out.
Variable width : Z.
Variable indent : string.

(** [_do_render_group(line_after)] *)
Definition _do_render_group (line_after : bool) (g : Grouper) (o : Out)
    : option (Grouper * Out) :=
  let is_first_render := first_render g in
  ' o <- render (group g) width indent is_first_render
           (St.get (St.prefix_first (state g)) "")
           (St.get (St.prefix_rest (state g)) "")
           line_after
           (St.has_type TYPE_CODE (state g)) o ;;
  Some (mkGrouper [] false false false (prev_state g) (state g), o).

(** [if group: _do_render_group(line_after)] *)
Definition flush_if_group (line_after : bool) (g : Grouper) (o : Out)
    : option (Grouper * Out) :=
  if nonnil (group g) then _do_render_group line_after g o else Some (g, o).

(** the branch [# deal with setext header]; [underline] is
    [m.groups()[0][0]] *)
Definition setext_header_step (underline : ascii) (g : Grouper) (o : Out)
    : option (Grouper * Out) :=
  let above_line := List.last (group g) "" in
  let g := set_group (List.removelast (group g)) g in
  ' (g, o) <- (if (1 <? List.length (group g))%nat
               then _do_render_group true (set_group (List.removelast (group g)) g) o
               else Some (g, o)) ;;
  let g := new_state St.empty g in
  let g := group_append above_line g in
  ' (g, o) <- _do_render_group false g o ;;
  let g := group_append (Py.mul (String underline "") (String.length above_line)) g in
  ' (g, o) <- _do_render_group true g o ;;
  Some (set_forced_break true g, o).

(** the branch [# deal with atx header]; [hashes0] is [m.groups()[0]] *)
Definition atx_header_step (hashes0 : string) (line : string) (g : Grouper) (o : Out)
    : option (Grouper * Out) :=
  let hashes := Py.strip (Py.is_char " ") hashes0 in
  ' (g, o) <- flush_if_group true g o ;;
  let g := new_state St.empty g in
  let g := group_append
             (hashes ++ " " ++ Py.strip (Py.is_char " ") (Py.strip (Py.is_char "#") line)) g in
  ' (g, o) <- _do_render_group true g o ;;
  Some (set_forced_break true g, o).

(** the block [# check for continuations of special types]: the result is
    the variables, what was written, [line] and [was_continued] *)
Definition continuation (line : string) (g : Grouper) (o : Out)
    : option (Grouper * Out * string * bool) :=
  let state_type := St.type (state g) in
  let is_indented_after_break := has_break g && Re._indented line in
  match state_type with
  | Some TYPE_CODE =>
      if negb (Re._code line)
      then ' (g, o) <- _do_render_group true g o ;; Some (g, o, line, false)
      else Some (g, o, line, false)
  | Some TYPE_UL | Some TYPE_OL =>
      let ul_m := Re._ul_indent line in
      if is_some ul_m || is_some (Re._ol_indent line) then
        ' (g, o) <- _do_render_group (has_break g) g o ;;
        let line := if is_some ul_m then Re.sub_ul_indent line else Re.sub_ol_indent line in
        let g := if St.has_type TYPE_OL (state g)
                 then set_state (_increment_ol_state (state g) None) g else g in
        Some (g, o, line, true)
      else if is_indented_after_break then
        Some (group_append (String "010" "") g, o, line, true)
      else Some (g, o, line, false)
  | Some TYPE_BLOCK =>
      if is_some (Re._blockquote line) then
        let g := if has_break g
                 then set_has_break false (group_append (String "010" "") g) else g in
        let line := Re.sub_blockquote line in
        let g := if negb (Py.nonempty line) then set_has_break true g else g in
        Some (g, o, line, true)
      else Some (g, o, line, false)
  | Some TYPE_HR | None => Some (g, o, line, false)
  end.

(** the branch [# deal with non-empty line] *)
Definition other_line_step (line : string) (g : Grouper) (o : Out)
    : option (Grouper * Out) :=
  let g := set_forced_break false g in
  ' (g, o, line, was_continued) <- continuation line g o ;;
  ' (g, o) <- (if negb was_continued && has_break g
               then flush_if_group true g o else Some (g, o)) ;;
  let g := group_append line g in
  if negb was_continued && Nat.eqb (List.length (group g)) 1
  then Some (identify line g, o)
  else Some (g, o).

(** [line.strip('\n\r').expandtabs(NUM_SPACES)] *)
Definition normalize (raw : string) : string :=
  Py.expandtabs NUM_SPACES (Py.strip Py.is_nl_cr raw).

(** one turn of the main loop, for the line [f.next()] returned *)
Definition step (raw : string) (g : Grouper) (o : Out) : option (Grouper * Out) :=
  let line := normalize raw in
  if negb (Py.nonempty (Py.strip Py.isspace line)) then
    Some (if negb (forced_break g) then set_has_break true g else g, o)
  else
    match (if negb (has_break g) then Re._setext_header line else None) with
    | Some underline => setext_header_step underline g o
    | None =>
        match Re._atx_header line with
        | Some hashes => atx_header_step hashes line g o
        | None => other_line_step line g o
        end
    end.

(** the main loop; [f] is what the iterator still holds *)
Fixpoint main_loop (f : list string) (g : Grouper) (o : Out) : option Out :=
  match f with
  | [] => ' (_, o) <- flush_if_group false g o ;; Some o
  | raw :: f' => ' (g, o) <- step raw g o ;; main_loop f' g o
  end.

Definition groupify_with (f : list string) (o : Out) : option Out :=
  main_loop f grouper0 o.

End Groupify.

(** ** Tying the two together

    [_render_group] calls [_groupify] on the group of a nested element and
    [_groupify] calls [_render_group] at every flush.  Every level of that
    nesting takes three frames of the interpreter's call stack
    ([_groupify], [_do_render_group], [_render_group]), and Python raises
    RuntimeError (maximum recursion depth exceeded) where the stack is
    full.  [fuel] is the number of calls of [_groupify], one inside the
    other, that the interpreter has room for: each call of [_groupify] by
    the renderer uses one unit, and [None] is the RuntimeError. *)
Fixpoint _groupify (fuel : nat) (f : list string) (width : Z) (indent : string)
    (o : Stdout) : option Stdout :=
  match fuel with
  | O => None
  | S fuel' =>
      groupify_with Stdout (render_group_with (_groupify fuel')) width indent f o
  end.

Definition _render_group (fuel : nat) :=
  render_group_with (_groupify fuel).

(** [readmd(f, width)] for a given width; [dims] is what [_getTerminalSize]
    returns, used when [width] is [None] or 0 *)
Definition readmd (fuel : nat) (dims : option (Z * Z)) (f : list string)
    (width : option Z) : option Stdout :=
  let width :=
    match width with
    | Some w => if (w =? 0)%Z then fst (St.get dims (80, 24)%Z) else w
    | None => fst (St.get dims (80, 24)%Z)
    end in
  _groupify fuel f width "" stdout0.

(** the lines a document is printed as *)
Definition rendering (fuel : nat) (f : list string) (width : Z) : option (list string) :=
  option_map output_lines (_groupify fuel f width "" stdout0).

(** ** The command line

    The main block, up to the point where the files are opened: the test for
    the help options and the loop over [args], the arguments after the name
    of the program.  [int] is Python's conversion of a string to an integer;
    it raises [ValueError] where it is [None] here. *)

Inductive cli_error : Type :=
| ValueError (arg : string)
| WidthTooSmall.

(** what the main block goes on to do: print [USAGE], or read [paths] and
    print each of them at [width] *)
Inductive cli_action : Type :=
| PrintUsage
| Run (paths : list string) (width : option Z).

Section Cli.
Variable int : string -> option Z.

(** [for arg in args: ...], from the values [paths], [was_width] and
    [width] have when [args] is still to be read *)
Fixpoint parse_args (args paths : list string) (was_width : bool)
    (width : option Z) : cli_error + (list string * option Z) :=
  match args with
  | [] => inr (paths, width)
  | arg :: rest =>
      if was_width then
        match int arg with
        | None => inl (ValueError arg)
        | Some w =>
            if (w <? MIN_WIDTH)%Z && negb (w =? -1)%Z then inl WidthTooSmall
            else parse_args rest paths false (Some w)
        end
      else if String.eqb arg "-w" || String.eqb arg "--width"
      then parse_args rest paths true width
      else parse_args rest (Py.append paths arg) false width
  end.

(** [x in args] *)
Definition contains (x : string) (args : list string) : bool :=
  existsb (String.eqb x) args.

Definition main_args (args : list string) : cli_error + cli_action :=
  if contains "--help" args || contains "-h" args then inr PrintUsage
  else
    match parse_args args [] false None with
    | inl e => inl e
    | inr (paths, width) =>
        inr (Run (if nonnil paths then paths else Py.append paths "README.md") width)
    end.

End Cli.

(** ** Definitions for the statements

    What the theorems below speak of.  [greedy_pack], [section_words],
    [marked_words] and [spec_strip_blockquote] are written after the words
    of the specification, to be compared with the functions of the program;
    [writes] describes the output line by line; the others name parts of
    the program's behaviour. *)

(** greedy packing, after the specification: a word goes on the current
    line while [len(current) + len(word) + 1 <= width], otherwise it starts
    a new line *)
Fixpoint greedy_pack (width : Z) (current : string) (words : list string) : list string :=
  match words with
  | [] => [current]
  | word :: rest =>
      if (Py.len current + Py.len word + 1 <=? width)%Z
      then greedy_pack width (current ++ " " ++ word) rest
      else current :: greedy_pack width word rest
  end.

(** the lines of a list of words; no word gives one empty line *)
Definition greedy_lines (width : Z) (words : list string) : list string :=
  match words with
  | [] => [""]
  | word :: rest => greedy_pack width word rest
  end.

(** the words the loop of [_fit_text] runs over: the words of the section,
    the last one with the hard-break marker when [with_break] is set *)
Definition fit_words (section : string) (with_break : bool) : list string :=
  if with_break then append_to_last (words_of section) "  " else words_of section.

(** the words of a section, after the specification: its maximal runs of
    characters other than the space, from left to right; [word] is the run
    that is being read *)
Fixpoint section_words_from (word section : string) : list string :=
  match section with
  | EmptyString => if Py.nonempty word then [word] else []
  | String c rest =>
      if Ascii.eqb c " "
      then ((if Py.nonempty word then [word] else [])
            ++ section_words_from "" rest)%list
      else section_words_from (word ++ String c "") rest
  end.

Definition section_words (section : string) : list string :=
  section_words_from "" section.

(** the hard-break marker, after the specification: two spaces appended to
    the final word when [with_break] is set *)
Definition marked_words (words : list string) (with_break : bool) : list string :=
  if with_break
  then match rev words with
       | [] => []
       | final :: before => (rev before ++ [(final ++ "  ")%string])%list
       end
  else words.

(** the word sequence of a section, after the specification *)
Definition word_sequence (section : string) (with_break : bool) : list string :=
  marked_words (section_words section) with_break.

(** a line that ends in exactly two spaces *)
Definition ends_in_two_spaces (x : string) : Prop :=
  exists y c, x = y ++ String c "  " /\ c <> " "%char.

(** every character of [s] satisfies [p] *)
Fixpoint str_forall (p : ascii -> bool) (s : string) : bool :=
  match s with
  | EmptyString => true
  | String c s' => p c && str_forall p s'
  end.

(** a renderer that only counts the flushes, to observe the Grouper *)
Definition count_flush
    (_ : list string) (_ : Z) (_ : string) (_ : bool) (_ _ : string)
    (_ _ : bool) (n : nat) : option nat :=
  Some (S n).

(** the four branches of the main loop *)
Inductive line_kind : Type :=
| BlankLine | SetextLine | AtxLine | OtherLine.

Definition line_kind_of (g : Grouper) (raw : string) : line_kind :=
  let line := normalize raw in
  if negb (Py.nonempty (Py.strip Py.isspace line)) then BlankLine
  else if negb (has_break g) && is_some (Re._setext_header line) then SetextLine
  else if is_some (Re._atx_header line) then AtxLine
  else OtherLine.

(** what the specification says a blockquote continuation removes: the
    marker and one following space *)
Definition spec_strip_blockquote (line : string) : string :=
  match line with
  | String ">" (String " " rest) => rest
  | String ">" rest => rest
  | _ => line
  end.

(** a character that [normalize] leaves alone: no tab, newline or
    carriage return *)
Definition plain_char (c : ascii) : bool :=
  negb (Py.is_nl_cr c) && negb (Ascii.eqb c "009").

(** a line of markers, each followed by some spaces *)
Definition hr_line (items : list (ascii * nat)) : string :=
  fold_right (fun '(c, n) s => String c (Py.mul " " n ++ s)) "" items.

(** a word as the Text Fitter sees it: not empty, no whitespace *)
Definition token (t : string) : bool :=
  Py.nonempty t && str_forall (fun c => negb (Py.isspace c)) t.

(** ** Ordered lists *)

Definition is_letter (c : ascii) : bool :=
  let n := nat_of_ascii c in
  ((65 <=? n)%nat && (n <=? 90)%nat) || ((97 <=? n)%nat && (n <=? 122)%nat).

(** a word of letters *)
Definition plain_word (t : string) : bool :=
  Py.nonempty t && str_forall is_letter t.

(** a number as the source writes it: one digit or more *)
Definition digits (d : string) : bool :=
  Py.nonempty d && str_forall Py.isdigit d.

(** the first-line prefix [_increment_ol_state] gives the item number [n] *)
Definition ol_prefix (n : Z) : string := pad4 (Py.str_of_int n ++ ". ").

(** the source lines of an ordered list: each item a number, a dot, a space
    and a word *)
Definition ol_source (items : list (string * string)) : list string :=
  map (fun '(d, t) => d ++ ". " ++ t) items.

(** the same items, numbered from 1 *)
Definition ol_numbered (items : list (string * string)) : list string :=
  map (fun '(i, (_, t)) => ol_prefix (Z.of_nat i + 1) ++ t) (enumerate items).

(** a line of an ordered list, as the program reads it once normalized: up
    to three spaces, a number, a dot and whitespace; [text] is what comes
    after the whitespace *)
Definition ordered_item (raw text : string) : Prop :=
  exists k d w rest,
    (k <= 3)%nat /\ digits d = true /\ Py.isspace w = true
    /\ normalize raw = Py.mul " " k ++ d ++ "." ++ String w rest
    /\ text = Py.lstrip Py.isspace rest.

(** standard output after one more line *)
Definition put_line (x : string) (o : Stdout) : Stdout :=
  mkStdout (written o ++ x ++ String "010" "") false.

(** the classification state of the item number [n] of an ordered list *)
Definition ol_state (n : Z) : St.t :=
  St.mk (Some TYPE_OL) (Some (ol_prefix n)) (Some SPACES) (Some n) None.

Section Items.
Variable Out : Type.
Variable render :
  list string -> Z -> string -> bool -> string -> string -> bool -> bool ->
  Out -> option Out.
Variables (width : Z) (indent : string).

(** the items of an ordered list rendered one after the other, each a group
    of its own with the prefix of its number; the first has the number [n] *)
Fixpoint ol_rendered (n : Z) (is_first_render : bool) (texts : list string)
    (o : Out) : option Out :=
  match texts with
  | [] => Some o
  | text :: texts' =>
      ' o <- render [text] width indent is_first_render (ol_prefix n) SPACES
               false false o ;;
      ol_rendered (n + 1) false texts' o
  end.

End Items.

(** the lines of a list whose open item has the number [j] and the text
    [t], followed by the items [rest] *)
Fixpoint numbered_from (j : nat) (t : string) (rest : list (string * string))
    : list string :=
  match rest with
  | [] => [ol_prefix (Z.of_nat j) ++ t]
  | (_, t') :: rest' => (ol_prefix (Z.of_nat j) ++ t) :: numbered_from (S j) t' rest'
  end.

Definition put_lines (lines : list string) (o : Stdout) : Stdout :=
  fold_left (fun o x => put_line x o) lines o.

(** the text of some lines, each ended by a newline *)
Fixpoint lines_text (lines : list string) : string :=
  match lines with
  | [] => ""
  | x :: rest => x ++ String "010" (lines_text rest)
  end.

Definition no_newline (c : ascii) : bool := negb (Ascii.eqb c "010").

(** ** Tactics *)

(** case analysis on the tests a hypothesis still contains *)
Ltac split_tests H :=
  repeat match type of H with
         | context [if ?c then _ else _] => destruct c eqn:?
         end.

(** reduction of the accessors of the state, and of nothing else *)
Ltac grouper_simpl :=
  cbn [group has_break forced_break first_render prev_state state
       set_group set_has_break set_forced_break set_state new_state
       group_append Py.append app nonnil negb andb orb List.length Nat.eqb
       St.type St.prefix_first St.prefix_rest St.number St.character
       St.get St.has_type St.empty St.of_type St.set_prefix_first
       St.set_prefix_rest St.set_number St.set_character
       special_type_eqb is_some grouper0 fst snd].

(** ** The depth of nesting

    What bounds the calls of [_groupify] by the renderer: the number of
    characters of the lines, once normalized. *)

Definition weight (raw : string) : nat := String.length (normalize raw).

Definition total_weight (f : list string) : nat := list_sum (map weight f).

(** the renderer calls [_groupify] for a group in this state *)
Definition recursive_state (st : St.t) : bool :=
  negb (St.has_type TYPE_CODE st)
  && Py.nonempty (St.get (St.prefix_first st) "")
  && Py.nonempty (St.get (St.prefix_rest st) "").

(** what the open group still needs of the bound *)
Definition cost (g : Grouper) : nat :=
  if recursive_state (state g) then S (total_weight (group g)) else 0.

Definition no_tab (c : ascii) : bool := negb (Ascii.eqb c "009").

(** ** Paragraphs *)

(** a line of text: words of letters with single spaces between them *)
Definition text_line (l : string) : bool :=
  nonnil (words_of l) && forallb plain_word (words_of l)
  && String.eqb (Py.join " " (words_of l)) l.

(** a line the main loop takes for an empty one *)
Definition blank_line (raw : string) : bool :=
  negb (Py.nonempty (Py.strip Py.isspace (normalize raw))).

(** the source lines of a paragraph, and of the blank lines before one *)
Definition paragraph (p : list string) : bool := nonnil p && forallb text_line p.

Definition gap (b : list string) : bool := nonnil b && forallb blank_line b.

(** the lines of a paragraph at the left margin, fitted to the width *)
Definition fitted_paragraph (width : Z) (p : list string) : list string :=
  _fit_text (Py.join " " p) (relative_width_of width "" "" "") false.

(** a document of paragraphs: the first one, then each of the others after
    its blank lines *)
Definition paragraphs_source (p1 : list string)
    (rest : list (list string * list string)) : list string :=
  (p1 ++ flat_map (fun '(b, p) => b ++ p) rest)%list.

Definition paragraphs_printed (width : Z) (p1 : list string)
    (rest : list (list string * list string)) : list string :=
  (fitted_paragraph width p1
   ++ flat_map (fun '(_, p) => "" :: fitted_paragraph width p) rest)%list.

(** ** Blocks *)

(** a line of a code block, as the main loop sees it: no tab, newline or
    carriage return, four spaces or more and then something that is not
    blank *)
Definition code_line (l : string) : bool :=
  str_forall plain_char l && Re._code l && negb (blank_line l).

(** the classification state of a code block, of a blockquote and of an
    unordered list with the bullet [b] *)
Definition code_state : St.t :=
  St.mk (Some TYPE_CODE) (Some SPACES) (Some SPACES) None None.

Definition block_state : St.t :=
  St.mk (Some TYPE_BLOCK) (Some "> ") (Some "> ") None None.

Definition ul_state (b : ascii) : St.t :=
  St.mk (Some TYPE_UL) (Some (String b "   ")) (Some SPACES) None None.

(** the marker of a list item in the source: a bullet, or a number before
    its dot *)
Inductive marker : Type :=
| Bullet (b : ascii)
| Number (d : string).

Definition marker_ok (m : marker) : bool :=
  match m with Bullet b => Re.ul_char b | Number d => digits d end.

(** the source line of an item: the marker, a space and a word *)
Definition item_source (item : marker * string) : string :=
  match fst item with
  | Bullet b => String b (" " ++ snd item)
  | Number d => d ++ ". " ++ snd item
  end.

Definition item_ok (item : marker * string) : bool :=
  marker_ok (fst item) && plain_word (snd item).

(** the lines of a quoted paragraph, fitted to what the marker leaves of the
    width *)
Definition quoted_paragraph (width : Z) (p : list string) : list string :=
  map (fun line => "> " ++ line)
      (_fit_text (Py.join " " p) (relative_width_of width "> " "" "") false).

(** the source lines of the items of a list after the first, each with the
    blank lines before it, and what is printed for the whole list when the
    first item has the bullet [b] and the text [t] *)
Definition loose_source (rest : list (list string * (marker * string)))
    : list string :=
  flat_map (fun '(g, item) => g ++ [item_source item])%list rest.

Definition loose_printed (b : ascii) (t : string)
    (rest : list (list string * (marker * string))) : list string :=
  String b ("   " ++ t)
  :: flat_map (fun '(g, item) =>
                 (if nonnil g then [""] else []) ++ [String b ("   " ++ snd item)])%list
       rest.

(** lines with their margins: the first one after [first_indent], the
    others after [indent] *)
Definition margin_lines (first_indent indent : string) (lines : list string)
    : list string :=
  match lines with
  | [] => []
  | x :: rest => (first_indent ++ x) :: map (fun y => indent ++ y) rest
  end.

(** ** Headers *)

(** an ATX header in the source: [n + 1] hashes, [k] spaces, the title,
    and [j] spaces and [i] closing hashes *)
Definition atx_source (n k : nat) (title : string) (j i : nat) : string :=
  Py.mul "#" (S n) ++ Py.mul " " k ++ title ++ Py.mul " " j ++ Py.mul "#" i.

(** the text of the header as the program builds it *)
Definition atx_text (n : nat) (title : string) : string :=
  Py.mul "#" (S n) ++ " " ++ title.

(** what the Grouper needs of a line of text *)
Record text_facts (l : string) : Prop := {
  text_head : exists c s, l = String c s /\ is_letter c = true;
  text_plain : str_forall plain_char l = true;
  text_last : exists c, last_char l = Some c /\ is_letter c = true;
  text_line_feed : str_forall no_newline l = true;
  text_chars : str_forall (fun c => is_letter c || Ascii.eqb c " ") l = true
}.

(** ** The width of the output *)

(** a body of at most one word: a single run of characters other than the
    space, with nothing but spaces around it *)
Definition one_word (body : string) : bool :=
  (List.length (section_words body) <=? 1)%nat.

(** the two prefixes of an element the renderer hands to the Grouper: a
    quote, an item with a bullet, an item with a number *)
Definition element_prefixes (prefix_first prefix_rest : string) : Prop :=
  (prefix_first = "> " /\ prefix_rest = "> ")
  \/ (prefix_rest = SPACES
      /\ ((exists c, Re.ul_char c = true /\ prefix_first = String c "   ")
          \/ exists n, prefix_first = ol_prefix n)).

(** What a call of [_groupify] at the width [width] and the indent [indent]
    adds to standard output, one [print] after the other:
    - a fitted line: the indent (nothing on the first line of a call) and a
      body that is a single word or no longer than
      [max(MIN_WIDTH, width - len(indent))];
    - a verbatim code line behind the indent;
    - the line after a group: the indent without its trailing spaces;
    - a nested element: its first prefix without the final space, printed
      without a newline, and then what the call for the element adds at the
      indent that is longer by its second prefix. *)
Inductive writes (width : Z) : string -> Stdout -> Stdout -> Prop :=
| writes_nothing : forall indent o, writes width indent o o
| writes_line : forall indent (first : bool) body o o',
    one_word body = true
    \/ (Py.len body <= Z.max MIN_WIDTH (width - Py.len indent))%Z ->
    writes width indent (print ((if first then "" else indent) ++ body) o) o' ->
    writes width indent o o'
| writes_code : forall indent (first : bool) line o o',
    Re._code line = true ->
    writes width indent (print ((if first then "" else indent) ++ line) o) o' ->
    writes width indent o o'
| writes_after : forall indent o o',
    writes width indent (print (Re.sub_end_space indent) o) o' ->
    writes width indent o o'
| writes_element : forall indent (first : bool) prefix_first prefix_rest o o1 o',
    element_prefixes prefix_first prefix_rest ->
    writes width (indent ++ prefix_rest)
      (print_comma ((if first then "" else indent) ++ Py.drop_last prefix_first) o)
      o1 ->
    writes width indent o1 o' ->
    writes width indent o o'.

(** what the Grouper hands to the renderer: a code block, a group without
    prefixes, or a nested element *)
Definition render_ok (group : list string) (prefix_first prefix_rest : string)
    (is_pre : bool) : Prop :=
  (is_pre = true /\ Forall (fun line => Re._code line = true) group)
  \/ (is_pre = false /\ prefix_first = "" /\ prefix_rest = "")
  \/ (is_pre = false /\ element_prefixes prefix_first prefix_rest).

(** the classification state carries the prefixes of its type *)
Definition state_ok (st : St.t) : Prop :=
  match St.type st with
  | Some TYPE_CODE => True
  | Some TYPE_OL =>
      St.prefix_rest st = Some SPACES
      /\ exists n, St.prefix_first st = Some (ol_prefix n)
  | Some TYPE_UL =>
      St.prefix_rest st = Some SPACES
      /\ exists c, Re.ul_char c = true /\ St.prefix_first st = Some (String c "   ")
  | Some TYPE_BLOCK =>
      St.prefix_rest st = Some "> " /\ St.prefix_first st = Some "> "
  | Some TYPE_HR | None =>
      St.prefix_first st = None /\ St.prefix_rest st = None
  end.

(** the lines of an open code block are code lines *)
Definition grouper_ok (g : Grouper) : Prop :=
  state_ok (state g)
  /\ (St.has_type TYPE_CODE (state g) = true ->
      Forall (fun line => Re._code line = true) (group g)).

(** ** The command line *)

(** an argument that announces a width *)
Definition width_option (arg : string) : bool :=
  String.eqb arg "-w" || String.eqb arg "--width".

Local Open Scope Z_scope.

(** ** The Text Fitter packs greedily and keeps every word *)

Lemma append_nil_r (s : string) : s ++ "" = s.
Proof. induction s; simpl; congruence. Qed.

Lemma append_assoc (a b c : string) : (a ++ b) ++ c = a ++ (b ++ c).
Proof. induction a; simpl; congruence. Qed.

Lemma length_append (a b : string) :
  String.length (a ++ b) = (String.length a + String.length b)%nat.
Proof. induction a; simpl; congruence. Qed.

Lemma len_append (a b : string) : Py.len (a ++ b) = Py.len a + Py.len b.
Proof. unfold Py.len. rewrite length_append. lia. Qed.

Lemma len_nonneg (s : string) : 0 <= Py.len s.
Proof. unfold Py.len. lia. Qed.

Lemma nonempty_true (s : string) : Py.nonempty s = true <-> s <> "".
Proof. destruct s; simpl; split; congruence. Qed.

Lemma nonempty_append_l (a b : string) : Py.nonempty a = true -> Py.nonempty (a ++ b) = true.
Proof. destruct a; simpl; congruence. Qed.

Lemma words_of_nonempty (section : string) :
  Forall (fun w => Py.nonempty w = true) (words_of section).
Proof.
  unfold words_of. apply Forall_forall. intros w Hw.
  apply filter_In in Hw. tauto.
Qed.

Lemma append_to_last_nonempty (ws : list string) (suffix : string) :
  Forall (fun w => Py.nonempty w = true) ws ->
  Forall (fun w => Py.nonempty w = true) (append_to_last ws suffix).
Proof.
  induction ws as [|w ws IH]; intros H; [constructor|].
  inversion H; subst. destruct ws as [|w' ws'].
  - simpl. constructor; [now apply nonempty_append_l | constructor].
  - change (append_to_last (w :: w' :: ws') suffix)
      with (w :: append_to_last (w' :: ws') suffix).
    constructor; auto.
Qed.

Lemma fit_words_nonempty (section : string) (b : bool) :
  Forall (fun w => Py.nonempty w = true) (fit_words section b).
Proof.
  unfold fit_words. destruct b.
  - apply append_to_last_nonempty, words_of_nonempty.
  - apply words_of_nonempty.
Qed.

Lemma fit_text_words (section : string) (width : Z) (b : bool) :
  _fit_text section width b =
  let '(result, cur) := fit_loop width 0 (fit_words section b) [] "" in
  Py.append result cur.
Proof.
  unfold _fit_text, fit_words. destruct b; simpl; [|reflexivity].
  destruct (words_of section); reflexivity.
Qed.

Lemma starts_new_line_bounded (width : Z) (cur word : string) :
  width <> -1 -> Py.nonempty cur = true ->
  starts_new_line width cur word = negb (Py.len cur + Py.len word + 1 <=? width).
Proof.
  intros Hw Hc. unfold starts_new_line. rewrite Hc.
  destruct (Z.eqb_spec width (-1)); [contradiction|]. simpl.
  rewrite Z.gtb_ltb, Z.leb_antisym, negb_involutive. reflexivity.
Qed.

Lemma starts_new_line_unbounded (cur word : string) :
  starts_new_line (-1) cur word = false.
Proof. unfold starts_new_line. simpl. now rewrite andb_false_r. Qed.

Lemma fit_loop_greedy (width : Z) (words : list string) :
  width <> -1 ->
  Forall (fun w => Py.nonempty w = true) words ->
  forall i result cur, Py.nonempty cur = true ->
    (let '(r, c) := fit_loop width (S i) words result cur in Py.append r c)
    = (result ++ greedy_pack width cur words)%list.
Proof.
  intros Hw. induction 1 as [|word rest Hword Hrest IH]; intros i result cur Hc.
  - reflexivity.
  - simpl fit_loop. rewrite starts_new_line_bounded by assumption.
    simpl greedy_pack.
    destruct (Py.len cur + Py.len word + 1 <=? width); simpl negb; cbv iota.
    + apply IH. now apply nonempty_append_l.
    + rewrite IH by assumption. unfold Py.append.
      rewrite <- app_assoc. reflexivity.
Qed.

Lemma fit_loop_one_line (words : list string) :
  forall i result cur,
    fit_loop (-1) (S i) words result cur = (result, Py.join " " (cur :: words)).
Proof.
  induction words as [|word rest IH]; intros i result cur.
  - reflexivity.
  - simpl fit_loop. rewrite starts_new_line_unbounded.
    rewrite IH. f_equal. unfold Py.join. simpl.
    destruct rest; simpl; now rewrite ?append_assoc.
Qed.

Lemma fit_loop_first (width : Z) (word : string) (rest result : list string) :
  fit_loop width 0 (word :: rest) result "" = fit_loop width 1 rest result word.
Proof. reflexivity. Qed.

(** the lines of a list of words that are not empty *)
Lemma fit_loop_packs (width : Z) (words : list string) :
  Forall (fun w => Py.nonempty w = true) words ->
  (let '(r, c) := fit_loop width 0 words [] "" in Py.append r c)
  = if width =? -1 then [Py.join " " words] else greedy_lines width words.
Proof.
  intros Hne. destruct words as [|word rest].
  - simpl. now destruct (width =? -1).
  - inversion Hne; subst. rewrite fit_loop_first.
    destruct (Z.eqb_spec width (-1)) as [->|Hw].
    + rewrite fit_loop_one_line. reflexivity.
    + apply (fit_loop_greedy width rest Hw H2 0%nat [] word H1).
Qed.

Lemma fit_text_packs (section : string) (width : Z) (with_break : bool) :
  _fit_text section width with_break =
  if width =? -1 then [Py.join " " (fit_words section with_break)]
  else greedy_lines width (fit_words section with_break).
Proof.
  rewrite fit_text_words. apply fit_loop_packs, fit_words_nonempty.
Qed.

(** the words of the program are the words of the specification *)
Lemma split_words_from (section : string) :
  forall word,
    section_words_from word section
    = filter Py.nonempty
        match Py.split " " section with
        | piece :: pieces => (word ++ piece) :: pieces
        | [] => [word]
        end.
Proof.
  induction section as [|c rest IH]; intros word.
  - cbn [section_words_from Py.split filter]. now rewrite append_nil_r.
  - cbn [section_words_from Py.split]. destruct (Ascii.eqb c " ").
    + rewrite IH. cbn [filter]. rewrite append_nil_r.
      destruct (Py.split " " rest) as [|piece pieces];
        destruct (Py.nonempty word); reflexivity.
    + rewrite IH. destruct (Py.split " " rest) as [|piece pieces].
      * reflexivity.
      * now rewrite append_assoc.
Qed.

Lemma words_of_section_words (section : string) :
  words_of section = section_words section.
Proof.
  unfold words_of, section_words. rewrite split_words_from.
  destruct (Py.split " " section) as [|piece pieces] eqn:E; [|reflexivity].
  destruct section as [|c rest]; [discriminate|].
  simpl in E. destruct (Ascii.eqb c " "); [discriminate|].
  destruct (Py.split " " rest); discriminate.
Qed.

Lemma append_to_last_snoc (ws : list string) (w suffix : string) :
  append_to_last (ws ++ [w])%list suffix = (ws ++ [(w ++ suffix)%string])%list.
Proof.
  induction ws as [|x ws IH]; [reflexivity|].
  cbn [app]. destruct (ws ++ [w])%list as [|y l] eqn:E.
  - now destruct ws.
  - change (append_to_last (x :: y :: l) suffix)
      with (x :: append_to_last (y :: l) suffix).
    now rewrite IH.
Qed.

Lemma append_to_last_marked (ws : list string) :
  append_to_last ws "  " = marked_words ws true.
Proof.
  unfold marked_words. rewrite <- (rev_involutive ws) at 1.
  destruct (rev ws) as [|final before]; [reflexivity|].
  cbn [rev]. apply append_to_last_snoc.
Qed.

Lemma fit_words_sequence (section : string) (with_break : bool) :
  fit_words section with_break = word_sequence section with_break.
Proof.
  unfold fit_words, word_sequence. rewrite <- words_of_section_words.
  destruct with_break; [apply append_to_last_marked|reflexivity].
Qed.

(** C2, as amended.  The Text Fitter packs the words of the section
    greedily, the words being its maximal runs of characters other than the
    space (the last one with the two spaces of the hard break when
    [with_break] is set): for a width other than -1 its lines are the greedy
    packing of that word sequence, where a word joins the current line
    exactly when [len(current) + len(word) + 1 <= width] and starts a new
    line otherwise; for the width -1 it returns a single line, the words
    joined by single spaces, so the spaces of the input are not all kept. *)
Theorem fit_text_greedy (section : string) (width : Z) (with_break : bool) :
  _fit_text section width with_break =
  if width =? -1 then [Py.join " " (word_sequence section with_break)]
  else greedy_lines width (word_sequence section with_break).
Proof.
  rewrite fit_text_words.
  pose proof (fit_words_nonempty section with_break) as Hne.
  rewrite fit_words_sequence in *.
  destruct (word_sequence section with_break) as [|word rest].
  - simpl. now destruct (width =? -1).
  - inversion Hne; subst. rewrite fit_loop_first.
    destruct (Z.eqb_spec width (-1)) as [->|Hw].
    + rewrite fit_loop_one_line. reflexivity.
    + apply (fit_loop_greedy width rest Hw H2 0%nat [] word H1).
Qed.

(** C2 as stated fails at the width -1: the line returned for a section
    with two spaces in a row is not the section. *)
Lemma fit_text_not_the_input :
  _fit_text "a  b" (-1) false = ["a b"]
  /\ _fit_text "a  b" (-1) false <> ["a  b"].
Proof. split; [reflexivity|discriminate]. Qed.

(* chunks *)
Lemma join_cons (sep x : string) (l : list string) :
  l <> [] -> Py.join sep (x :: l) = x ++ sep ++ Py.join sep l.
Proof. destruct l; [congruence|reflexivity]. Qed.

Lemma join_app (sep : string) (l1 l2 : list string) :
  l1 <> [] -> l2 <> [] ->
  Py.join sep (l1 ++ l2)%list = Py.join sep l1 ++ sep ++ Py.join sep l2.
Proof.
  intros H1 H2. induction l1 as [|x l1 IH]; [congruence|].
  destruct l1 as [|y l1].
  - simpl app. now rewrite join_cons.
  - change ((x :: y :: l1) ++ l2)%list with (x :: ((y :: l1) ++ l2))%list.
    rewrite join_cons by discriminate. rewrite IH by discriminate.
    rewrite (join_cons sep x (y :: l1)) by discriminate.
    now rewrite !append_assoc.
Qed.

Lemma join_snoc (sep : string) (l : list string) (x : string) :
  l <> [] -> Py.join sep (l ++ [x])%list = Py.join sep l ++ sep ++ x.
Proof. intros H. now rewrite join_app by (assumption || discriminate). Qed.

Lemma join_chunks (sep : string) (chunks : list (list string)) :
  Forall (fun c => c <> []) chunks ->
  Py.join sep (map (Py.join sep) chunks) = Py.join sep (List.concat chunks).
Proof.
  induction 1 as [|c cs Hc Hcs IH]; [reflexivity|].
  destruct cs as [|c' cs'].
  - simpl. now rewrite app_nil_r.
  - change (map (Py.join sep) (c :: c' :: cs'))
      with (Py.join sep c :: map (Py.join sep) (c' :: cs')).
    rewrite join_cons by discriminate. rewrite IH.
    change (List.concat (c :: c' :: cs')) with (c ++ List.concat (c' :: cs'))%list.
    rewrite join_app; [reflexivity|assumption|].
    inversion Hcs; subst. simpl. destruct c'; [congruence|discriminate].
Qed.

Lemma greedy_pack_chunks (width : Z) (words : list string) :
  forall chunk, chunk <> [] ->
    exists chunks,
      List.concat chunks = (chunk ++ words)%list /\
      greedy_pack width (Py.join " " chunk) words = map (Py.join " ") chunks /\
      Forall (fun c => c <> []) chunks.
Proof.
  induction words as [|word rest IH]; intros chunk Hc.
  - exists [chunk]. simpl. rewrite !app_nil_r. repeat split. now constructor.
  - simpl greedy_pack.
    destruct (Py.len (Py.join " " chunk) + Py.len word + 1 <=? width).
    + destruct (IH (chunk ++ [word])%list) as (chunks & H1 & H2 & H3).
      { now destruct chunk. }
      exists chunks. rewrite H1, <- app_assoc. split; [reflexivity|].
      split; [|assumption]. rewrite <- H2. now rewrite join_snoc.
    + destruct (IH [word]) as (chunks & H1 & H2 & H3); [discriminate|].
      exists (chunk :: chunks). simpl. rewrite H1. split; [reflexivity|].
      split; [|now constructor]. f_equal. exact H2.
Qed.

Lemma fit_text_chunks (section : string) (width : Z) (with_break : bool) :
  exists chunks,
    List.concat chunks = fit_words section with_break /\
    _fit_text section width with_break = map (Py.join " ") chunks /\
    (fit_words section with_break = [] \/ Forall (fun c => c <> []) chunks).
Proof.
  rewrite fit_text_packs.
  destruct (fit_words section with_break) as [|word rest] eqn:E.
  - exists [[]]. simpl. destruct (width =? -1); auto.
  - destruct (width =? -1).
    + exists [word :: rest]. simpl. rewrite app_nil_r. repeat split.
      right. constructor; [discriminate|constructor].
    + destruct (greedy_pack_chunks width rest [word]) as (chunks & H1 & H2 & H3);
        [discriminate|].
      exists chunks. simpl. auto.
Qed.

(** C3.  Joining the lines of [_fit_text] by single spaces gives the word
    sequence of the section joined by single spaces: its maximal runs of
    characters other than the space, in order, the final one with the two
    spaces of the hard break when [with_break] is set; this holds at every
    width, and the lines are the joins of consecutive chunks of that word
    sequence, so no word is cut, moved, repeated or lost. *)
Theorem fit_text_join (section : string) (width : Z) (with_break : bool) :
  Py.join " " (_fit_text section width with_break)
  = Py.join " " (word_sequence section with_break)
  /\ exists chunks,
       List.concat chunks = word_sequence section with_break /\
       _fit_text section width with_break = map (Py.join " ") chunks.
Proof.
  rewrite <- fit_words_sequence.
  destruct (fit_text_chunks section width with_break) as (chunks & H1 & H2 & H3).
  split; [|now exists chunks].
  rewrite H2. destruct H3 as [H3|H3].
  - rewrite H3 in *. rewrite fit_text_packs in H2. rewrite H3 in H2.
    rewrite <- H2. simpl. now destruct (width =? -1).
  - rewrite <- H1. now apply join_chunks.
Qed.

Lemma greedy_pack_width (width : Z) (all : list string) (words : list string) :
  forall cur,
    (Py.len cur <= width \/ In cur all) -> incl words all ->
    Forall (fun l => Py.len l <= width \/ In l all) (greedy_pack width cur words).
Proof.
  induction words as [|word rest IH]; intros cur Hc Hincl.
  - simpl. constructor; [assumption|constructor].
  - simpl. destruct (Z.leb_spec (Py.len cur + Py.len word + 1) width).
    + apply IH.
      * left. rewrite !len_append. unfold Py.len in *. simpl String.length. lia.
      * intros x Hx. apply Hincl. now right.
    + constructor; [assumption|]. apply IH.
      * right. apply Hincl. now left.
      * intros x Hx. apply Hincl. now right.
Qed.

Lemma fit_text_width (section : string) (width : Z) (with_break : bool) :
  0 <= width ->
  Forall (fun l => Py.len l <= width \/ In l (fit_words section with_break))
         (_fit_text section width with_break).
Proof.
  intros Hw. rewrite fit_text_packs.
  destruct (Z.eqb_spec width (-1)); [lia|].
  destruct (fit_words section with_break) as [|word rest] eqn:E.
  - simpl. constructor; [left; change (Py.len "") with 0; lia|constructor].
  - apply (greedy_pack_width width (word :: rest) rest word).
    + right. now left.
    + intros x Hx. now right.
Qed.

(** ** enumerate *)
Lemma enumerate_from_In {A : Type} (l : list A) :
  forall start i x, In (i, x) (combine (seq start (List.length l)) l) ->
    (start <= i)%nat /\ nth_error l (i - start) = Some x.
Proof.
  induction l as [|a l IH]; intros start i x H; [destruct H|].
  simpl in H. destruct H as [H|H].
  - inversion H; subst. rewrite Nat.sub_diag. split; [lia|reflexivity].
  - apply IH in H. destruct H as [H1 H2]. split; [lia|].
    replace (i - start)%nat with (S (i - S start)) by lia. exact H2.
Qed.

Lemma enumerate_In {A : Type} (l : list A) (i : nat) (x : A) :
  In (i, x) (enumerate l) -> nth_error l i = Some x.
Proof.
  intros H. apply enumerate_from_In in H. now rewrite Nat.sub_0_r in H.
Qed.

Lemma wrapped_lines_In (sections : list string) (rw : Z)
    (fi ind pf pr x : string) :
  In x (wrapped_lines sections rw fi ind pf pr) ->
  exists i section j body,
    nth_error sections i = Some section /\
    nth_error (_fit_text section rw (i + 1 <? List.length sections)%nat) j = Some body /\
    x = (if Nat.eqb i 0 && Nat.eqb j 0 then fi else ind)
        ++ (if Nat.eqb i 0 && Nat.eqb j 0 then pf else pr) ++ body.
Proof.
  unfold wrapped_lines. intros H. apply in_flat_map in H.
  destruct H as ([i section] & Hs & H). apply in_map_iff in H.
  destruct H as ([j body] & Hx & Hb).
  exists i, section, j, body. repeat split.
  - now apply enumerate_In.
  - now apply enumerate_In.
  - now symmetry.
Qed.

Lemma relative_width_floor (width : Z) (indent pf pr : string) :
  width <> -1 -> MIN_WIDTH <= relative_width_of width indent pf pr.
Proof.
  intros H. unfold relative_width_of.
  destruct (Z.eqb_spec width (-1)); [contradiction|]. apply Z.le_max_l.
Qed.

Lemma relative_width_room (width : Z) (indent pf pr : string) :
  width <> -1 ->
  MIN_WIDTH <= width - Py.len indent - Z.max (Py.len pf) (Py.len pr) ->
  relative_width_of width indent pf pr
  = width - Py.len indent - Z.max (Py.len pf) (Py.len pr).
Proof.
  intros H Hroom. unfold relative_width_of.
  destruct (Z.eqb_spec width (-1)); [contradiction|]. now apply Z.max_r.
Qed.

Lemma str_forall_app (p : ascii -> bool) (a b : string) :
  str_forall p (a ++ b) = str_forall p a && str_forall p b.
Proof. induction a; simpl; [reflexivity|]. now rewrite IHa, andb_assoc. Qed.

Lemma str_forall_impl (p q : ascii -> bool) (s : string) :
  (forall c, p c = true -> q c = true) ->
  str_forall p s = true -> str_forall q s = true.
Proof.
  intros Hpq. induction s; simpl; [reflexivity|].
  intros H. apply andb_true_iff in H. destruct H as [H1 H2].
  rewrite (Hpq _ H1). now apply IHs.
Qed.

Lemma rstrip_not_all (p : ascii -> bool) (s : string) :
  Py.nonempty (Py.rstrip p s) = true -> str_forall p (Py.rstrip p s) = false.
Proof.
  induction s as [|c s IH]; simpl; [discriminate|].
  destruct (Py.rstrip p s) as [|c' r] eqn:E.
  - destruct (p c) eqn:Ep; simpl; [discriminate|]. now rewrite Ep.
  - intros _. simpl in *. rewrite IH by reflexivity. apply andb_false_r.
Qed.

Lemma strip_has_word (line : string) :
  Py.nonempty (Py.strip Py.isspace line) = true ->
  str_forall (Py.is_char " ") (Py.strip Py.isspace line) = false.
Proof.
  intros H. unfold Py.strip in *. apply rstrip_not_all in H.
  destruct (str_forall (Py.is_char " ") _) eqn:E; [|reflexivity].
  rewrite (str_forall_impl (Py.is_char " ") Py.isspace) in H; [discriminate| |assumption].
  intros c Hc. unfold Py.is_char in Hc. apply Ascii.eqb_eq in Hc. now subst.
Qed.

Lemma split_nonnil (sep : ascii) (s : string) : Py.split sep s <> [].
Proof.
  destruct s as [|c s]; simpl; [discriminate|].
  destruct (Ascii.eqb c sep); [discriminate|].
  destruct (Py.split sep s); discriminate.
Qed.

Lemma split_no_sep (sep : ascii) (s : string) :
  Forall (fun w => str_forall (fun c => negb (Ascii.eqb c sep)) w = true)
         (Py.split sep s).
Proof.
  induction s as [|c s IH]; simpl.
  - constructor; [reflexivity|constructor].
  - destruct (Ascii.eqb c sep) eqn:E.
    + constructor; [reflexivity|assumption].
    + destruct (Py.split sep s) as [|w ws]; inversion IH; subst.
      * constructor; [simpl; now rewrite E|constructor].
      * constructor; [simpl; now rewrite E|assumption].
Qed.

Lemma words_of_no_space (section : string) :
  Forall (fun w => str_forall (fun c => negb (Ascii.eqb c " ")) w = true)
         (words_of section).
Proof.
  unfold words_of. apply Forall_forall. intros w Hw. apply filter_In in Hw.
  pose proof (split_no_sep " " section) as H. rewrite Forall_forall in H.
  apply H. tauto.
Qed.

Lemma words_of_nonnil (s : string) :
  str_forall (Py.is_char " ") s = false -> words_of s <> [].
Proof.
  unfold words_of. induction s as [|c s IH]; simpl; [discriminate|].
  unfold Py.is_char at 1. destruct (Ascii.eqb c " ") eqn:E; simpl.
  - exact IH.
  - intros _. pose proof (split_nonnil " " s).
    destruct (Py.split " " s); [congruence|]. simpl. discriminate.
Qed.

(** the last character of a non-empty string *)
Lemma string_last (w : string) :
  Py.nonempty w = true -> exists y c, w = y ++ String c "".
Proof.
  induction w as [|a w IH]; [discriminate|]. intros _.
  destruct w as [|b w'].
  - now exists "", a.
  - destruct IH as (y & c & E); [reflexivity|].
    exists (String a y), c. simpl. now rewrite <- E.
Qed.

Lemma word_last_char (w : string) :
  Py.nonempty w = true ->
  str_forall (fun c => negb (Ascii.eqb c " ")) w = true ->
  exists y c, w = y ++ String c "" /\ c <> " "%char.
Proof.
  intros Hne Hall. destruct (string_last w Hne) as (y & c & E).
  exists y, c. split; [assumption|]. rewrite E, str_forall_app in Hall.
  apply andb_true_iff in Hall. destruct Hall as [_ Hc]. simpl in Hc.
  rewrite andb_true_r in Hc. apply negb_true_iff, Ascii.eqb_neq in Hc. exact Hc.
Qed.

Lemma append_to_last_cons (x : string) (l : list string) (suffix : string) :
  l <> [] -> append_to_last (x :: l) suffix = x :: append_to_last l suffix.
Proof. destruct l; [congruence|reflexivity]. Qed.

Lemma fit_text_break_last (section : string) (rw : Z) :
  words_of section <> [] ->
  exists fitted body,
    _fit_text section rw true = (fitted ++ [body])%list /\ ends_in_two_spaces body.
Proof.
  intros Hne.
  destruct (fit_text_chunks section rw true) as (chunks & H1 & H2 & H3).
  unfold fit_words in *.
  destruct (exists_last Hne) as (ws & w & Ews).
  rewrite Ews, append_to_last_snoc in *.
  destruct H3 as [H3|H3]; [destruct ws; discriminate|].
  assert (Hc : chunks <> []) by (intros ->; destruct ws; discriminate).
  destruct (exists_last Hc) as (cs & lastc & ->).
  apply Forall_app in H3. destruct H3 as [_ H3]. inversion H3; subst.
  destruct (@exists_last _ lastc) as (lw & wl & ->); [assumption|].
  rewrite concat_app in H1. simpl in H1. rewrite app_nil_r, app_assoc in H1.
  apply app_inj_tail in H1. destruct H1 as [_ ->].
  rewrite H2, map_app. simpl map.
  exists (map (Py.join " ") cs), (Py.join " " (lw ++ [(w ++ "  ")%string])). split; [reflexivity|].
  pose proof (words_of_nonempty section) as Hw1.
  pose proof (words_of_no_space section) as Hw2.
  rewrite Ews in Hw1, Hw2. apply Forall_app in Hw1, Hw2.
  destruct Hw1 as [_ Hw1]. destruct Hw2 as [_ Hw2].
  inversion Hw1; subst. inversion Hw2; subst.
  destruct (word_last_char w) as (y & c & -> & Hcne); try assumption.
  destruct lw as [|x lw].
  - exists y, c. simpl. now rewrite append_assoc.
  - rewrite join_snoc by discriminate.
    exists (Py.join " " (x :: lw) ++ " " ++ y), c. split; [|assumption].
    now rewrite !append_assoc.
Qed.

(** ** sections *)
Lemma build_sections_acc (n : nat) (l : list string) :
  forall i secs cur,
    build_sections n i l secs cur = (secs ++ build_sections n i l [] cur)%list.
Proof.
  induction l as [|line rest IH]; intros i secs cur.
  - simpl. now rewrite app_nil_r.
  - simpl. unfold Py.append.
    destruct (Py.endswith line "  " || String.eqb line (String "010" "")
              || Nat.eqb (i + 1) n);
      destruct (String.eqb line (String "010" ""));
      rewrite IH; symmetry; rewrite IH; simpl; now rewrite <- ?app_assoc.
Qed.

Lemma build_sections_last (n : nat) (l : list string) :
  forall i cur, l <> [] -> (i + List.length l = n)%nat ->
    build_sections n i l [] cur <> [].
Proof.
  induction l as [|line rest IH]; intros i cur Hne Hn; [congruence|].
  simpl. destruct rest as [|line' rest'].
  - simpl in Hn. replace (Nat.eqb (i + 1) n) with true
      by (symmetry; apply Nat.eqb_eq; lia).
    rewrite orb_true_r. unfold Py.append. simpl.
    destruct (String.eqb line (String "010" "")); discriminate.
  - rewrite build_sections_acc. intros H. apply app_eq_nil in H.
    destruct H as [_ H]. revert H. apply IH; [discriminate|].
    simpl in *. lia.
Qed.

Lemma endswith_break_not_marker (line : string) :
  Py.endswith line "  " = true -> String.eqb line (String "010" "") = false.
Proof.
  intros H. destruct (String.eqb_spec line (String "010" "")); [|reflexivity].
  subst. discriminate.
Qed.

Lemma build_sections_step (n i : nat) (a : string) (rest secs : list string)
    (cur : string) :
  exists d cur',
    build_sections n i (a :: rest) secs cur
    = build_sections n (S i) rest (secs ++ d) cur'.
Proof.
  simpl. unfold Py.append.
  destruct (Py.endswith a "  " || String.eqb a (String "010" "")
            || Nat.eqb (i + 1) n);
    destruct (String.eqb a (String "010" "")).
  - eexists [_; _], _. rewrite <- app_assoc. reflexivity.
  - eexists [_], _. reflexivity.
  - eexists [_], _. reflexivity.
  - eexists [], _. rewrite app_nil_r. reflexivity.
Qed.

Lemma sections_hard_break (n : nat) (line : string) (post : list string) :
  Py.endswith line "  " = true -> post <> [] ->
  forall pre i secs cur,
    (i + List.length pre + 1 + List.length post = n)%nat ->
    exists c S1 S2,
      build_sections n i (pre ++ line :: post) secs cur
      = (secs ++ S1 ++ [(c ++ Py.strip Py.isspace line ++ "  ")%string] ++ S2)%list
      /\ S2 <> [].
Proof.
  intros Hend Hpost. induction pre as [|a pre IH]; intros i secs cur Hn.
  - simpl app. simpl build_sections. rewrite Hend.
    rewrite (endswith_break_not_marker line Hend). simpl orb. cbv iota.
    rewrite build_sections_acc. unfold Py.append.
    exists (cur ++ (if Nat.eqb i 0 then "" else " "))%string, [],
           (build_sections n (S i) post [] "").
    split.
    + simpl. rewrite <- app_assoc. simpl. rewrite !append_assoc. reflexivity.
    + apply build_sections_last; [assumption|]. simpl in Hn. lia.
  - change ((a :: pre) ++ line :: post)%list with (a :: (pre ++ line :: post))%list.
    destruct (build_sections_step n i a (pre ++ line :: post) secs cur)
      as (d & cur' & ->).
    destruct (IH (S i) (secs ++ d)%list cur') as (c0 & S1 & S2 & E & HS2);
      [simpl in *; lia|].
    exists c0, (d ++ S1)%list, S2. split; [|assumption].
    rewrite E, <- !app_assoc. reflexivity.
Qed.

Lemma combine_seq_app {A : Type} (l1 l2 : list A) :
  forall start,
    combine (seq start (List.length (l1 ++ l2))) (l1 ++ l2)
    = (combine (seq start (List.length l1)) l1
       ++ combine (seq (start + List.length l1) (List.length l2)) l2)%list.
Proof.
  induction l1 as [|a l1 IH]; intros start.
  - simpl. now rewrite Nat.add_0_r.
  - simpl. rewrite IH. now rewrite Nat.add_succ_r.
Qed.



(** ** Lines and patterns *)

Lemma rstrip_cons_keep (p : ascii -> bool) (c : ascii) (s : string) :
  p c = false -> Py.nonempty (Py.rstrip p (String c s)) = true.
Proof. intros H. simpl. destruct (Py.rstrip p s); [now rewrite H|reflexivity]. Qed.

Lemma strip_cons_keep (p : ascii -> bool) (c : ascii) (s : string) :
  p c = false -> Py.nonempty (Py.strip p (String c s)) = true.
Proof.
  intros H. unfold Py.strip. simpl Py.lstrip. rewrite H.
  now apply rstrip_cons_keep.
Qed.

Lemma rstrip_none (p : ascii -> bool) (s : string) :
  str_forall (fun c => negb (p c)) s = true -> Py.rstrip p s = s.
Proof.
  induction s as [|c s IH]; simpl; [reflexivity|].
  intros H. apply andb_true_iff in H. destruct H as [Hc Hs].
  rewrite (IH Hs). apply negb_true_iff in Hc. rewrite Hc. now destruct s.
Qed.

Lemma lstrip_none (p : ascii -> bool) (s : string) :
  str_forall (fun c => negb (p c)) s = true -> Py.lstrip p s = s.
Proof.
  destruct s as [|c s]; simpl; [reflexivity|].
  intros H. apply andb_true_iff in H. destruct H as [Hc _].
  apply negb_true_iff in Hc. now rewrite Hc.
Qed.

Lemma expandtabs_none (tabsize : nat) (s : string) :
  str_forall (fun c => negb (Ascii.eqb c "009")) s = true ->
  forall j, Py.expandtabs_from tabsize j s = s.
Proof.
  induction s as [|c s IH]; simpl; [reflexivity|].
  intros H j. apply andb_true_iff in H. destruct H as [Hc Hs].
  apply negb_true_iff in Hc. rewrite Hc. now rewrite IH.
Qed.

Lemma normalize_plain (s : string) :
  str_forall plain_char s = true -> normalize s = s.
Proof.
  intros H. unfold normalize, Py.strip.
  assert (H1 : str_forall (fun c => negb (Py.is_nl_cr c)) s = true).
  { eapply str_forall_impl; [|exact H]. intros c Hc.
    unfold plain_char in Hc. apply andb_true_iff in Hc. tauto. }
  assert (H2 : str_forall (fun c => negb (Ascii.eqb c "009")) s = true).
  { eapply str_forall_impl; [|exact H]. intros c Hc.
    unfold plain_char in Hc. apply andb_true_iff in Hc. tauto. }
  rewrite lstrip_none, rstrip_none by assumption.
  now apply expandtabs_none.
Qed.

Lemma leading_spaces_mul (n : nat) (c : ascii) (s : string) :
  c <> " "%char -> Re.leading_spaces (Py.mul " " n ++ String c s) = n.
Proof.
  intros Hc. induction n as [|n IH]; simpl.
  - destruct c as [[] [] [] [] [] [] [] []]; try reflexivity. congruence.
  - now rewrite IH.
Qed.

Lemma lstrip_spaces_mul (n : nat) (c : ascii) (s : string) :
  c <> " "%char ->
  Py.lstrip (Py.is_char " ") (Py.mul " " n ++ String c s) = String c s.
Proof.
  intros Hc. induction n as [|n IH]; simpl.
  - unfold Py.is_char. apply Ascii.eqb_neq in Hc. now rewrite Hc.
  - exact IH.
Qed.

(** ** One turn of the main loop *)

Section Step.
Variable Out : Type.
Variable render :
  list string -> Z -> string -> bool -> string -> string -> bool -> bool ->
  Out -> option Out.
Variable width : Z.
Variable indent : string.

Lemma step_other (raw : string) (g : Grouper) (o : Out) :
  line_kind_of g raw = OtherLine ->
  step Out render width indent raw g o
  = other_line_step Out render width indent (normalize raw) g o.
Proof.
  unfold line_kind_of, step.
  destruct (negb (Py.nonempty (Py.strip Py.isspace (normalize raw)))); [discriminate|].
  destruct (negb (has_break g)); simpl.
  - destruct (Re._setext_header (normalize raw)); [discriminate|]. simpl.
    destruct (Re._atx_header (normalize raw)); [discriminate|reflexivity].
  - destruct (Re._atx_header (normalize raw)); [discriminate|reflexivity].
Qed.

Lemma do_render_group_flags (line_after : bool) (g g' : Grouper) (o o' : Out) :
  _do_render_group Out render width indent line_after g o = Some (g', o') ->
  has_break g' = false /\ forced_break g' = false /\ group g' = []
  /\ state g' = state g /\ prev_state g' = prev_state g.
Proof.
  unfold _do_render_group.
  destruct (render _ _ _ _ _ _ _ _ _); [|discriminate].
  intros H. inversion H; subst. simpl. auto.
Qed.

End Step.

(** ** C7: continuation of a blockquote *)

(** C7, as amended.  When the open element is a blockquote and the line
    begins with [>], the turn flushes nothing; it appends the hard-break
    marker line first when a blank line was pending, then the line without
    its [>] and without all the whitespace after it; and a blank line is
    pending afterwards exactly when nothing is left of the line. *)
Theorem blockquote_continuation (Out : Type)
    (render : list string -> Z -> string -> bool -> string -> string ->
              bool -> bool -> Out -> option Out)
    (width : Z) (indent : string) (raw rest : string) (g : Grouper) (o : Out) :
  normalize raw = String ">" rest ->
  St.type (state g) = Some TYPE_BLOCK ->
  step Out render width indent raw g o
  = Some (mkGrouper
            ((group g ++ (if has_break g then [String "010" ""] else []))
               ++ [Py.lstrip Py.isspace rest])%list
            (negb (Py.nonempty (Py.lstrip Py.isspace rest)))
            false (first_render g) (prev_state g) (state g),
          o).
Proof.
  intros Hline Hstate.
  rewrite step_other.
  2:{ unfold line_kind_of. rewrite Hline.
      rewrite strip_cons_keep by reflexivity. simpl.
      now rewrite andb_false_r. }
  rewrite Hline. unfold other_line_step, continuation.
  destruct g as [grp hb fb fr ps [ty pf pr nb chr]]. simpl in Hstate. subst ty.
  unfold Re.sub_blockquote, Re._blockquote, group_append, set_group,
    set_has_break, set_forced_break, Py.append. cbn.
  destruct hb; cbn; destruct (Py.lstrip Py.isspace rest); cbn;
    rewrite ?app_nil_r; reflexivity.
Qed.

Lemma blockquote_continuation_witness :
  step nat count_flush 80 "" ">  x"
    (mkGrouper ["a"] true false true St.empty
       (St.set_prefix_rest "> " (St.set_prefix_first "> " (St.of_type TYPE_BLOCK)))) 0%nat
  = Some (mkGrouper ["a"; String "010" ""; "x"] false false true St.empty
            (St.set_prefix_rest "> " (St.set_prefix_first "> " (St.of_type TYPE_BLOCK))),
          0%nat).
Proof.
  exact (blockquote_continuation nat count_flush 80 "" ">  x" "  x"
           (mkGrouper ["a"] true false true St.empty
              (St.set_prefix_rest "> " (St.set_prefix_first "> " (St.of_type TYPE_BLOCK))))
           0%nat eq_refl eq_refl).
Defined.

(** C7 as stated fails: after [> a], the line [>  x] (two spaces) is
    appended as [x], where removing the marker and one space leaves [ x]. *)
Lemma blockquote_strips_all_spaces :
  exists g g',
    step nat count_flush 80 "" "> a" grouper0 0%nat = Some (g, 0%nat) /\
    St.type (state g) = Some TYPE_BLOCK /\
    step nat count_flush 80 "" ">  x" g 0%nat = Some (g', 0%nat) /\
    group g' = ["a"; "x"] /\
    spec_strip_blockquote ">  x" = " x" /\
    List.last (group g') "" <> spec_strip_blockquote ">  x".
Proof.
  eexists _, _. split; [reflexivity|]. split; [reflexivity|].
  split; [reflexivity|]. split; [reflexivity|]. split; [reflexivity|].
  simpl. discriminate.
Qed.

(** ** C8: when the break flags are cleared *)

Lemma identify_keeps_break (line : string) (g : Grouper) :
  has_break g = true -> has_break (identify line g) = true.
Proof.
  intros H. unfold identify.
  destruct (find _ SPECIAL_TYPES) as [[[] regex]|]; simpl; assumption || reflexivity.
Qed.

Lemma continuation_flags (width : Z) (indent line : string) (g g1 : Grouper)
    (n n1 : nat) (line1 : string) (was_continued : bool) :
  continuation nat count_flush width indent line g n
  = Some (g1, n1, line1, was_continued) ->
  (n < n1)%nat
  \/ (n1 = n /\ has_break g1 = has_break g)
  \/ (n1 = n /\ St.type (state g) = Some TYPE_BLOCK
      /\ is_some (Re._blockquote line) = true).
Proof.
  unfold continuation, _do_render_group, count_flush.
  destruct g as [grp hb fb fr ps st]. simpl.
  destruct (St.type st) as [[]|] eqn:Ety.
  - intros H. inversion H; subst. right. left. auto.
  - destruct (is_some (Re._ul_indent line) || is_some (Re._ol_indent line)).
    + intros H. inversion H; subst. left. lia.
    + destruct (hb && Re._indented line); intros H; inversion H; subst;
        right; left; auto.
  - destruct (is_some (Re._ul_indent line) || is_some (Re._ol_indent line)).
    + intros H. inversion H; subst. left. lia.
    + destruct (hb && Re._indented line); intros H; inversion H; subst;
        right; left; auto.
  - destruct (is_some (Re._blockquote line)) eqn:Eb.
    + intros H. inversion H; subst. right. right. auto.
    + intros H. inversion H; subst. right. left. auto.
  - destruct (negb (Re._code line)); intros H; inversion H; subst.
    + left. lia.
    + right. left. auto.
  - intros H. inversion H; subst. right. left. auto.
Qed.

Lemma other_line_flags (width : Z) (indent line : string) (g g' : Grouper)
    (n n' : nat) :
  other_line_step nat count_flush width indent line g n = Some (g', n') ->
  has_break g = true -> has_break g' = false ->
  (n < n')%nat
  \/ (St.type (state g) = Some TYPE_BLOCK /\ is_some (Re._blockquote line) = true).
Proof.
  unfold other_line_step. intros H Hb Hb'.
  destruct (continuation nat count_flush width indent line (set_forced_break false g) n)
    as [[[[g1 n1] line1] wc]|] eqn:Ec; [|discriminate].
  apply continuation_flags in Ec.
  unfold flush_if_group, _do_render_group, count_flush in H.
  destruct Ec as [Hlt|[[-> Hsame]|[-> Hblock]]].
  - (* flushed in the continuation *)
    left. split_tests H; inversion H; subst; lia.
  - (* nothing happened in the continuation *)
    simpl in Hsame. rewrite Hb in Hsame. rewrite Hsame in H.
    rewrite andb_true_r in H.
    split_tests H; inversion H; subst; simpl in Hb';
      try (left; lia); try congruence.
    rewrite identify_keeps_break in Hb'; [discriminate|]. exact Hsame.
  - right. exact Hblock.
Qed.

Lemma identify_forced (line : string) (g : Grouper) :
  forced_break (identify line g) = forced_break g.
Proof.
  unfold identify.
  destruct (find _ SPECIAL_TYPES) as [[[] regex]|]; reflexivity.
Qed.

Section Forced.
Variable Out : Type.
Variable render :
  list string -> Z -> string -> bool -> string -> string -> bool -> bool ->
  Out -> option Out.
Variables (width : Z) (indent : string).

Lemma flush_forced (line_after : bool) (g g' : Grouper) (o o' : Out) :
  flush_if_group Out render width indent line_after g o = Some (g', o') ->
  forced_break g = false -> forced_break g' = false.
Proof.
  unfold flush_if_group. destruct (nonnil (group g)).
  - intros H _. now apply do_render_group_flags in H.
  - intros H. now inversion H; subst.
Qed.

Lemma continuation_forced (line line1 : string) (g g1 : Grouper) (o o1 : Out)
    (was_continued : bool) :
  continuation Out render width indent line g o = Some (g1, o1, line1, was_continued) ->
  forced_break g = false -> forced_break g1 = false.
Proof.
  unfold continuation, _do_render_group.
  destruct g as [grp hb fb fr ps st]. simpl.
  destruct (St.type st) as [[]|]; intros H ->;
    repeat match type of H with
           | context [if ?c then _ else _] => destruct c
           | context [render ?a ?b ?c ?d ?e ?f ?g ?h ?i] =>
               destruct (render a b c d e f g h i)
           end;
    inversion H; subst; reflexivity.
Qed.

Lemma other_line_forced (line : string) (g g' : Grouper) (o o' : Out) :
  other_line_step Out render width indent line g o = Some (g', o') ->
  forced_break g' = false.
Proof.
  unfold other_line_step. intros H.
  destruct (continuation Out render width indent line (set_forced_break false g) o)
    as [[[[g1 o1] line1] wc]|] eqn:Ec; [|discriminate].
  apply continuation_forced in Ec; [|reflexivity].
  destruct (if negb wc && has_break g1
            then flush_if_group Out render width indent true g1 o1
            else Some (g1, o1)) as [[g2 o2]|] eqn:Ef; [|discriminate].
  assert (H2 : forced_break g2 = false).
  { destruct (negb wc && has_break g1).
    - eapply flush_forced; eassumption.
    - now inversion Ef; subst. }
  destruct (negb wc && Nat.eqb (List.length (group (group_append line1 g2))) 1);
    inversion H; subst; [rewrite identify_forced|]; exact H2.
Qed.

End Forced.

(** C8, as amended.  Every flush sets both flags to false.  Apart from
    flushes, every non-blank line that is not a header leaves
    [forced_break] false, and a line that continues a blockquote while a
    blank line is pending, with text after the marker, leaves [has_break]
    false without a flush.  Nothing else sets either flag to false: in a
    turn of the main loop in which [has_break] goes from true to false, a
    group was flushed or a blockquote was continued, and a turn in which
    [forced_break] goes from true to false is the turn of a non-blank line
    that is not a header. *)
Theorem break_flags_cleared (width : Z) (indent : string) :
  (forall (Out : Type) render line_after g o g' o',
      _do_render_group Out render width indent line_after g o = Some (g', o') ->
      has_break g' = false /\ forced_break g' = false)
  /\ (forall (Out : Type) render raw g o g' o',
      line_kind_of g raw = OtherLine ->
      step Out render width indent raw g o = Some (g', o') ->
      forced_break g' = false)
  /\ (forall raw rest g n,
      normalize raw = String ">" rest ->
      Py.nonempty (Py.lstrip Py.isspace rest) = true ->
      St.type (state g) = Some TYPE_BLOCK ->
      has_break g = true ->
      exists g',
        step nat count_flush width indent raw g n = Some (g', n)
        /\ has_break g' = false)
  /\ (forall raw g n g' n',
      step nat count_flush width indent raw g n = Some (g', n') ->
      (has_break g = true -> has_break g' = false ->
       (n < n')%nat
       \/ (line_kind_of g raw = OtherLine
           /\ St.type (state g) = Some TYPE_BLOCK
           /\ is_some (Re._blockquote (normalize raw)) = true))
      /\ (forced_break g = true -> forced_break g' = false ->
          line_kind_of g raw = OtherLine)).
Proof.
  split; [|split; [|split]].
  - intros Out render line_after g o g' o' H.
    apply do_render_group_flags in H. tauto.
  - intros Out render raw g o g' o' Hk H.
    rewrite step_other in H by assumption.
    now apply other_line_forced in H.
  - intros raw rest g n Hline Hrest Hstate Hb.
    rewrite step_other.
    2:{ unfold line_kind_of. rewrite Hline.
        rewrite strip_cons_keep by reflexivity. simpl.
        now rewrite andb_false_r. }
    rewrite Hline. unfold other_line_step, continuation.
    destruct g as [grp hb fb fr ps [ty pf pr nb chr]].
    simpl in Hstate, Hb. subst ty hb.
    unfold Re.sub_blockquote, Re._blockquote, group_append, set_group,
      set_has_break, set_forced_break, Py.append. cbn.
    rewrite Hrest. cbn. eexists. split; reflexivity.
  - intros raw g n g' n' H.
    unfold step in H. unfold line_kind_of.
    destruct (negb (Py.nonempty (Py.strip Py.isspace (normalize raw)))).
    { inversion H; subst. split.
      - intros Hb Hb'. destruct (negb (forced_break g)); simpl in Hb'; congruence.
      - intros Hf Hf'. destruct (negb (forced_break g)); simpl in Hf'; congruence. }
    destruct (has_break g) eqn:Ehb; simpl in H |- *.
    + destruct (Re._atx_header (normalize raw)) as [hashes|] eqn:Ea; simpl.
      * unfold atx_header_step, flush_if_group, _do_render_group, count_flush in H.
        split.
        -- intros _ _. left.
           destruct (nonnil (group g)); simpl in H; inversion H; subst; lia.
        -- intros _ Hf'.
           destruct (nonnil (group g)); simpl in H; inversion H; subst; discriminate.
      * split.
        -- intros _ Hb'.
           destruct (other_line_flags width indent (normalize raw) g g' n n' H Ehb Hb')
             as [Hlt|Hblock]; [now left|right]. tauto.
        -- reflexivity.
    + split; [discriminate|]. intros Hf Hf'.
      destruct (Re._setext_header (normalize raw)) as [underline|]; simpl.
      * exfalso. revert H.
        unfold setext_header_step, _do_render_group, count_flush. simpl.
        destruct (1 <? _)%nat; simpl; intros H; inversion H; subst; discriminate.
      * destruct (Re._atx_header (normalize raw)) as [hashes|]; simpl; [|reflexivity].
        exfalso. revert H.
        unfold atx_header_step, flush_if_group, _do_render_group, count_flush.
        destruct (nonnil (group g)); simpl; intros H; inversion H; subst; discriminate.
Qed.

Lemma break_flags_cleared_witness :
  (has_break (mkGrouper [] false false false St.empty St.empty) = false
   /\ forced_break (mkGrouper [] false false false St.empty St.empty) = false)
  /\ forced_break (mkGrouper ["text"] false false false St.empty St.empty) = false
  /\ (exists g',
        step nat count_flush 80 "" "> b"
          (mkGrouper ["a"] true false true St.empty
             (St.set_prefix_rest "> "
                (St.set_prefix_first "> " (St.of_type TYPE_BLOCK)))) 0%nat
        = Some (g', 0%nat)
        /\ has_break g' = false)
  /\ ((0 < 1)%nat
      \/ (line_kind_of (mkGrouper ["a"] true false true St.empty St.empty) "b" = OtherLine
          /\ St.type (state (mkGrouper ["a"] true false true St.empty St.empty))
             = Some TYPE_BLOCK
          /\ is_some (Re._blockquote (normalize "b")) = true))
  /\ line_kind_of (mkGrouper [] false true false St.empty St.empty) "text" = OtherLine.
Proof.
  split; [|split; [|split; [|split]]].
  - exact (proj1 (break_flags_cleared 80 "") nat count_flush true
             (mkGrouper ["a"] true true true St.empty St.empty) 0%nat
             (mkGrouper [] false false false St.empty St.empty) 1%nat eq_refl).
  - exact (proj1 (proj2 (break_flags_cleared 80 "")) nat count_flush "text"
             (mkGrouper [] false true false St.empty St.empty) 1%nat
             (mkGrouper ["text"] false false false St.empty St.empty) 1%nat
             eq_refl eq_refl).
  - exact (proj1 (proj2 (proj2 (break_flags_cleared 80 ""))) "> b" " b"
             (mkGrouper ["a"] true false true St.empty
                (St.set_prefix_rest "> "
                   (St.set_prefix_first "> " (St.of_type TYPE_BLOCK)))) 0%nat
             eq_refl eq_refl eq_refl eq_refl).
  - exact (proj1 (proj2 (proj2 (proj2 (break_flags_cleared 80 ""))) "b"
                    (mkGrouper ["a"] true false true St.empty St.empty) 0%nat
                    (mkGrouper ["b"] false false false St.empty St.empty) 1%nat
                    eq_refl)
             eq_refl eq_refl).
  - exact (proj2 (proj2 (proj2 (proj2 (break_flags_cleared 80 ""))) "text"
                    (mkGrouper [] false true false St.empty St.empty) 1%nat
                    (mkGrouper ["text"] false false false St.empty St.empty) 1%nat
                    eq_refl)
             eq_refl eq_refl).
Defined.

(** C8 as stated fails: after the header [# H] the line [text] sets
    [forced_break] to false, and after [> a] and a blank line the line [> b]
    sets [has_break] to false, and neither turn flushes a group. *)
Lemma flags_cleared_without_flush :
  exists g1 g2 g3 g4 g5,
    step nat count_flush 80 "" "# H" grouper0 0%nat = Some (g1, 1%nat) /\
    forced_break g1 = true /\
    step nat count_flush 80 "" "text" g1 1%nat = Some (g2, 1%nat) /\
    forced_break g2 = false /\
    step nat count_flush 80 "" "> a" grouper0 0%nat = Some (g3, 0%nat) /\
    step nat count_flush 80 "" "" g3 0%nat = Some (g4, 0%nat) /\
    has_break g4 = true /\
    step nat count_flush 80 "" "> b" g4 0%nat = Some (g5, 0%nat) /\
    has_break g5 = false.
Proof.
  eexists _, _, _, _, _. repeat (split; [reflexivity|]). reflexivity.
Qed.

(** ** C9: horizontal rules of mixed markers *)

Lemma hr_char_cases (c : ascii) :
  Re.hr_char c = true -> c = "*"%char \/ c = "-"%char \/ c = "_"%char.
Proof.
  destruct c as [[] [] [] [] [] [] [] []]; simpl; intros H;
    try discriminate; auto.
Qed.

Lemma hr_scan_spaces (k : nat) (s : string) (n : nat) (cur : string) :
  exists cur', Re.hr_scan (Py.mul " " k ++ s) (S n) cur = Re.hr_scan s (S n) cur'.
Proof.
  revert cur. induction k as [|k IH]; intros cur; simpl.
  - now exists cur.
  - apply IH.
Qed.

Lemma hr_scan_line (items : list (ascii * nat)) :
  Forall (fun item => Re.hr_char (fst item) = true) items ->
  forall n cur, exists cur',
    Re.hr_scan (hr_line items) n cur = Some ((n + List.length items)%nat, cur').
Proof.
  induction 1 as [|[c k] items Hc Hitems IH]; intros n cur.
  - exists cur. simpl. now rewrite Nat.add_0_r.
  - simpl in Hc. simpl hr_line. simpl Re.hr_scan. rewrite Hc.
    destruct (hr_scan_spaces k (hr_line items) n (String c "")) as (cur1 & ->).
    destruct (IH (S n) cur1) as (cur' & ->).
    exists cur'. simpl. now rewrite Nat.add_succ_r.
Qed.

Lemma hr_line_matches (items : list (ascii * nat)) :
  (3 <= List.length items)%nat ->
  Forall (fun item => Re.hr_char (fst item) = true) items ->
  is_some (Re._hr (hr_line items)) = true.
Proof.
  intros Hlen Hall. unfold Re._hr.
  destruct (hr_scan_line items Hall 0%nat "") as (cur' & ->).
  rewrite Nat.add_0_l.
  replace (3 <=? List.length items)%nat with true
    by (symmetry; apply Nat.leb_le; assumption).
  reflexivity.
Qed.

Lemma mul_space_plain (k : nat) : str_forall plain_char (Py.mul " " k) = true.
Proof. induction k; simpl; [reflexivity|assumption]. Qed.

Lemma hr_line_plain (items : list (ascii * nat)) :
  Forall (fun item => Re.hr_char (fst item) = true) items ->
  str_forall plain_char (hr_line items) = true.
Proof.
  induction 1 as [|[c k] items Hc Hitems IH]; [reflexivity|].
  simpl in *. rewrite str_forall_app, mul_space_plain, IH.
  destruct (hr_char_cases c Hc) as [-> | [-> | ->]]; reflexivity.
Qed.

Lemma line_kind_other (g : Grouper) (raw : string) :
  Py.nonempty (Py.strip Py.isspace (normalize raw)) = true ->
  has_break g = true \/ Re._setext_header (normalize raw) = None ->
  Re._atx_header (normalize raw) = None ->
  line_kind_of g raw = OtherLine.
Proof.
  intros H1 H2 H3. unfold line_kind_of. rewrite H1, H3. simpl.
  destruct H2 as [-> | ->]; [reflexivity|]. now rewrite andb_false_r.
Qed.

Lemma identify_hr (line : string) (g : Grouper) :
  is_some (Re._hr line) = true ->
  identify line g
  = set_has_break true
      (set_state (St.set_character (St.get (Re._hr line) "") (St.of_type TYPE_HR))
         (new_state (St.of_type TYPE_HR) g)).
Proof. intros H. unfold identify. simpl find. rewrite H. reflexivity. Qed.

(** C9.  A line of three or more markers among [*], [-] and [_], each
    followed by any number of spaces, matches the horizontal-rule pattern,
    also when the markers are mixed; the classifier, which tries that
    pattern first, gives it the kind [TYPE_HR] and sets the pending break;
    and so does a whole turn of the main loop that starts a new group with
    such a line. *)
Theorem hr_mixed_markers (items : list (ascii * nat)) :
  (3 <= List.length items)%nat ->
  Forall (fun item => Re.hr_char (fst item) = true) items ->
  is_some (Re._hr (hr_line items)) = true
  /\ (forall g,
        St.type (state (identify (hr_line items) g)) = Some TYPE_HR
        /\ has_break (identify (hr_line items) g) = true)
  /\ (forall (Out : Type) render width indent g (o : Out),
        group g = [] -> St.type (state g) = None ->
        has_break g = true \/ Re._setext_header (hr_line items) = None ->
        exists g',
          step Out render width indent (hr_line items) g o = Some (g', o)
          /\ group g' = [hr_line items]
          /\ St.type (state g') = Some TYPE_HR
          /\ has_break g' = true).
Proof.
  intros Hlen Hall.
  pose proof (hr_line_matches items Hlen Hall) as Hhr.
  split; [assumption|]. split.
  - intros g. rewrite identify_hr by assumption. split; reflexivity.
  - intros Out render width indent g o Hgroup Hstate Hset.
    assert (Hnorm : normalize (hr_line items) = hr_line items)
      by (apply normalize_plain, hr_line_plain; assumption).
    rewrite step_other.
    2:{ apply line_kind_other; rewrite Hnorm.
        - destruct items as [|[c k] items]; [simpl in Hlen; lia|].
          inversion Hall as [|? ? Hc _]; subst. simpl in Hc. simpl hr_line.
          apply strip_cons_keep.
          destruct (hr_char_cases c Hc) as [-> | [-> | ->]]; reflexivity.
        - exact Hset.
        - destruct items as [|[c k] items]; [simpl in Hlen; lia|].
          inversion Hall as [|? ? Hc _]; subst. simpl in Hc.
          destruct (hr_char_cases c Hc) as [-> | [-> | ->]]; reflexivity. }
    rewrite Hnorm. unfold other_line_step, continuation.
    destruct g as [grp hb fb fr ps st]. simpl in Hgroup, Hstate. subst grp.
    simpl. rewrite Hstate. simpl. rewrite andb_false_r || idtac.
    unfold flush_if_group. simpl.
    destruct hb; simpl; eexists; (split; [reflexivity|]);
      rewrite identify_hr by assumption; repeat split; reflexivity.
Qed.

Lemma hr_mixed_markers_witness :
  is_some (Re._hr "*-_") = true
  /\ (forall g,
        St.type (state (identify "*-_" g)) = Some TYPE_HR
        /\ has_break (identify "*-_" g) = true)
  /\ (forall (Out : Type) render width indent g (o : Out),
        group g = [] -> St.type (state g) = None ->
        has_break g = true \/ Re._setext_header "*-_" = None ->
        exists g',
          step Out render width indent "*-_" g o = Some (g', o)
          /\ group g' = ["*-_"]
          /\ St.type (state g') = Some TYPE_HR
          /\ has_break g' = true).
Proof.
  apply (hr_mixed_markers [("*"%char, 0%nat); ("-"%char, 0%nat); ("_"%char, 0%nat)]).
  - simpl. lia.
  - repeat constructor.
Defined.

(** ** C10: an indented [>] is not a blockquote *)

Lemma take_while_all (p : ascii -> bool) (a b : string) (c : ascii) :
  str_forall p a = true -> p c = false ->
  Py.lstrip p (a ++ String c b) = String c b.
Proof.
  intros Ha Hc. induction a as [|x a IH]; simpl in *.
  - now rewrite Hc.
  - apply andb_true_iff in Ha. destruct Ha as [Hx Ha]. rewrite Hx. now apply IH.
Qed.

Lemma ul_indent_indented (k : nat) (c ws : ascii) (t : string) :
  (k <= 3)%nat -> Re.ul_char c = true -> Py.isspace ws = true ->
  Re._ul_indent (Py.mul " " k ++ String c (String ws t))
  = Some (String c "", Py.lstrip Py.isspace t).
Proof.
  intros Hk Hc Hws. unfold Re._ul_indent.
  assert (Hne : c <> " "%char) by (intros ->; discriminate).
  rewrite leading_spaces_mul, lstrip_spaces_mul by assumption.
  replace (k <=? 3)%nat with true by (symmetry; apply Nat.leb_le; assumption).
  rewrite Hc. simpl. now rewrite Hws.
Qed.

Lemma ol_indent_indented (k : nat) (d ws : ascii) (ds t : string) :
  (k <= 3)%nat -> Py.isdigit d = true -> str_forall Py.isdigit ds = true ->
  Py.isspace ws = true ->
  Re._ol_indent (Py.mul " " k ++ String d (ds ++ String "." (String ws t)))
  = Some (Py.lstrip Py.isspace t).
Proof.
  intros Hk Hd Hds Hws. unfold Re._ol_indent.
  assert (Hne : d <> " "%char) by (intros ->; discriminate).
  rewrite leading_spaces_mul, lstrip_spaces_mul by assumption.
  replace (k <=? 3)%nat with true by (symmetry; apply Nat.leb_le; assumption).
  simpl. rewrite Hd. rewrite take_while_all by (assumption || reflexivity).
  simpl. now rewrite Hws.
Qed.

(** C10.  A line whose [>] comes after one or more spaces does not match
    the blockquote pattern: it does not continue an open blockquote, and as
    the first line of a group it is classified Plain when it has fewer than
    4 leading spaces (and as code from 4 on), never as a blockquote; whereas
    a bullet or a number with up to 3 leading spaces is recognized. *)
Theorem indented_quote_not_blockquote (n : nat) (rest : string) :
  (1 <= n)%nat ->
  Re._blockquote (Py.mul " " n ++ String ">" rest) = None
  /\ (forall g,
        state (identify (Py.mul " " n ++ String ">" rest) g)
        = if (n <? 4)%nat then St.empty
          else St.set_prefix_rest SPACES
                 (St.set_prefix_first SPACES (St.of_type TYPE_CODE)))
  /\ (forall (Out : Type) render width indent g (o : Out),
        St.type (state g) = Some TYPE_BLOCK ->
        continuation Out render width indent (Py.mul " " n ++ String ">" rest) g o
        = Some (g, o, Py.mul " " n ++ String ">" rest, false))
  /\ (forall k c ws t,
        (k <= 3)%nat -> Re.ul_char c = true -> Py.isspace ws = true ->
        Re._ul_indent (Py.mul " " k ++ String c (String ws t))
        = Some (String c "", Py.lstrip Py.isspace t))
  /\ (forall k d ds ws t,
        (k <= 3)%nat -> Py.isdigit d = true -> str_forall Py.isdigit ds = true ->
        Py.isspace ws = true ->
        Re._ol_indent (Py.mul " " k ++ String d (ds ++ String "." (String ws t)))
        = Some (Py.lstrip Py.isspace t)).
Proof.
  intros Hn.
  assert (Hbq : Re._blockquote (Py.mul " " n ++ String ">" rest) = None).
  { destruct n as [|n]; [lia|]. reflexivity. }
  split; [exact Hbq|]. split; [|split; [|split]].
  - intros g.
    assert (Hhr : is_some (Re._hr (Py.mul " " n ++ String ">" rest)) = false)
      by (destruct n as [|n]; [lia|reflexivity]).
    assert (Hul : Re._ul_indent (Py.mul " " n ++ String ">" rest) = None).
    { unfold Re._ul_indent. rewrite lstrip_spaces_mul by discriminate.
      simpl. now destruct (_ <=? 3)%nat. }
    assert (Hol : Re._ol_indent (Py.mul " " n ++ String ">" rest) = None).
    { unfold Re._ol_indent. rewrite lstrip_spaces_mul by discriminate.
      simpl. now destruct (_ <=? 3)%nat. }
    assert (Hcode : Re._code (Py.mul " " n ++ String ">" rest) = (4 <=? n)%nat).
    { unfold Re._code.
      rewrite leading_spaces_mul, lstrip_spaces_mul by discriminate.
      apply andb_true_r. }
    unfold identify, SPECIAL_TYPES. cbn [find].
    rewrite Hhr, Hul, Hol, Hbq, Hcode. cbn [is_some].
    destruct (Nat.ltb_spec n 4).
    + replace (4 <=? n)%nat with false by (symmetry; apply Nat.leb_gt; lia).
      reflexivity.
    + replace (4 <=? n)%nat with true by (symmetry; apply Nat.leb_le; lia).
      reflexivity.
  - intros Out render width indent g o Hstate. unfold continuation.
    rewrite Hstate, Hbq. reflexivity.
  - exact ul_indent_indented.
  - intros k d ds ws t. apply ol_indent_indented.
Qed.

Lemma indented_quote_not_blockquote_witness :
  Re._blockquote " > quoted" = None
  /\ state (identify " > quoted" grouper0) = St.empty
  /\ Re._ul_indent "   * item" = Some ("*", "item")
  /\ Re._ol_indent "   12. item" = Some "item".
Proof.
  pose proof (indented_quote_not_blockquote 1 " quoted" (le_n 1))
    as (H1 & H2 & _ & H4 & H5).
  split; [exact H1|]. split; [exact (H2 grouper0)|]. split.
  - exact (H4 3%nat "*"%char " "%char "item" (le_n 3) eq_refl eq_refl).
  - exact (H5 3%nat "1"%char "2" " "%char "item" (le_n 3) eq_refl eq_refl eq_refl).
Defined.

(** ** Words, and the lines that were written *)

(** *** Words of letters *)

Lemma letter_facts (c : ascii) :
  is_letter c = true ->
  Py.isspace c = false /\ Re.hr_char c = false /\ Re.ul_char c = false
  /\ Py.isdigit c = false /\ plain_char c = true
  /\ Ascii.eqb c "#" = false /\ Ascii.eqb c "=" = false
  /\ Ascii.eqb c "-" = false /\ Ascii.eqb c " " = false
  /\ Ascii.eqb c ">" = false /\ Ascii.eqb c "010" = false.
Proof.
  destruct c as [[] [] [] [] [] [] [] []]; intros H;
    solve [discriminate H | repeat split; reflexivity].
Qed.

Lemma digit_facts (c : ascii) :
  Py.isdigit c = true ->
  Py.isspace c = false /\ Re.hr_char c = false /\ Re.ul_char c = false
  /\ plain_char c = true
  /\ Ascii.eqb c "#" = false /\ Ascii.eqb c "=" = false
  /\ Ascii.eqb c "-" = false /\ Ascii.eqb c " " = false
  /\ Ascii.eqb c ">" = false /\ Ascii.eqb c "010" = false.
Proof.
  destruct c as [[] [] [] [] [] [] [] []]; intros H;
    solve [discriminate H | repeat split; reflexivity].
Qed.

Lemma plain_word_inv (t : string) :
  plain_word t = true ->
  exists c t', t = String c t' /\ is_letter c = true /\ str_forall is_letter t = true.
Proof.
  unfold plain_word. destruct t as [|c t']; [discriminate|]. simpl.
  intros H. exists c, t'. apply andb_true_iff in H. destruct H as [Hc Ht].
  simpl. rewrite Hc, Ht. auto.
Qed.

Lemma letters_no_space (t : string) :
  str_forall is_letter t = true ->
  str_forall (fun c => negb (Py.isspace c)) t = true.
Proof.
  apply str_forall_impl. intros c Hc.
  destruct (letter_facts c Hc) as (-> & _). reflexivity.
Qed.

Lemma letters_plain (t : string) :
  str_forall is_letter t = true -> str_forall plain_char t = true.
Proof.
  apply str_forall_impl. intros c Hc.
  destruct (letter_facts c Hc) as (_ & _ & _ & _ & -> & _). reflexivity.
Qed.

Lemma word_strip (t : string) :
  str_forall is_letter t = true -> Py.strip Py.isspace t = t.
Proof.
  intros H. apply letters_no_space in H. unfold Py.strip.
  now rewrite lstrip_none, rstrip_none.
Qed.

Lemma split_none (sep : ascii) (s : string) :
  str_forall (fun c => negb (Ascii.eqb c sep)) s = true -> Py.split sep s = [s].
Proof.
  induction s as [|c s IH]; simpl; [reflexivity|].
  intros H. apply andb_true_iff in H. destruct H as [Hc Hs].
  apply negb_true_iff in Hc. rewrite Hc, (IH Hs). reflexivity.
Qed.

Lemma endswith_none (s : string) :
  str_forall (fun c => negb (Ascii.eqb c " ")) s = true ->
  Py.endswith s "  " = false.
Proof.
  induction s as [|c s IH]; simpl; [reflexivity|].
  intros H. apply andb_true_iff in H. destruct H as [Hc Hs].
  apply negb_true_iff in Hc. rewrite Hc. simpl. now apply IH.
Qed.

Lemma letters_no_blank (t : string) :
  str_forall is_letter t = true ->
  str_forall (fun c => negb (Ascii.eqb c " ")) t = true.
Proof.
  apply str_forall_impl. intros c Hc.
  destruct (letter_facts c Hc) as (_ & _ & _ & _ & _ & _ & _ & _ & -> & _).
  reflexivity.
Qed.

(** *** A word alone in its group *)

Lemma token_inv (t : string) :
  token t = true ->
  exists c t', t = String c t' /\ Py.isspace c = false
               /\ str_forall (fun c => negb (Py.isspace c)) t = true.
Proof.
  unfold token. destruct t as [|c t']; [discriminate|]. simpl.
  intros H. exists c, t'. destruct (Py.isspace c); [discriminate|]. auto.
Qed.

Lemma no_space_no_blank (t : string) :
  str_forall (fun c => negb (Py.isspace c)) t = true ->
  str_forall (fun c => negb (Ascii.eqb c " ")) t = true.
Proof.
  apply str_forall_impl. intros c Hc.
  destruct (Ascii.eqb_spec c " "); [subst; discriminate|reflexivity].
Qed.

Lemma token_strip (t : string) :
  token t = true -> Py.strip Py.isspace t = t.
Proof.
  intros H. destruct (token_inv t H) as (c & t' & _ & _ & Hall).
  unfold Py.strip. now rewrite lstrip_none, rstrip_none.
Qed.

Lemma token_not_marker (t : string) :
  token t = true -> String.eqb t (String "010" "") = false.
Proof.
  intros H. destruct (token_inv t H) as (c & t' & -> & Hc & _). simpl.
  destruct (Ascii.eqb_spec c "010"); [subst; discriminate|reflexivity].
Qed.

Lemma fit_text_token (t : string) (rw : Z) :
  token t = true -> _fit_text t rw false = [t].
Proof.
  intros H. destruct (token_inv t H) as (c & t' & -> & Hc & Ht).
  unfold _fit_text, words_of.
  rewrite split_none by (now apply no_space_no_blank). reflexivity.
Qed.

Lemma token_sections (t : string) :
  token t = true -> build_sections 1 0 [t] [] "" = [t].
Proof.
  intros H. destruct (token_inv t H) as (c & t' & E & Hc & Hall).
  cbn [build_sections]. rewrite token_strip by assumption.
  rewrite endswith_none by (now apply no_space_no_blank).
  rewrite token_not_marker by assumption.
  unfold Py.append. simpl. now rewrite append_nil_r.
Qed.

Lemma render_token (rec : list string -> Z -> string -> Stdout -> option Stdout)
    (t : string) (width : Z) (indent : string) (fr line_after : bool)
    (o : Stdout) :
  token t = true ->
  render_group_with rec [t] width indent fr "" "" line_after false o
  = Some (if line_after
          then print (Re.sub_end_space indent)
                 (print ((if fr then "" else indent) ++ t) o)
          else print ((if fr then "" else indent) ++ t) o).
Proof.
  intros Ht. unfold render_group_with. cbn [Py.nonempty andb List.length].
  rewrite token_sections by assumption.
  unfold wrapped_lines, enumerate. cbn [List.length seq combine flat_map].
  rewrite fit_text_token by assumption. reflexivity.
Qed.

Lemma plain_word_token (t : string) : plain_word t = true -> token t = true.
Proof.
  intros H. destruct (plain_word_inv t H) as (c & t' & -> & Hc & Hall).
  unfold token. now rewrite letters_no_space.
Qed.

Section Word.
Variable t : string.
Hypothesis Ht : plain_word t = true.

Lemma word_normalize : normalize t = t.
Proof.
  destruct (plain_word_inv t Ht) as (c & t' & -> & Hc & Hall).
  now apply normalize_plain, letters_plain.
Qed.

Lemma word_kind (g : Grouper) : line_kind_of g t = OtherLine.
Proof.
  destruct (plain_word_inv t Ht) as (c & t' & E & Hc & Hall).
  destruct (letter_facts c Hc) as (Hsp & _ & _ & _ & _ & Hhash & Heq & Hdash & _).
  apply line_kind_other; rewrite word_normalize; subst t.
  - now apply strip_cons_keep.
  - right. unfold Re._setext_header. now rewrite Heq, Hdash.
  - unfold Re._atx_header. simpl. unfold Py.is_char. now rewrite Hhash.
Qed.

Lemma word_identify (g : Grouper) : identify t g = new_state St.empty g.
Proof.
  destruct (plain_word_inv t Ht) as (c & t' & E & Hc & Hall).
  destruct (letter_facts c Hc)
    as (Hsp & Hhr & Hul & Hdig & _ & _ & _ & _ & Hblank & Hgt & _).
  subst t. unfold identify, SPECIAL_TYPES. cbn [find].
  assert (H1 : Re._hr (String c t') = None).
  { unfold Re._hr. simpl. now rewrite Hhr, Hsp. }
  assert (Hls : Re.leading_spaces (String c t') = 0%nat).
  { simpl. destruct c as [[] [] [] [] [] [] [] []]; try reflexivity; discriminate. }
  assert (H2 : Re._ul_indent (String c t') = None).
  { unfold Re._ul_indent. rewrite Hls. cbn [Nat.leb Py.lstrip].
    unfold Py.is_char. now rewrite Hblank, Hul. }
  assert (H3 : Re._ol_indent (String c t') = None).
  { unfold Re._ol_indent. rewrite Hls. cbn [Nat.leb Py.lstrip].
    unfold Py.is_char. rewrite Hblank. cbn [Py.take_while]. now rewrite Hdig. }
  assert (H4 : Re._blockquote (String c t') = None).
  { unfold Re._blockquote.
    destruct c as [[] [] [] [] [] [] [] []]; try reflexivity; discriminate. }
  assert (H5 : Re._code (String c t') = false).
  { unfold Re._code. now rewrite Hls. }
  rewrite H1, H2, H3, H4, H5. reflexivity.
Qed.

End Word.

(** *** A word is printed as it is *)

Lemma render_word (rec : list string -> Z -> string -> Stdout -> option Stdout)
    (t : string) (width : Z) (indent : string) (o : Stdout) :
  plain_word t = true ->
  render_group_with rec [t] width indent true "" "" false false o
  = Some (print t o).
Proof. intros Ht. now rewrite render_token by (now apply plain_word_token). Qed.

Lemma step_word (Out : Type)
    (render : list string -> Z -> string -> bool -> string -> string ->
              bool -> bool -> Out -> option Out)
    (width : Z) (indent t : string) (o : Out) :
  plain_word t = true ->
  step Out render width indent t grouper0 o
  = Some (mkGrouper [t] false false true St.empty St.empty, o).
Proof.
  intros Ht. rewrite step_other by (now apply word_kind).
  rewrite word_normalize by assumption.
  unfold other_line_step, continuation. grouper_simpl.
  rewrite word_identify by assumption. reflexivity.
Qed.

Lemma groupify_S (fuel : nat) (f : list string) (width : Z) (indent : string)
    (o : Stdout) :
  _groupify (S fuel) f width indent o
  = groupify_with Stdout (render_group_with (_groupify fuel)) width indent f o.
Proof. reflexivity. Qed.

Lemma groupify_word (fuel : nat) (t : string) (width : Z) (indent : string)
    (o : Stdout) :
  plain_word t = true ->
  _groupify (S fuel) [t] width indent o = Some (print t o).
Proof.
  intros Ht. cbn [_groupify]. unfold groupify_with. cbn [main_loop].
  rewrite step_word by assumption.
  unfold flush_if_group, _do_render_group. grouper_simpl.
  rewrite render_word by assumption. reflexivity.
Qed.


(** *** The lines that were written *)

Lemma split_app_sep (sep : ascii) (a b : string) :
  str_forall (fun c => negb (Ascii.eqb c sep)) a = true ->
  Py.split sep (a ++ String sep b) = a :: Py.split sep b.
Proof.
  induction a as [|c a IH]; simpl.
  - now rewrite Ascii.eqb_refl.
  - intros H. apply andb_true_iff in H. destruct H as [Hc Ha].
    apply negb_true_iff in Hc. rewrite Hc, (IH Ha). reflexivity.
Qed.

Lemma split_lines_text (lines : list string) :
  Forall (fun x => str_forall no_newline x = true) lines ->
  Py.split "010" (lines_text lines) = (lines ++ [""])%list.
Proof.
  induction 1 as [|x rest Hx Hrest IH]; [reflexivity|].
  simpl. rewrite split_app_sep by exact Hx. now rewrite IH.
Qed.

Lemma put_lines_written (lines : list string) (o : Stdout) :
  put_lines lines o = mkStdout (written o ++ lines_text lines) false
  \/ (lines = [] /\ put_lines lines o = o).
Proof.
  revert o. induction lines as [|x rest IH]; intros o; [now right|].
  left. unfold put_lines. simpl fold_left. fold (put_lines rest (put_line x o)).
  destruct (IH (put_line x o)) as [-> | [-> ->]]; unfold put_line; simpl.
  - now rewrite !append_assoc.
  - reflexivity.
Qed.

Lemma output_lines_put (lines : list string) :
  Forall (fun x => str_forall no_newline x = true) lines ->
  output_lines (put_lines lines stdout0) = lines.
Proof.
  intros H. unfold output_lines.
  destruct (put_lines_written lines stdout0) as [-> | [-> ->]]; [|reflexivity].
  simpl written. rewrite split_lines_text by assumption.
  rewrite rev_app_distr. simpl. apply rev_involutive.
Qed.


Lemma word_no_newline (t : string) :
  plain_word t = true -> str_forall no_newline t = true.
Proof.
  intros Ht. destruct (plain_word_inv t Ht) as (c & t' & _ & _ & Hall).
  eapply str_forall_impl; [|exact Hall].
  intros c0 Hc0. unfold no_newline.
  now destruct (letter_facts c0 Hc0) as (_ & _ & _ & _ & _ & _ & _ & _ & _ & _ & ->).
Qed.


(** ** C5: a Setext header *)

Lemma lstrip_all (p : ascii -> bool) (s : string) :
  str_forall p s = true -> Py.lstrip p s = "".
Proof.
  induction s as [|c s IH]; simpl; [reflexivity|].
  intros H. apply andb_true_iff in H. destruct H as [-> Hs]. now apply IH.
Qed.

Lemma mul_char_forall (p : ascii -> bool) (c : ascii) (n : nat) :
  p c = true -> str_forall p (Py.mul (String c "") n) = true.
Proof. intros H. induction n as [|n IH]; simpl; [reflexivity|]. now rewrite H, IH. Qed.

Lemma underline_setext (c : ascii) (n : nat) :
  c = "="%char \/ c = "-"%char ->
  Re._setext_header (Py.mul (String c "") (S n)) = Some c.
Proof.
  intros Hc. unfold Re._setext_header. cbn [Py.mul append].
  replace (Ascii.eqb c "=" || Ascii.eqb c "-") with true
    by (destruct Hc as [-> | ->]; reflexivity).
  change (String c (Py.mul (String c "") n)) with (Py.mul (String c "") (S n)).
  rewrite (lstrip_all (Py.is_char c))
    by (apply mul_char_forall; unfold Py.is_char; apply Ascii.eqb_refl).
  reflexivity.
Qed.

Lemma print_put_line (x : string) (o : Stdout) :
  softspace o = false -> print x o = put_line x o.
Proof.
  intros H. unfold print, print_newline, print_item, put_line. simpl.
  rewrite H. simpl. now rewrite append_assoc.
Qed.

Lemma step_underline (rec : list string -> Z -> string -> Stdout -> option Stdout)
    (width : Z) (title : string) (c : ascii) (n : nat) (o : Stdout) :
  plain_word title = true -> c = "="%char \/ c = "-"%char ->
  softspace o = false ->
  step Stdout (render_group_with rec) width "" (Py.mul (String c "") (S n))
    (mkGrouper [title] false false true St.empty St.empty) o
  = Some (mkGrouper [] false true false St.empty St.empty,
          put_lines [title; Py.mul (String c "") (String.length title); ""] o).
Proof.
  intros Ht Hc Ho.
  assert (Hsp : Py.isspace c = false) by (destruct Hc as [-> | ->]; reflexivity).
  assert (Hnorm : normalize (Py.mul (String c "") (S n)) = Py.mul (String c "") (S n)).
  { apply normalize_plain, mul_char_forall. destruct Hc as [-> | ->]; reflexivity. }
  assert (Htok : token (Py.mul (String c "") (String.length title)) = true).
  { destruct (plain_word_inv title Ht) as (a & t' & -> & _). unfold token.
    rewrite mul_char_forall by (now rewrite Hsp). reflexivity. }
  unfold step. rewrite Hnorm.
  replace (Py.nonempty (Py.strip Py.isspace (Py.mul (String c "") (S n)))) with true
    by (symmetry; now apply strip_cons_keep).
  grouper_simpl. rewrite underline_setext by assumption.
  unfold setext_header_step. grouper_simpl. cbn [List.last List.removelast Nat.ltb Nat.leb].
  unfold _do_render_group. grouper_simpl.
  rewrite render_token by (now apply plain_word_token). grouper_simpl.
  rewrite render_token by assumption.
  cbn [append]. rewrite !print_put_line by (reflexivity || assumption).
  reflexivity.
Qed.

(** C5, as amended.  For a title line and an underline of [=] (or [-]) the
    program prints the title, then an underline of the same character as
    long as the title, then one blank line, at every width: the header keeps
    its Setext form.  For [Title] and [=====] the output is [Title],
    [=====] and a blank line. *)
Theorem setext_header_rendering (title : string) (c : ascii) (n fuel : nat)
    (width : Z) :
  plain_word title = true -> c = "="%char \/ c = "-"%char ->
  rendering (S fuel) [title; Py.mul (String c "") (S n)] width
  = Some [title; Py.mul (String c "") (String.length title); ""].
Proof.
  intros Ht Hc. unfold rendering. rewrite groupify_S. unfold groupify_with.
  cbn [main_loop]. rewrite step_word by assumption.
  rewrite step_underline by (assumption || reflexivity).
  unfold flush_if_group. grouper_simpl. cbn [option_map].
  rewrite output_lines_put; [reflexivity|].
  repeat constructor.
  - now apply word_no_newline.
  - apply mul_char_forall. destruct Hc as [-> | ->]; reflexivity.
Qed.

Lemma setext_header_rendering_witness :
  rendering 1 ["Title"; "====="] 80 = Some ["Title"; "====="; ""].
Proof.
  apply (setext_header_rendering "Title" "="%char 4 0 80).
  - reflexivity.
  - now left.
Defined.

(** C5 as stated fails: the output is not [# Title] and a blank line. *)
Lemma setext_header_not_atx :
  rendering 1 ["Title"; "====="] 80 <> Some ["# Title"; ""].
Proof. discriminate. Qed.

(** ** C1: the width of printed lines *)


(** ** C4: ordered lists are numbered from 1 *)

(** *** The prefix of an item *)

Lemma mul_space_comm (k : nat) : Py.mul " " k ++ " " = String " " (Py.mul " " k).
Proof. induction k as [|k IH]; simpl; [reflexivity|]. simpl in IH. now rewrite IH. Qed.

Lemma drop_last_snoc (q : string) (c : ascii) : Py.drop_last (q ++ String c "") = q.
Proof.
  induction q as [|a q IH]; [reflexivity|].
  simpl. rewrite IH. destruct q; reflexivity.
Qed.

Lemma endswith_snoc (q : string) (c : ascii) :
  Py.endswith (q ++ String c "") (String c "") = true.
Proof.
  induction q as [|a q IH]; simpl.
  - now rewrite Ascii.eqb_refl.
  - rewrite IH. apply orb_true_r.
Qed.

Lemma last_char_app (q : string) (c : ascii) (r : string) :
  last_char (q ++ String c r) = last_char (String c r).
Proof.
  induction q as [|a q IH]; [reflexivity|].
  simpl. rewrite IH. destruct (q ++ String c r) eqn:E; [|reflexivity].
  destruct q; discriminate.
Qed.

Lemma last_char_spaces (k : nat) :
  last_char (String "." (Py.mul " " k)) = Some (if Nat.eqb k 0 then "."%char else " "%char).
Proof.
  destruct k as [|k]; [reflexivity|]. simpl.
  induction k as [|k IH]; [reflexivity|]. simpl in *. exact IH.
Qed.

(** the prefix ends in a space, and what is left without it makes [print]
    write a space next *)
Lemma ol_prefix_shape (n : Z) :
  exists q,
    ol_prefix n = q ++ " "
    /\ match last_char q with
       | None => true
       | Some c => negb (Py.isspace c) || Ascii.eqb c " "
       end = true.
Proof.
  unfold ol_prefix, pad4.
  set (s := Py.str_of_int n). set (k := (4 - String.length (s ++ ". "))%nat).
  exists (s ++ String "." (Py.mul " " k)). split.
  - rewrite !append_assoc. f_equal. simpl. f_equal.
    now rewrite mul_space_comm.
  - rewrite last_char_app, last_char_spaces. now destruct (Nat.eqb k 0).
Qed.

Lemma ol_prefix_padded (n : Z) :
  4 <= Py.len (ol_prefix n)
  /\ exists k, ol_prefix n = Py.str_of_int n ++ ". " ++ Py.mul " " k.
Proof.
  unfold ol_prefix, pad4. split.
  - unfold Py.len. rewrite length_append.
    assert (H : forall k, String.length (Py.mul " " k) = k).
    { induction k; simpl; congruence. }
    rewrite H. lia.
  - eexists. now rewrite append_assoc.
Qed.

Lemma render_item (fuel : nat) (t : string) (width : Z) (fr : bool) (n : Z)
    (o : Stdout) :
  plain_word t = true -> softspace o = false ->
  render_group_with (_groupify (S fuel)) [t] width "" fr (ol_prefix n) SPACES
    false false o
  = Some (put_line (ol_prefix n ++ t) o).
Proof.
  intros Ht Ho. destruct (ol_prefix_shape n) as (q & Eq & Hq).
  unfold render_group_with. rewrite Eq.
  change (q ++ " ") with (q ++ String " " "").
  rewrite endswith_snoc, drop_last_snoc.
  replace (Py.nonempty (q ++ String " " "")) with true by (now destruct q).
  cbn [SPACES NUM_SPACES Py.mul Py.nonempty andb].
  replace ((if fr then "" else "") ++ q) with q by (now destruct fr).
  rewrite groupify_word by assumption.
  unfold print, print_newline, print_comma, print_item, put_line.
  cbn [written softspace]. rewrite Ho, Hq. f_equal. f_equal.
  rewrite !append_assoc. reflexivity.
Qed.

(** *** The line of an item *)

Section Item.
Variables d t : string.
Hypothesis Hd : digits d = true.
Hypothesis Ht : plain_word t = true.

Lemma digits_inv :
  exists d0 d', d = String d0 d' /\ Py.isdigit d0 = true
                /\ str_forall Py.isdigit d' = true.
Proof.
  unfold digits in Hd. destruct d as [|d0 d']; [discriminate|].
  simpl in Hd. apply andb_true_iff in Hd. exists d0, d'. tauto.
Qed.

Lemma item_line_eq :
  exists d0 d', d ++ ". " ++ t = String d0 (d' ++ String "." (String " " t))
                /\ Py.isdigit d0 = true /\ str_forall Py.isdigit d' = true.
Proof.
  destruct digits_inv as (d0 & d' & -> & H0 & H'). exists d0, d'. auto.
Qed.

Lemma item_normalize : normalize (d ++ ". " ++ t) = d ++ ". " ++ t.
Proof.
  apply normalize_plain. rewrite !str_forall_app.
  destruct (plain_word_inv t Ht) as (c & t' & _ & _ & Hall).
  rewrite (letters_plain t Hall). simpl. rewrite andb_true_r.
  destruct digits_inv as (d0 & d' & -> & H0 & H').
  eapply str_forall_impl; [|simpl; now rewrite H0, H'].
  intros c0 Hc0. now destruct (digit_facts c0 Hc0) as (_ & _ & _ & -> & _).
Qed.

Lemma item_kind (g : Grouper) : line_kind_of g (d ++ ". " ++ t) = OtherLine.
Proof.
  apply line_kind_other; rewrite item_normalize;
    destruct item_line_eq as (d0 & d' & -> & H0 & _);
    destruct (digit_facts d0 H0) as (Hsp & _ & _ & _ & Hhash & Heq & Hdash & _).
  - now apply strip_cons_keep.
  - right. unfold Re._setext_header. now rewrite Heq, Hdash.
  - unfold Re._atx_header. simpl. unfold Py.is_char. now rewrite Hhash.
Qed.

Lemma item_hr : Re._hr (d ++ ". " ++ t) = None.
Proof.
  destruct item_line_eq as (d0 & d' & -> & H0 & _).
  destruct (digit_facts d0 H0) as (Hsp & Hhr & _).
  unfold Re._hr. simpl. now rewrite Hhr, Hsp.
Qed.

Lemma item_ul : Re._ul_indent (d ++ ". " ++ t) = None.
Proof.
  destruct item_line_eq as (d0 & d' & -> & H0 & _).
  destruct (digit_facts d0 H0) as (_ & _ & Hul & _ & _ & _ & _ & Hblank & _).
  unfold Re._ul_indent. cbn [Py.lstrip]. unfold Py.is_char. rewrite Hblank, Hul.
  now destruct (_ <=? 3)%nat.
Qed.

Lemma item_ol : Re._ol_indent (d ++ ". " ++ t) = Some t.
Proof.
  destruct item_line_eq as (d0 & d' & -> & H0 & H').
  change (String d0 (d' ++ String "." (String " " t)))
    with (Py.mul " " 0 ++ String d0 (d' ++ String "." (String " " t))).
  rewrite (ol_indent_indented 0 d0 " " d' t) by (lia || assumption || reflexivity).
  destruct (plain_word_inv t Ht) as (c & t' & _ & _ & Hall).
  now rewrite lstrip_none by (now apply letters_no_space).
Qed.

Lemma step_first_item (Out : Type)
    (render : list string -> Z -> string -> bool -> string -> string ->
              bool -> bool -> Out -> option Out)
    (width : Z) (indent : string) (o : Out) :
  step Out render width indent (d ++ ". " ++ t) grouper0 o
  = Some (mkGrouper [t] false false true St.empty (ol_state 1), o).
Proof.
  rewrite step_other by apply item_kind. rewrite item_normalize.
  unfold other_line_step, continuation. grouper_simpl.
  unfold identify, SPECIAL_TYPES. cbn [find]. rewrite item_hr, item_ul, item_ol.
  grouper_simpl. cbn [map_last]. unfold Re.sub_ol_indent. rewrite item_ol.
  reflexivity.
Qed.

Lemma step_next_item (fuel : nat) (width : Z) (tp : string) (fr : bool) (n : Z)
    (o : Stdout) :
  plain_word tp = true -> softspace o = false ->
  step Stdout (render_group_with (_groupify (S fuel))) width "" (d ++ ". " ++ t)
    (mkGrouper [tp] false false fr St.empty (ol_state n)) o
  = Some (mkGrouper [t] false false false St.empty (ol_state (n + 1)),
          put_line (ol_prefix n ++ tp) o).
Proof.
  intros Htp Ho. rewrite step_other by apply item_kind. rewrite item_normalize.
  unfold other_line_step, continuation. unfold ol_state at 1. grouper_simpl.
  rewrite item_ul, item_ol. grouper_simpl.
  unfold _do_render_group. grouper_simpl.
  replace (St.get (St.prefix_first (ol_state n)) "") with (ol_prefix n) by reflexivity.
  replace (St.get (St.prefix_rest (ol_state n)) "") with SPACES by reflexivity.
  replace (St.has_type TYPE_CODE (ol_state n)) with false by reflexivity.
  rewrite render_item by assumption. unfold ol_state. grouper_simpl.
  unfold Re.sub_ol_indent. rewrite item_ol. reflexivity.
Qed.

End Item.


(** *** The lines of a list *)

Lemma uint_digits (u : Decimal.uint) :
  str_forall Py.isdigit (NilEmpty.string_of_uint u) = true.
Proof. induction u; simpl; auto. Qed.

Lemma str_of_int_digits (n : Z) :
  0 <= n -> str_forall Py.isdigit (Py.str_of_int n) = true.
Proof.
  intros Hn. unfold Py.str_of_int. destruct n as [|p|p]; [reflexivity| |lia].
  simpl. unfold NilZero.string_of_uint.
  pose proof (uint_digits (Pos.to_uint p)) as H.
  destruct (Pos.to_uint p); exact H.
Qed.

Lemma ol_prefix_no_newline (n : Z) :
  0 <= n -> str_forall no_newline (ol_prefix n) = true.
Proof.
  intros Hn. unfold ol_prefix, pad4. rewrite !str_forall_app.
  assert (H : forall k, str_forall no_newline (Py.mul " " k) = true)
    by (induction k; simpl; auto).
  rewrite H. simpl. rewrite !andb_true_r.
  eapply str_forall_impl; [|apply str_of_int_digits; assumption].
  intros c Hc. unfold no_newline.
  now destruct (digit_facts c Hc) as (_ & _ & _ & _ & _ & _ & _ & _ & _ & ->).
Qed.


Lemma numbered_from_no_newline (rest : list (string * string)) :
  Forall (fun item => digits (fst item) = true /\ plain_word (snd item) = true) rest ->
  forall j t, plain_word t = true ->
    Forall (fun x => str_forall no_newline x = true) (numbered_from j t rest).
Proof.
  induction 1 as [|[d' t'] rest [_ Ht'] Hrest IH]; intros j t Ht; simpl.
  - constructor; [|constructor].
    rewrite str_forall_app, ol_prefix_no_newline by lia. now apply word_no_newline.
  - constructor; [|now apply IH].
    rewrite str_forall_app, ol_prefix_no_newline by lia. now apply word_no_newline.
Qed.

Lemma numbered_from_enumerate (rest : list (string * string)) :
  forall i d t,
    numbered_from (S i) t rest
    = map (fun '(i, (_, t)) => ol_prefix (Z.of_nat i + 1) ++ t)
          (combine (seq i (S (List.length rest))) ((d, t) :: rest)).
Proof.
  induction rest as [|[d' t'] rest IH]; intros i d t;
    assert (E : Z.of_nat (S i) = Z.of_nat i + 1) by lia.
  - cbn [numbered_from List.length seq combine map]. now rewrite E.
  - cbn [numbered_from]. rewrite (IH (S i) d' t').
    cbn [List.length seq combine map]. now rewrite E.
Qed.

(** *** The whole list *)

Lemma loop_items (fuel : nat) (width : Z) (rest : list (string * string)) :
  Forall (fun item => digits (fst item) = true /\ plain_word (snd item) = true) rest ->
  forall j tp fr o,
    plain_word tp = true -> softspace o = false ->
    main_loop Stdout (render_group_with (_groupify (S fuel))) width ""
      (ol_source rest)
      (mkGrouper [tp] false false fr St.empty (ol_state (Z.of_nat j))) o
    = Some (put_lines (numbered_from j tp rest) o).
Proof.
  induction 1 as [|[d t] rest [Hd Ht] Hrest IH]; intros j tp fr o Htp Ho.
  - cbn [ol_source map main_loop]. unfold flush_if_group, _do_render_group.
    grouper_simpl.
    replace (St.get (St.prefix_first (ol_state (Z.of_nat j))) "")
      with (ol_prefix (Z.of_nat j)) by reflexivity.
    replace (St.get (St.prefix_rest (ol_state (Z.of_nat j))) "") with SPACES
      by reflexivity.
    replace (St.has_type TYPE_CODE (ol_state (Z.of_nat j))) with false by reflexivity.
    rewrite render_item by assumption. reflexivity.
  - cbn [ol_source map main_loop]. simpl fst in Hd. simpl snd in Ht.
    rewrite (step_next_item d t Hd Ht) by assumption.
    replace (Z.of_nat j + 1) with (Z.of_nat (S j)) by lia.
    fold (ol_source rest). rewrite IH by (assumption || reflexivity).
    reflexivity.
Qed.

Lemma ol_words_rendered (items : list (string * string)) (fuel : nat) (width : Z) :
  Forall (fun item => digits (fst item) = true /\ plain_word (snd item) = true)
         items ->
  rendering (S (S fuel)) (ol_source items) width = Some (ol_numbered items).
Proof.
  intros Hitems.
  destruct items as [|[d t] rest]; [reflexivity|].
  inversion Hitems as [|? ? [Hd Ht] Hrest]; subst. simpl fst in Hd. simpl snd in Ht.
  unfold rendering. rewrite groupify_S. unfold groupify_with.
  cbn [ol_source map main_loop].
  rewrite (step_first_item d t Hd Ht).
  fold (ol_source rest). change 1 with (Z.of_nat 1).
  rewrite loop_items by (assumption || reflexivity).
  cbn [option_map]. rewrite output_lines_put
    by (apply numbered_from_no_newline; assumption).
  unfold ol_numbered, enumerate. cbn [List.length].
  now rewrite (numbered_from_enumerate rest 0 d t).
Qed.

(** *** Any item *)

Lemma lstrip_isspace_mul (k : nat) (c : ascii) (s : string) :
  Py.isspace c = false ->
  Py.lstrip Py.isspace (Py.mul " " k ++ String c s) = String c s.
Proof.
  intros Hc. induction k as [|k IH]; simpl; [now rewrite Hc|exact IH].
Qed.

Section AnyItem.
Variables raw text : string.
Hypothesis Hitem : ordered_item raw text.

Lemma ordered_item_line :
  exists k d0 d' w rest,
    (k <= 3)%nat /\ Py.isdigit d0 = true /\ str_forall Py.isdigit d' = true
    /\ Py.isspace w = true
    /\ normalize raw = Py.mul " " k ++ String d0 (d' ++ String "." (String w rest))
    /\ text = Py.lstrip Py.isspace rest.
Proof.
  destruct Hitem as (k & d & w & rest & Hk & Hd & Hw & Hn & Ht).
  unfold digits in Hd. destruct d as [|d0 d']; [discriminate|].
  simpl in Hd. apply andb_true_iff in Hd. destruct Hd as [H0 H'].
  exists k, d0, d', w, rest.
  repeat split; try assumption; rewrite Hn; cbn [append]; now rewrite ?append_assoc.
Qed.

Lemma any_item_kind (g : Grouper) : line_kind_of g raw = OtherLine.
Proof.
  destruct ordered_item_line as (k & d0 & d' & w & rest & Hk & H0 & H' & Hw & Hn & Ht).
  destruct (digit_facts d0 H0) as (Hsp & _ & _ & _ & Hhash & Heq & Hdash & _).
  apply line_kind_other; rewrite Hn.
  - unfold Py.strip. rewrite lstrip_isspace_mul by assumption.
    now apply rstrip_cons_keep.
  - right. destruct k as [|k]; [|reflexivity].
    cbn [Py.mul append]. unfold Re._setext_header. now rewrite Heq, Hdash.
  - destruct k as [|k]; [|reflexivity].
    cbn [Py.mul append]. unfold Re._atx_header. simpl. unfold Py.is_char.
    now rewrite Hhash.
Qed.

Lemma any_item_hr : Re._hr (normalize raw) = None.
Proof.
  destruct ordered_item_line as (k & d0 & d' & w & rest & Hk & H0 & H' & Hw & Hn & Ht).
  destruct (digit_facts d0 H0) as (Hsp & Hhr & _).
  rewrite Hn. destruct k as [|k]; [|reflexivity].
  unfold Re._hr. simpl. now rewrite Hhr, Hsp.
Qed.

Lemma any_item_ul : Re._ul_indent (normalize raw) = None.
Proof.
  destruct ordered_item_line as (k & d0 & d' & w & rest & Hk & H0 & H' & Hw & Hn & Ht).
  destruct (digit_facts d0 H0) as (_ & _ & Hul & _).
  assert (Hne : d0 <> " "%char) by (intros ->; discriminate).
  rewrite Hn. unfold Re._ul_indent.
  rewrite leading_spaces_mul, lstrip_spaces_mul by assumption.
  rewrite Hul. now destruct (k <=? 3)%nat.
Qed.

Lemma any_item_ol : Re._ol_indent (normalize raw) = Some text.
Proof.
  destruct ordered_item_line as (k & d0 & d' & w & rest & Hk & H0 & H' & Hw & Hn & ->).
  rewrite Hn. now apply ol_indent_indented.
Qed.

Section Steps.
Variable Out : Type.
Variable render :
  list string -> Z -> string -> bool -> string -> string -> bool -> bool ->
  Out -> option Out.
Variables (width : Z) (indent : string).

Lemma step_list_open (o : Out) :
  step Out render width indent raw grouper0 o
  = Some (mkGrouper [text] false false true St.empty (ol_state 1), o).
Proof.
  rewrite step_other by apply any_item_kind.
  unfold other_line_step, continuation. grouper_simpl.
  unfold identify, SPECIAL_TYPES. cbn [find].
  rewrite any_item_hr, any_item_ul, any_item_ol.
  grouper_simpl. cbn [map_last]. unfold Re.sub_ol_indent. rewrite any_item_ol.
  reflexivity.
Qed.

Lemma step_list_next (G : list string) (hb fb fr : bool) (ps : St.t) (n : Z)
    (o : Out) :
  step Out render width indent raw (mkGrouper G hb fb fr ps (ol_state n)) o
  = ' o <- render G width indent fr (ol_prefix n) SPACES hb false o ;;
    Some (mkGrouper [text] false false false ps (ol_state (n + 1)), o).
Proof.
  rewrite step_other by apply any_item_kind.
  unfold other_line_step, continuation. unfold ol_state at 1. grouper_simpl.
  rewrite any_item_ul, any_item_ol. grouper_simpl.
  unfold _do_render_group. grouper_simpl.
  replace (St.get (St.prefix_first (ol_state n)) "") with (ol_prefix n) by reflexivity.
  replace (St.get (St.prefix_rest (ol_state n)) "") with SPACES by reflexivity.
  replace (St.has_type TYPE_CODE (ol_state n)) with false by reflexivity.
  destruct (render G width indent fr (ol_prefix n) SPACES hb false o) as [o'|];
    [|reflexivity].
  unfold ol_state. grouper_simpl.
  unfold Re.sub_ol_indent. rewrite any_item_ol. reflexivity.
Qed.

End Steps.
End AnyItem.

Lemma list_loop (Out : Type)
    (render : list string -> Z -> string -> bool -> string -> string ->
              bool -> bool -> Out -> option Out)
    (width : Z) (indent : string) (lines texts : list string) :
  Forall2 ordered_item lines texts ->
  forall open fr ps n o,
    main_loop Out render width indent lines
      (mkGrouper [open] false false fr ps (ol_state n)) o
    = ol_rendered Out render width indent n fr (open :: texts) o.
Proof.
  induction 1 as [|raw text lines texts Hitem Hrest IH]; intros open fr ps n o.
  - cbn [main_loop ol_rendered]. unfold flush_if_group, _do_render_group.
    grouper_simpl.
    replace (St.get (St.prefix_first (ol_state n)) "") with (ol_prefix n) by reflexivity.
    replace (St.get (St.prefix_rest (ol_state n)) "") with SPACES by reflexivity.
    replace (St.has_type TYPE_CODE (ol_state n)) with false by reflexivity.
    now destruct (render [open] width indent fr (ol_prefix n) SPACES false false o).
  - cbn [main_loop]. rewrite (step_list_next raw text Hitem).
    cbn [ol_rendered].
    destruct (render [open] width indent fr (ol_prefix n) SPACES false false o)
      as [o'|]; [|reflexivity].
    apply IH.
Qed.

Lemma list_rendered (fuel : nat) (width : Z) (indent : string)
    (lines texts : list string) (o : Stdout) :
  Forall2 ordered_item lines texts ->
  _groupify (S fuel) lines width indent o
  = ol_rendered Stdout (_render_group fuel) width indent 1 true texts o.
Proof.
  intros H. rewrite groupify_S. unfold groupify_with.
  destruct H as [|raw text lines texts Hitem Hrest]; [reflexivity|].
  cbn [main_loop]. rewrite (step_list_open raw text Hitem).
  now apply list_loop.
Qed.

Lemma render_item_nested (fuel : nat) (text : string) (width : Z)
    (indent : string) (fr : bool) (n : Z) (o : Stdout) :
  _render_group fuel [text] width indent fr (ol_prefix n) SPACES false false o
  = _groupify fuel [text] width (indent ++ SPACES)
      (print_comma ((if fr then "" else indent) ++ Py.drop_last (ol_prefix n)) o).
Proof.
  destruct (ol_prefix_shape n) as (q & Eq & Hq).
  unfold _render_group, render_group_with. rewrite Eq.
  change (q ++ " ") with (q ++ String " " "").
  rewrite endswith_snoc, drop_last_snoc.
  replace (Py.nonempty (q ++ String " " "")) with true by (now destruct q).
  cbn [SPACES NUM_SPACES Py.mul Py.nonempty andb].
  now destruct (_groupify fuel [text] width _ _).
Qed.





(** ** The program terminates

    With fuel above the weight of the document, [_groupify] returns. *)

(** *** Lines and their weight *)

Lemma lstrip_suffix (p : ascii -> bool) (s : string) :
  exists pre, s = pre ++ Py.lstrip p s.
Proof.
  induction s as [|c s [pre IH]]; [now exists ""|].
  simpl. destruct (p c).
  - exists (String c pre). simpl. now f_equal.
  - now exists "".
Qed.

Lemma rstrip_length (p : ascii -> bool) (s : string) :
  (String.length (Py.rstrip p s) <= String.length s)%nat.
Proof.
  induction s as [|c s IH]; simpl; [lia|].
  destruct (Py.rstrip p s); [destruct (p c)|]; simpl in *; lia.
Qed.

Lemma lstrip_length (p : ascii -> bool) (s : string) :
  (String.length (Py.lstrip p s) <= String.length s)%nat.
Proof.
  destruct (lstrip_suffix p s) as [pre E]. rewrite E at 2.
  rewrite length_append. lia.
Qed.

Lemma strip_length (p : ascii -> bool) (s : string) :
  (String.length (Py.strip p s) <= String.length s)%nat.
Proof.
  unfold Py.strip. pose proof (rstrip_length p (Py.lstrip p s)).
  pose proof (lstrip_length p s). lia.
Qed.

Lemma rstrip_forall (q p : ascii -> bool) (s : string) :
  str_forall q s = true -> str_forall q (Py.rstrip p s) = true.
Proof.
  induction s as [|c s IH]; simpl; [reflexivity|].
  intros H. apply andb_true_iff in H. destruct H as [Hc Hs].
  specialize (IH Hs). destruct (Py.rstrip p s); [destruct (p c)|]; simpl in *;
    rewrite ?Hc, ?IH; reflexivity.
Qed.

Lemma suffix_forall (q : ascii -> bool) (pre s : string) :
  str_forall q (pre ++ s) = true -> str_forall q s = true.
Proof. rewrite str_forall_app. intros H. apply andb_true_iff in H. tauto. Qed.

Lemma expandtabs_no_tab (tabsize : nat) (s : string) :
  forall j, str_forall no_tab (Py.expandtabs_from tabsize j s) = true.
Proof.
  induction s as [|c s IH]; intros j; simpl; [reflexivity|].
  destruct (Ascii.eqb c "009") eqn:E.
  - destruct tabsize; [apply IH|]. rewrite str_forall_app, IH.
    rewrite mul_char_forall by reflexivity. reflexivity.
  - simpl. unfold no_tab at 1. rewrite E. apply IH.
Qed.

Lemma normalize_no_tab (raw : string) : str_forall no_tab (normalize raw) = true.
Proof. apply expandtabs_no_tab. Qed.

(** a line without tabs does not grow when it is normalized again *)
Lemma weight_no_tab (x : string) :
  str_forall no_tab x = true -> (weight x <= String.length x)%nat.
Proof.
  intros H. unfold weight, normalize, Py.expandtabs.
  rewrite expandtabs_none.
  - apply strip_length.
  - unfold Py.strip. apply rstrip_forall.
    destruct (lstrip_suffix Py.is_nl_cr x) as [pre E]. rewrite E in H.
    now apply suffix_forall in H.
Qed.

Lemma weight_suffix (pre rest : string) :
  str_forall no_tab (pre ++ rest) = true ->
  (weight rest + String.length pre <= String.length (pre ++ rest))%nat.
Proof.
  intros H. rewrite length_append.
  pose proof (weight_no_tab rest (suffix_forall _ _ _ H)). lia.
Qed.

Lemma weight_normalize (raw : string) : (weight (normalize raw) <= weight raw)%nat.
Proof. apply weight_no_tab, normalize_no_tab. Qed.

Lemma total_weight_app (l1 l2 : list string) :
  total_weight (l1 ++ l2) = (total_weight l1 + total_weight l2)%nat.
Proof. unfold total_weight. now rewrite map_app, list_sum_app. Qed.

Lemma total_weight_removelast (l : list string) :
  (total_weight (List.removelast l) <= total_weight l)%nat.
Proof.
  destruct l as [|x l] using rev_ind; [simpl; lia|].
  rewrite removelast_last, total_weight_app. lia.
Qed.

(** *** What the patterns remove *)

Lemma ul_indent_suffix (line bullet rest : string) :
  Re._ul_indent line = Some (bullet, rest) ->
  exists pre, line = pre ++ rest /\ (1 <= String.length pre)%nat.
Proof.
  unfold Re._ul_indent. destruct (_ <=? 3)%nat; [|discriminate].
  destruct (lstrip_suffix (Py.is_char " ") line) as [pre1 E1].
  destruct (Py.lstrip (Py.is_char " ") line) as [|c s]; [discriminate|].
  destruct (Re.ul_char c); [|discriminate].
  unfold Re.after_spaces1. destruct s as [|ws s']; [discriminate|].
  destruct (Py.isspace ws); [|discriminate].
  intros H. injection H as _ <-.
  destruct (lstrip_suffix Py.isspace s') as [pre2 E2].
  exists (pre1 ++ String c (String ws pre2)). split.
  - rewrite E1, append_assoc. simpl. do 3 f_equal. exact E2.
  - rewrite length_append. simpl. lia.
Qed.

Lemma take_while_lstrip (p : ascii -> bool) (s : string) :
  s = Py.take_while p s ++ Py.lstrip p s.
Proof.
  induction s as [|c s IH]; [reflexivity|]. simpl.
  destruct (p c); [simpl; now f_equal|reflexivity].
Qed.

Lemma ol_indent_suffix (line rest : string) :
  Re._ol_indent line = Some rest ->
  exists pre, line = pre ++ rest /\ (1 <= String.length pre)%nat.
Proof.
  unfold Re._ol_indent. destruct (_ <=? 3)%nat; [|discriminate].
  destruct (lstrip_suffix (Py.is_char " ") line) as [pre1 E1].
  set (s := Py.lstrip (Py.is_char " ") line) in *.
  pose proof (take_while_lstrip Py.isdigit s) as E2.
  destruct (Py.take_while Py.isdigit s) as [|d ds]; [discriminate|].
  destruct (Py.lstrip Py.isdigit s) as [|c s']; [discriminate|].
  destruct c as [[] [] [] [] [] [] [] []]; try discriminate.
  unfold Re.after_spaces1. destruct s' as [|ws s'']; [discriminate|].
  destruct (Py.isspace ws); [|discriminate].
  intros H. injection H as <-.
  destruct (lstrip_suffix Py.isspace s'') as [pre3 E3].
  exists (pre1 ++ String d ds ++ String "." (String ws pre3)). split.
  - rewrite E1, E2, !append_assoc. simpl. now rewrite <- E3.
  - rewrite length_append. simpl. lia.
Qed.

Lemma blockquote_suffix (line rest : string) :
  Re._blockquote line = Some rest ->
  exists pre, line = pre ++ rest /\ (1 <= String.length pre)%nat.
Proof.
  unfold Re._blockquote. destruct line as [|c s]; [discriminate|].
  destruct c as [[] [] [] [] [] [] [] []]; try discriminate.
  intros H. injection H as <-.
  destruct (lstrip_suffix Py.isspace s) as [pre E].
  exists (String ">" pre). split; [simpl; now f_equal|simpl; lia].
Qed.

(** *** The Grouper returns when its renderer does *)

Lemma cost_plain (g : Grouper) :
  recursive_state (state g) = false -> cost g = 0%nat.
Proof. unfold cost. now intros ->. Qed.

Lemma cost_le (g : Grouper) (n : nat) :
  (recursive_state (state g) = true -> (S (total_weight (group g)) <= n)%nat) ->
  (cost g <= n)%nat.
Proof. unfold cost. destruct (recursive_state (state g)); intros H; [auto|lia]. Qed.

Lemma identify_cost (line : string) (g : Grouper) :
  group g = [line] -> str_forall no_tab line = true ->
  (cost (identify line g) <= String.length line)%nat.
Proof.
  intros Hg Htab. unfold identify, SPECIAL_TYPES. cbn [find].
  destruct (is_some (Re._hr line)); [apply cost_le; discriminate|].
  destruct (Re._ul_indent line) as [[bullet rest]|] eqn:Eul.
  { cbn [is_some]. apply cost_le. intros _. grouper_simpl. rewrite Hg.
    cbn [map_last]. unfold Re.sub_ul_indent. rewrite Eul.
    destruct (ul_indent_suffix _ _ _ Eul) as (pre & E & Hpre).
    rewrite E in Htab. pose proof (weight_suffix pre rest Htab).
    unfold total_weight. simpl. rewrite E. lia. }
  cbn [is_some].
  destruct (Re._ol_indent line) as [rest|] eqn:Eol.
  { cbn [is_some]. apply cost_le. intros _. grouper_simpl. rewrite Hg.
    cbn [map_last]. unfold Re.sub_ol_indent. rewrite Eol.
    destruct (ol_indent_suffix _ _ Eol) as (pre & E & Hpre).
    rewrite E in Htab. pose proof (weight_suffix pre rest Htab).
    unfold _increment_ol_state. grouper_simpl.
    unfold total_weight. simpl. rewrite E. lia. }
  cbn [is_some].
  destruct (Re._blockquote line) as [rest|] eqn:Ebq.
  { cbn [is_some]. apply cost_le. intros _. grouper_simpl. rewrite Hg.
    cbn [map_last]. unfold Re.sub_blockquote. rewrite Ebq.
    destruct (blockquote_suffix _ _ Ebq) as (pre & E & Hpre).
    rewrite E in Htab. pose proof (weight_suffix pre rest Htab).
    unfold total_weight. simpl. rewrite E. lia. }
  cbn [is_some].
  destruct (Re._code line); apply cost_le; discriminate.
Qed.

Section Total.
Variable Out : Type.
Variable render :
  list string -> Z -> string -> bool -> string -> string -> bool -> bool ->
  Out -> option Out.
Variable width : Z.
Variable indent : string.
Variable m : nat.

(** the renderer returns for every group it prints itself, and for a group
    it hands to the Grouper when the group weighs less than [m] *)
Hypothesis Hrender :
  forall grp fr pf pr la is_pre o,
    (is_pre = false -> Py.nonempty pf && Py.nonempty pr = true ->
     (total_weight grp < m)%nat) ->
    render grp width indent fr pf pr la is_pre o <> None.

Lemma flush_returns (line_after : bool) (g : Grouper) (o : Out) :
  (recursive_state (state g) = true -> (total_weight (group g) < m)%nat) ->
  exists o',
    _do_render_group Out render width indent line_after g o
    = Some (mkGrouper [] false false false (prev_state g) (state g), o').
Proof.
  intros H. unfold _do_render_group.
  destruct (render _ _ _ _ _ _ _ _ _) as [o'|] eqn:E; [now exists o'|].
  exfalso. revert E. apply Hrender. intros Hpre Hboth. apply H.
  unfold recursive_state. now rewrite Hpre, <- andb_assoc, Hboth.
Qed.

Lemma flush_if_returns (line_after : bool) (g : Grouper) (o : Out) :
  (recursive_state (state g) = true -> (total_weight (group g) < m)%nat) ->
  exists g' o',
    flush_if_group Out render width indent line_after g o = Some (g', o')
    /\ group g' = [] /\ state g' = state g.
Proof.
  intros H. unfold flush_if_group. destruct (group g) as [|x l] eqn:Eg.
  - exists g, o. auto.
  - cbn [nonnil]. destruct (flush_returns line_after g o) as (o' & ->).
    + now rewrite Eg.
    + eexists _, o'. auto.
Qed.

Lemma cost_bound (g : Grouper) :
  (cost g <= m)%nat ->
  recursive_state (state g) = true -> (total_weight (group g) < m)%nat.
Proof. unfold cost. intros H E. rewrite E in H. lia. Qed.

Lemma setext_returns (underline : ascii) (g : Grouper) (o : Out) :
  (cost g <= m)%nat ->
  exists g' o',
    setext_header_step Out render width indent underline g o = Some (g', o')
    /\ cost g' = 0%nat.
Proof.
  intros Hc. unfold setext_header_step. cbv zeta.
  match goal with
  | |- context [if ?c then ?a else ?b] =>
      assert (H1 : exists g1 o1, (if c then a else b) = Some (g1, o1))
  end.
  { destruct (1 <? _)%nat; [|eauto].
    match goal with
    | |- context [_do_render_group Out render width indent true ?g0 o] =>
        destruct (flush_returns true g0 o) as (o1 & ->); [|eauto]
    end.
    grouper_simpl. intros Hrec.
    pose proof (cost_bound g Hc Hrec).
    pose proof (total_weight_removelast (group g)).
    pose proof (total_weight_removelast (List.removelast (group g))). lia. }
  destruct H1 as (g1 & o1 & ->). cbv beta iota.
  match goal with
  | |- context [_do_render_group Out render width indent false ?g2 o1] =>
      destruct (flush_returns false g2 o1) as (o2 & ->); [discriminate|]
  end.
  cbv beta iota.
  match goal with
  | |- context [_do_render_group Out render width indent true ?g3 o2] =>
      destruct (flush_returns true g3 o2) as (o3 & ->); [discriminate|]
  end.
  cbv beta iota. eexists _, o3. split; [reflexivity|]. reflexivity.
Qed.

Lemma atx_returns (hashes line : string) (g : Grouper) (o : Out) :
  (cost g <= m)%nat ->
  exists g' o',
    atx_header_step Out render width indent hashes line g o = Some (g', o')
    /\ cost g' = 0%nat.
Proof.
  intros Hc. unfold atx_header_step.
  destruct (flush_if_returns true g o (cost_bound g Hc)) as (g1 & o1 & -> & _ & _).
  cbv beta iota.
  match goal with
  | |- context [_do_render_group Out render width indent true ?g2 o1] =>
      destruct (flush_returns true g2 o1) as (o2 & ->); [discriminate|]
  end.
  cbv beta iota. eexists _, o2. split; reflexivity.
Qed.

Lemma cost_set_has_break (b : bool) (g : Grouper) :
  cost (set_has_break b g) = cost g.
Proof. reflexivity. Qed.

Lemma cost_append (x : string) (g : Grouper) (n : nat) :
  (weight x <= n)%nat -> (cost (group_append x g) <= cost g + n)%nat.
Proof.
  intros H. unfold cost. grouper_simpl. unfold Py.append.
  destruct (recursive_state (state g)); [|lia].
  rewrite total_weight_app. unfold total_weight at 2. simpl. lia.
Qed.

Lemma cost_single (x : string) (g : Grouper) (n : nat) :
  group g = [] -> (S (weight x) <= n)%nat -> (cost (group_append x g) <= n)%nat.
Proof.
  intros Hg H. apply cost_le. intros _. grouper_simpl. unfold Py.append.
  rewrite Hg. unfold total_weight. simpl. lia.
Qed.

(** what the continuation block leaves: the line was taken into the group
    for at most its length, or nothing was decided and the group is as it
    was or was flushed *)
Lemma continuation_returns (line : string) (g : Grouper) (o : Out) :
  (cost g <= m)%nat -> str_forall no_tab line = true ->
  exists g1 o1 line1 wc,
    continuation Out render width indent line g o = Some (g1, o1, line1, wc)
    /\ ((wc = true
         /\ (cost (group_append line1 g1) <= cost g + String.length line)%nat)
        \/ (wc = false /\ line1 = line /\ state g1 = state g
            /\ (group g1 = group g \/ group g1 = []))).
Proof.
  intros Hc Htab. unfold continuation. cbv zeta.
  pose proof (cost_bound g Hc) as Hflush.
  assert (Hlist :
    exists g1 o1 line1 wc,
      (if is_some (Re._ul_indent line) || is_some (Re._ol_indent line)
       then
         ' (g0, o0) <- _do_render_group Out render width indent (has_break g) g o ;;
         Some (if St.has_type TYPE_OL (state g0)
               then set_state (_increment_ol_state (state g0) None) g0 else g0,
               o0,
               if is_some (Re._ul_indent line)
               then Re.sub_ul_indent line else Re.sub_ol_indent line,
               true)
       else if has_break g && Re._indented line
            then Some (group_append (String "010" "") g, o, line, true)
            else Some (g, o, line, false))
      = Some (g1, o1, line1, wc)
      /\ ((wc = true
           /\ (cost (group_append line1 g1) <= cost g + String.length line)%nat)
          \/ (wc = false /\ line1 = line /\ state g1 = state g
              /\ (group g1 = group g \/ group g1 = [])))).
  { destruct (is_some (Re._ul_indent line) || is_some (Re._ol_indent line)) eqn:Em.
    - destruct (flush_returns (has_break g) g o Hflush) as (o1 & ->). cbv beta iota.
      eexists _, o1, _, true. split; [reflexivity|]. left. split; [reflexivity|].
      assert (Hw : (S (weight (if is_some (Re._ul_indent line)
                               then Re.sub_ul_indent line
                               else Re.sub_ol_indent line))
                    <= String.length line)%nat).
      { unfold Re.sub_ul_indent, Re.sub_ol_indent.
        destruct (Re._ul_indent line) as [[b rest]|] eqn:Eul; cbn [is_some] in *.
        - destruct (ul_indent_suffix _ _ _ Eul) as (pre & E & Hpre).
          rewrite E in Htab. pose proof (weight_suffix pre rest Htab).
          rewrite E. lia.
        - destruct (Re._ol_indent line) as [rest|] eqn:Eol; [|discriminate].
          destruct (ol_indent_suffix _ _ Eol) as (pre & E & Hpre).
          rewrite E in Htab. pose proof (weight_suffix pre rest Htab).
          rewrite E. lia. }
      grouper_simpl.
      destruct (St.has_type TYPE_OL (state g));
        (eapply Nat.le_trans; [apply cost_single; [reflexivity|exact Hw]|lia]).
    - destruct (has_break g && Re._indented line).
      + eexists _, o, line, true. split; [reflexivity|]. left. split; [reflexivity|].
        eapply Nat.le_trans; [apply cost_append, weight_no_tab, Htab|].
        pose proof (cost_append (String "010" "") g 0 (Nat.le_refl 0)). lia.
      + eexists g, o, line, false. split; [reflexivity|]. right. auto. }
  destruct (St.type (state g)) as [[]|] eqn:Ety.
  - (* a horizontal rule *)
    eexists g, o, line, false. split; [reflexivity|]. right. auto.
  - exact Hlist.
  - exact Hlist.
  - (* a blockquote *)
    destruct (Re._blockquote line) as [rest|] eqn:Ebq; cbn [is_some].
    + unfold Re.sub_blockquote. rewrite Ebq.
      eexists _, o, rest, true. split; [reflexivity|]. left. split; [reflexivity|].
      destruct (blockquote_suffix _ _ Ebq) as (pre & E & Hpre).
      rewrite E in Htab. pose proof (weight_suffix pre rest Htab) as Hw.
      rewrite <- E in Hw.
      assert (Hr : (weight rest <= String.length line)%nat) by lia.
      pose proof (cost_append (String "010" "") g 0 (Nat.le_refl 0)) as Hnl.
      match goal with
      | |- (cost (group_append rest ?g1) <= _)%nat =>
          assert (H1 : (cost g1 <= cost g)%nat)
      end.
      { destruct (has_break g); destruct (negb (Py.nonempty rest));
          rewrite ?cost_set_has_break; lia. }
      eapply Nat.le_trans; [apply cost_append, Hr|lia].
    + eexists g, o, line, false. split; [reflexivity|]. right. auto.
  - (* a code block *)
    destruct (negb (Re._code line)).
    + destruct (flush_returns true g o Hflush) as (o1 & ->). cbv beta iota.
      eexists _, o1, line, false. split; [reflexivity|]. right. auto.
    + eexists g, o, line, false. split; [reflexivity|]. right. auto.
  - eexists g, o, line, false. split; [reflexivity|]. right. auto.
Qed.

Lemma other_returns (line : string) (g : Grouper) (o : Out) :
  (cost g <= m)%nat -> str_forall no_tab line = true ->
  exists g' o',
    other_line_step Out render width indent line g o = Some (g', o')
    /\ (cost g' <= cost g + String.length line)%nat.
Proof.
  intros Hc Htab. unfold other_line_step. cbv zeta.
  destruct (continuation_returns line (set_forced_break false g) o Hc Htab)
    as (g1 & o1 & line1 & wc & -> & [[-> Hcost] | (-> & -> & Hst & Hgrp)]);
    cbv beta iota; cbn [negb andb].
  - eexists _, o1. split; [reflexivity|exact Hcost].
  - change (state (set_forced_break false g)) with (state g) in Hst.
    change (group (set_forced_break false g)) with (group g) in Hgrp.
    assert (H2 : exists g2 o2,
               (if has_break g1
                then flush_if_group Out render width indent true g1 o1
                else Some (g1, o1)) = Some (g2, o2)
               /\ state g2 = state g /\ (group g2 = group g \/ group g2 = [])).
    { destruct (has_break g1); [|eauto].
      destruct (flush_if_returns true g1 o1) as (g2 & o2 & -> & Hg2 & Hs2).
      - rewrite Hst. intros Hrec. pose proof (cost_bound g Hc Hrec).
        destruct Hgrp as [-> | ->]; [assumption|]. unfold total_weight. simpl. lia.
      - exists g2, o2. rewrite Hs2, Hst. auto. }
    destruct H2 as (g2 & o2 & -> & Hs2 & Hg2). cbv beta iota.
    assert (Hc2 : (cost g2 <= cost g)%nat).
    { unfold cost. rewrite Hs2. destruct (recursive_state (state g)); [|lia].
      destruct Hg2 as [-> | ->]; [lia|]. unfold total_weight. simpl. lia. }
    destruct (Nat.eqb _ 1) eqn:Elen.
    + eexists _, o2. split; [reflexivity|].
      eapply Nat.le_trans; [apply identify_cost; [|exact Htab]|lia].
      apply Nat.eqb_eq in Elen.
      change (group (group_append line g2)) with (group g2 ++ [line])%list in *.
      rewrite length_app in Elen. simpl in Elen.
      destruct (group g2); [reflexivity|simpl in Elen; lia].
    + eexists _, o2. split; [reflexivity|].
      eapply Nat.le_trans; [apply cost_append, weight_no_tab, Htab|lia].
Qed.

Lemma step_returns (raw : string) (g : Grouper) (o : Out) :
  (cost g <= m)%nat ->
  exists g' o',
    step Out render width indent raw g o = Some (g', o')
    /\ (cost g' <= cost g + weight raw)%nat.
Proof.
  intros Hc. unfold step. cbv zeta.
  destruct (negb (Py.nonempty (Py.strip Py.isspace (normalize raw)))).
  { eexists _, o. split; [reflexivity|].
    destruct (negb (forced_break g)); rewrite ?cost_set_has_break; lia. }
  destruct (if negb (has_break g) then Re._setext_header (normalize raw) else None)
    as [underline|].
  { destruct (setext_returns underline g o Hc) as (g' & o' & -> & Hz).
    exists g', o'. split; [reflexivity|lia]. }
  destruct (Re._atx_header (normalize raw)) as [hashes|].
  { destruct (atx_returns hashes (normalize raw) g o Hc) as (g' & o' & -> & Hz).
    exists g', o'. split; [reflexivity|lia]. }
  apply other_returns; [assumption|apply normalize_no_tab].
Qed.

Lemma main_loop_returns (f : list string) :
  forall g o, (cost g + total_weight f <= m)%nat ->
    exists o', main_loop Out render width indent f g o = Some o'.
Proof.
  induction f as [|raw f IH]; intros g o Hc; cbn [main_loop].
  - destruct (flush_if_returns false g o) as (g' & o' & -> & _).
    + apply cost_bound. lia.
    + now exists o'.
  - destruct (step_returns raw g o) as (g' & o' & -> & Hc'); [lia|].
    cbv beta iota. apply IH.
    unfold total_weight in *. simpl in Hc. fold (weight raw) in Hc. lia.
Qed.

End Total.

Lemma render_returns (rec : list string -> Z -> string -> Stdout -> option Stdout)
    (grp : list string) (width : Z) (indent : string) (fr : bool)
    (pf pr : string) (la is_pre : bool) (o : Stdout) :
  (is_pre = false -> Py.nonempty pf && Py.nonempty pr = true ->
   forall o', rec grp width (indent ++ pr) o' <> None) ->
  render_group_with rec grp width indent fr pf pr la is_pre o <> None.
Proof.
  intros H. unfold render_group_with. destruct is_pre; [discriminate|].
  destruct (Py.nonempty pf && Py.nonempty pr) eqn:E; [|discriminate].
  match goal with
  | |- context [rec grp width (indent ++ pr) ?o1] =>
      pose proof (H eq_refl eq_refl o1) as Hrec;
      destruct (rec grp width (indent ++ pr) o1); [discriminate|congruence]
  end.
Qed.

(** with fuel above the weight of its lines, [_groupify] returns *)
Theorem groupify_returns (m : nat) :
  forall f width indent o,
    (total_weight f <= m)%nat ->
    exists o', _groupify (S m) f width indent o = Some o'.
Proof.
  induction m as [|m IH]; intros f width indent o Hf; rewrite groupify_S;
    unfold groupify_with.
  - apply (main_loop_returns Stdout _ width indent 0).
    + intros grp fr pf pr la is_pre o0 H. apply render_returns.
      intros Hpre Hboth. specialize (H Hpre Hboth). lia.
    + simpl. lia.
  - apply (main_loop_returns Stdout _ width indent (S m)).
    + intros grp fr pf pr la is_pre o0 H. apply render_returns.
      intros Hpre Hboth o'. specialize (H Hpre Hboth).
      destruct (IH grp width (indent ++ pr) o') as (o2 & ->); [lia|discriminate].
    + simpl. lia.
Qed.

(** every document is printed *)
Corollary rendering_returns (f : list string) (width : Z) :
  exists lines, rendering (S (total_weight f)) f width = Some lines.
Proof.
  unfold rendering.
  destruct (groupify_returns (total_weight f) f width "" stdout0 (Nat.le_refl _))
    as (o' & ->).
  now eexists.
Qed.

(** ** More fuel does not change what is printed *)

Section Mono.
Variable Out : Type.
Variables r1 r2 :
  list string -> Z -> string -> bool -> string -> string -> bool -> bool ->
  Out -> option Out.
Variable width : Z.
Variable indent : string.

(** the second renderer returns what the first does, when the first returns *)
Hypothesis Hle :
  forall grp fr pf pr la is_pre o o',
    r1 grp width indent fr pf pr la is_pre o = Some o' ->
    r2 grp width indent fr pf pr la is_pre o = Some o'.

Lemma do_render_mono (la : bool) (g : Grouper) (o : Out) (x : Grouper * Out) :
  _do_render_group Out r1 width indent la g o = Some x ->
  _do_render_group Out r2 width indent la g o = Some x.
Proof.
  unfold _do_render_group. destruct (r1 _ _ _ _ _ _ _ _ _) eqn:E; [|discriminate].
  now rewrite (Hle _ _ _ _ _ _ _ _ E).
Qed.

(** the flushes of a turn, one after the other *)
Ltac follow_flushes H :=
  repeat (progress
            (split_tests H;
             try match type of H with
                 | context [_do_render_group Out r1 width indent ?la ?g ?o] =>
                     let E := fresh "E" in
                     destruct (_do_render_group Out r1 width indent la g o)
                       as [[? ?]|] eqn:E;
                     [apply do_render_mono in E; rewrite E;
                      cbv beta iota in H |- *
                     |discriminate H]
                 end));
  try exact H.

Lemma flush_if_mono (la : bool) (g : Grouper) (o : Out) (x : Grouper * Out) :
  flush_if_group Out r1 width indent la g o = Some x ->
  flush_if_group Out r2 width indent la g o = Some x.
Proof. unfold flush_if_group. intros H. follow_flushes H. Qed.

Lemma setext_mono (underline : ascii) (g : Grouper) (o : Out) (x : Grouper * Out) :
  setext_header_step Out r1 width indent underline g o = Some x ->
  setext_header_step Out r2 width indent underline g o = Some x.
Proof. unfold setext_header_step. cbv zeta. intros H. follow_flushes H. Qed.

Lemma atx_mono (hashes line : string) (g : Grouper) (o : Out) (x : Grouper * Out) :
  atx_header_step Out r1 width indent hashes line g o = Some x ->
  atx_header_step Out r2 width indent hashes line g o = Some x.
Proof.
  unfold atx_header_step, flush_if_group. cbv zeta. intros H. follow_flushes H.
Qed.

Lemma continuation_mono (line : string) (g : Grouper) (o : Out)
    (x : Grouper * Out * string * bool) :
  continuation Out r1 width indent line g o = Some x ->
  continuation Out r2 width indent line g o = Some x.
Proof.
  unfold continuation. cbv zeta. intros H.
  destruct (St.type (state g)) as [[]|]; follow_flushes H.
Qed.

Lemma other_mono (line : string) (g : Grouper) (o : Out) (x : Grouper * Out) :
  other_line_step Out r1 width indent line g o = Some x ->
  other_line_step Out r2 width indent line g o = Some x.
Proof.
  unfold other_line_step. cbv zeta. intros H.
  destruct (continuation Out r1 width indent line (set_forced_break false g) o)
    as [[[[g1 o1] line1] wc]|] eqn:E; [|discriminate].
  apply continuation_mono in E. rewrite E. cbv beta iota in H |- *.
  unfold flush_if_group in *. follow_flushes H.
Qed.

Lemma step_mono (raw : string) (g : Grouper) (o : Out) (x : Grouper * Out) :
  step Out r1 width indent raw g o = Some x ->
  step Out r2 width indent raw g o = Some x.
Proof.
  unfold step. cbv zeta.
  destruct (negb (Py.nonempty (Py.strip Py.isspace (normalize raw)))); [auto|].
  destruct (if negb (has_break g) then Re._setext_header (normalize raw) else None).
  - apply setext_mono.
  - destruct (Re._atx_header (normalize raw)); [apply atx_mono|apply other_mono].
Qed.

Lemma main_loop_mono (f : list string) :
  forall g o o',
    main_loop Out r1 width indent f g o = Some o' ->
    main_loop Out r2 width indent f g o = Some o'.
Proof.
  induction f as [|raw f IH]; intros g o o'; cbn [main_loop].
  - destruct (flush_if_group Out r1 width indent false g o) as [[g1 o1]|] eqn:E;
      [|discriminate].
    apply flush_if_mono in E. now rewrite E.
  - destruct (step Out r1 width indent raw g o) as [[g1 o1]|] eqn:E; [|discriminate].
    apply step_mono in E. rewrite E. apply IH.
Qed.

End Mono.

Lemma render_mono (rec1 rec2 : list string -> Z -> string -> Stdout -> option Stdout) :
  (forall f width indent o o',
      rec1 f width indent o = Some o' -> rec2 f width indent o = Some o') ->
  forall grp width indent fr pf pr la is_pre o o',
    render_group_with rec1 grp width indent fr pf pr la is_pre o = Some o' ->
    render_group_with rec2 grp width indent fr pf pr la is_pre o = Some o'.
Proof.
  intros H grp width indent fr pf pr la is_pre o o'. unfold render_group_with.
  destruct is_pre; [auto|].
  destruct (Py.nonempty pf && Py.nonempty pr); [|auto].
  destruct (rec1 _ _ _ _) eqn:E; [|discriminate]. now rewrite (H _ _ _ _ _ E).
Qed.

Lemma groupify_more_fuel (fuel : nat) :
  forall f width indent o o',
    _groupify fuel f width indent o = Some o' ->
    _groupify (S fuel) f width indent o = Some o'.
Proof.
  induction fuel as [|fuel IH]; intros f width indent o o'; [discriminate|].
  rewrite !groupify_S. unfold groupify_with. apply main_loop_mono.
  intros grp fr pf pr la is_pre. apply render_mono. exact IH.
Qed.

(** what [_groupify] prints does not depend on the fuel, once there is
    enough of it *)
Theorem groupify_fuel (fuel fuel' : nat) (f : list string) (width : Z)
    (indent : string) (o o' : Stdout) :
  (fuel <= fuel')%nat ->
  _groupify fuel f width indent o = Some o' ->
  _groupify fuel' f width indent o = Some o'.
Proof.
  induction 1 as [|fuel' Hle IH]; [auto|].
  intros H. apply groupify_more_fuel. now apply IH.
Qed.

(** the lines of a document are the same for every fuel above its weight *)
Corollary rendering_fuel (f : list string) (width : Z) (fuel : nat) :
  (S (total_weight f) <= fuel)%nat ->
  rendering fuel f width = rendering (S (total_weight f)) f width.
Proof.
  intros Hfuel. unfold rendering.
  destruct (groupify_returns (total_weight f) f width "" stdout0 (Nat.le_refl _))
    as (o' & E).
  now rewrite E, (groupify_fuel _ fuel _ _ _ _ _ Hfuel E).
Qed.

(** * The words of a paragraph

    The flatten-and-wrap branch of the renderer moves words between lines;
    it neither loses nor invents one. *)

Lemma split_app (sep : ascii) (a b : string) :
  Py.split sep (a ++ String sep b) = (Py.split sep a ++ Py.split sep b)%list.
Proof.
  induction a as [|c a IH]; simpl.
  - now rewrite Ascii.eqb_refl.
  - destruct (Ascii.eqb c sep).
    + now rewrite IH.
    + rewrite IH. destruct (Py.split sep a) as [|w ws] eqn:E; [|reflexivity].
      now destruct (split_nonnil sep a).
Qed.

Lemma words_of_app (a b : string) :
  words_of (a ++ " " ++ b) = (words_of a ++ words_of b)%list.
Proof.
  unfold words_of. change (a ++ " " ++ b)%string with (a ++ String " " b)%string.
  now rewrite split_app, filter_app.
Qed.

Lemma words_of_break (a : string) : words_of (a ++ "  ") = words_of a.
Proof.
  change (a ++ "  ")%string with (a ++ " " ++ " ")%string.
  rewrite words_of_app. apply app_nil_r.
Qed.

Lemma words_of_join (ws : list string) :
  words_of (Py.join " " ws) = flat_map words_of ws.
Proof.
  induction ws as [|w ws IH]; [reflexivity|].
  destruct ws as [|w' ws'].
  - simpl. now rewrite app_nil_r.
  - rewrite join_cons by discriminate. rewrite words_of_app, IH. reflexivity.
Qed.

Lemma words_of_word (w : string) :
  In w (words_of w) \/ Py.nonempty w = true ->
  str_forall (fun c => negb (Ascii.eqb c " ")) w = true ->
  words_of w = [w].
Proof.
  intros Hne Hsp. unfold words_of in *. rewrite split_none in * by assumption.
  simpl in *. destruct (Py.nonempty w); [reflexivity|].
  destruct Hne as [[]|]; discriminate.
Qed.

Lemma words_of_words (section : string) :
  flat_map words_of (words_of section) = words_of section.
Proof.
  pose proof (words_of_nonempty section) as Hne.
  pose proof (words_of_no_space section) as Hsp.
  induction (words_of section) as [|w ws IH]; [reflexivity|].
  inversion Hne; subst. inversion Hsp; subst.
  simpl. rewrite words_of_word by auto. simpl. f_equal. auto.
Qed.

Lemma words_of_marked (ws : list string) :
  flat_map words_of (append_to_last ws "  ") = flat_map words_of ws.
Proof.
  induction ws as [|w ws IH]; [reflexivity|].
  destruct ws as [|w' ws'].
  - simpl. now rewrite words_of_break.
  - rewrite append_to_last_cons by discriminate. simpl in *. now rewrite IH.
Qed.

Lemma fit_words_words (section : string) (b : bool) :
  flat_map words_of (fit_words section b) = words_of section.
Proof.
  unfold fit_words. destruct b; [rewrite words_of_marked|]; apply words_of_words.
Qed.

Lemma flat_map_flat_map {A B C : Type} (f : A -> list B) (g : B -> list C)
    (l : list A) :
  flat_map g (flat_map f l) = flat_map (fun x => flat_map g (f x)) l.
Proof.
  induction l as [|x l IH]; [reflexivity|].
  simpl. now rewrite flat_map_app, IH.
Qed.

(** the lines of [_fit_text], split at spaces again, are the words of the
    section *)
Lemma fit_text_words_kept (section : string) (width : Z) (b : bool) :
  flat_map words_of (_fit_text section width b) = words_of section.
Proof.
  destruct (fit_text_chunks section width b) as (chunks & H1 & H2 & _).
  rewrite H2, <- fit_words_words with (b := b), <- H1.
  clear. induction chunks as [|c cs IH]; [reflexivity|].
  simpl. now rewrite words_of_join, flat_map_app, IH.
Qed.

Lemma no_margin (i : nat) (l : list string) :
  forall start,
    map (fun '(j, line) =>
           let first := Nat.eqb i 0 && Nat.eqb j 0 in
           ((if first then "" else "") ++ (if first then "" else "") ++ line)%string)
        (combine (seq start (List.length l)) l)
    = l.
Proof.
  induction l as [|x l IH]; intros start; [reflexivity|].
  simpl. rewrite IH. now destruct (Nat.eqb i 0 && Nat.eqb start 0).
Qed.

Lemma wrapped_from_words (rw : Z) (n : nat) (sections : list string) :
  forall start,
    flat_map (fun x : nat * string =>
                flat_map words_of
                  (let '(i, section) := x in
                   map (fun '(j, line) =>
                          let first := Nat.eqb i 0 && Nat.eqb j 0 in
                          ((if first then "" else "")
                           ++ (if first then "" else "") ++ line)%string)
                       (enumerate (_fit_text section rw (i + 1 <? n)%nat))))
             (combine (seq start (List.length sections)) sections)
    = flat_map words_of sections.
Proof.
  induction sections as [|s sections IH]; intros start; [reflexivity|].
  cbn [List.length seq combine flat_map]. rewrite IH. f_equal.
  unfold enumerate. rewrite no_margin. apply fit_text_words_kept.
Qed.

Lemma wrapped_lines_words (sections : list string) (rw : Z) :
  flat_map words_of (wrapped_lines sections rw "" "" "" "")
  = flat_map words_of sections.
Proof.
  unfold wrapped_lines. rewrite flat_map_flat_map. apply wrapped_from_words.
Qed.

Lemma sections_words (n : nat) (group : list string) :
  forall i secs cur,
    group <> [] -> (i + List.length group = n)%nat -> (i = 0%nat -> cur = "") ->
    flat_map words_of (build_sections n i group secs cur)
    = (flat_map words_of secs ++ words_of cur
       ++ flat_map (fun line => words_of (Py.strip Py.isspace line)) group)%list.
Proof.
  induction group as [|line rest IH]; intros i secs cur Hne Hn Hcur; [congruence|].
  assert (Hw : words_of (cur ++ (if Nat.eqb i 0 then "" else " ")
                         ++ Py.strip Py.isspace line)
               = (words_of cur ++ words_of (Py.strip Py.isspace line))%list).
  { destruct (Nat.eqb_spec i 0) as [E|E].
    - now rewrite (Hcur E).
    - apply words_of_app. }
  cbn [build_sections]. unfold Py.append.
  change (flat_map (fun line => words_of (Py.strip Py.isspace line)) (line :: rest))
    with (words_of (Py.strip Py.isspace line)
          ++ flat_map (fun line => words_of (Py.strip Py.isspace line)) rest)%list.
  destruct rest as [|line' rest'].
  - simpl in Hn. cbn [build_sections flat_map].
    replace (Nat.eqb (i + 1) n) with true by (symmetry; apply Nat.eqb_eq; lia).
    rewrite orb_true_r. cbv iota. rewrite app_nil_r.
    destruct (String.eqb line (String "010" "")); rewrite !flat_map_app;
      cbn [flat_map]; rewrite ?app_nil_r;
      (destruct (Py.endswith line "  ");
       [rewrite words_of_break | rewrite append_nil_r]); now rewrite Hw.
  - rewrite IH; [|discriminate|simpl in *; lia|discriminate].
    destruct (Py.endswith line "  " || String.eqb line (String "010" "")
              || Nat.eqb (i + 1) n);
      destruct (String.eqb line (String "010" "")); rewrite ?flat_map_app;
      cbn [flat_map]; rewrite ?app_nil_r;
      try (destruct (Py.endswith line "  ");
           [rewrite words_of_break | rewrite append_nil_r]);
      rewrite ?Hw, <- ?app_assoc; reflexivity.
Qed.


(** * The shape of the fitted lines *)

Lemma concat_In {A : Type} (chunks : list (list A)) (c : list A) (x : A) :
  In c chunks -> In x c -> In x (List.concat chunks).
Proof. intros Hc Hx. apply in_concat. now exists c. Qed.

Lemma words_fixed (ws : list string) :
  Forall (fun w => Py.nonempty w = true) ws ->
  Forall (fun w => str_forall (fun c => negb (Ascii.eqb c " ")) w = true) ws ->
  flat_map words_of ws = ws.
Proof.
  induction 1 as [|w ws Hw Hws IH]; intros Hsp; [reflexivity|].
  inversion Hsp; subst. simpl. rewrite words_of_word by auto.
  simpl. f_equal. auto.
Qed.

Lemma Forall_concat {A : Type} (P : A -> Prop) (chunks : list (list A)) :
  Forall P (List.concat chunks) -> Forall (Forall P) chunks.
Proof.
  induction chunks as [|c cs IH]; simpl; intros H; [constructor|].
  apply Forall_app in H. destruct H. constructor; auto.
Qed.

(** X2.  Without the hard-break marker, every line [_fit_text] returns is
    its own words joined by single spaces: it neither starts nor ends with a
    space and has no two spaces in a row, so wrapping never makes a line end
    in the two spaces of a hard break. *)
Theorem fit_text_single_spaced (section : string) (width : Z) :
  Forall (fun line => Py.join " " (words_of line) = line)
         (_fit_text section width false).
Proof.
  destruct (fit_text_chunks section width false) as (chunks & H1 & H2 & _).
  rewrite H2. apply Forall_map.
  pose proof (words_of_nonempty section) as Hne.
  pose proof (words_of_no_space section) as Hsp.
  unfold fit_words in H1. rewrite <- H1 in Hne, Hsp.
  apply Forall_concat in Hne. apply Forall_concat in Hsp.
  clear H1 H2. induction chunks as [|c cs IH]; [constructor|].
  inversion Hne; subst. inversion Hsp; subst.
  constructor; [|now apply IH].
  rewrite words_of_join. now rewrite words_fixed.
Qed.

Lemma join_nonempty (sep : string) (c : list string) :
  c <> [] -> Forall (fun w => Py.nonempty w = true) c ->
  Py.nonempty (Py.join sep c) = true.
Proof.
  intros Hc Hall. destruct c as [|w c]; [congruence|].
  inversion Hall; subst. destruct c as [|w' c'].
  - assumption.
  - rewrite join_cons by discriminate. now apply nonempty_append_l.
Qed.

Lemma concat_length_chunks {A : Type} (chunks : list (list A)) :
  Forall (fun c => c <> []) chunks ->
  (List.length chunks <= List.length (List.concat chunks))%nat.
Proof.
  induction 1 as [|c cs Hc Hcs IH]; [apply Nat.le_refl|].
  simpl. rewrite length_app. destruct c; [congruence|]. simpl. lia.
Qed.

Lemma append_to_last_length (ws : list string) (suffix : string) :
  List.length (append_to_last ws suffix) = List.length ws.
Proof.
  induction ws as [|w ws IH]; [reflexivity|].
  destruct ws as [|w' ws']; [reflexivity|].
  rewrite append_to_last_cons by discriminate. simpl in *. now rewrite IH.
Qed.

Lemma fit_words_length (section : string) (b : bool) :
  List.length (fit_words section b) = List.length (words_of section).
Proof. unfold fit_words. destruct b; [apply append_to_last_length|reflexivity]. Qed.

(** X3.  A section without a word is fitted to one empty line; otherwise
    [_fit_text] returns at least one line, no more lines than the section
    has words, and none of them is empty. *)
Theorem fit_text_line_count (section : string) (width : Z) (with_break : bool) :
  (words_of section = [] /\ _fit_text section width with_break = [""])
  \/ ((1 <= List.length (_fit_text section width with_break)
         <= List.length (words_of section))%nat
      /\ Forall (fun line => Py.nonempty line = true)
                (_fit_text section width with_break)).
Proof.
  destruct (words_of section) as [|w ws] eqn:E.
  - left. split; [reflexivity|].
    unfold _fit_text. rewrite E. now destruct with_break.
  - right.
    destruct (fit_text_chunks section width with_break) as (chunks & H1 & H2 & H3).
    pose proof (fit_words_length section with_break) as Hlen.
    pose proof (fit_words_nonempty section with_break) as Hne.
    rewrite E in Hlen. destruct H3 as [H3|H3]; [now rewrite H3 in Hlen|].
    rewrite <- H1 in Hlen, Hne. rewrite H2, length_map, <- Hlen. split.
    + split; [|now apply concat_length_chunks].
      destruct chunks; [discriminate|simpl; lia].
    + apply Forall_map. apply Forall_concat in Hne.
      clear - H3 Hne. induction chunks as [|c cs IH]; [constructor|].
      inversion H3; subst. inversion Hne; subst.
      constructor; [now apply join_nonempty|now apply IH].
Qed.

(** * Lines of text *)

Lemma forall_last (p : ascii -> bool) (s : string) (c : ascii) :
  str_forall p s = true -> last_char s = Some c -> p c = true.
Proof.
  induction s as [|a s IH]; simpl; [discriminate|].
  intros H. apply andb_true_iff in H. destruct H as [Ha Hs].
  destruct s as [|b s']; [intros [= <-]; assumption|]. now apply IH.
Qed.

Lemma last_char_some (c : ascii) (s : string) : exists d, last_char (String c s) = Some d.
Proof.
  revert c. induction s as [|b s IH]; intros c; [now exists c|].
  destruct (IH b) as (d & Hd). exists d. exact Hd.
Qed.

Lemma rstrip_last (p : ascii -> bool) (s : string) (c : ascii) :
  last_char s = Some c -> p c = false -> Py.rstrip p s = s.
Proof.
  intros Hl Hc. induction s as [|a s IH]; [reflexivity|].
  destruct s as [|b s'].
  - injection Hl as ->. simpl. now rewrite Hc.
  - change (Py.rstrip p (String a (String b s')))
      with (match Py.rstrip p (String b s') with
            | EmptyString => if p a then EmptyString else String a EmptyString
            | r => String a r
            end).
    rewrite IH by exact Hl. reflexivity.
Qed.

Lemma endswith_last (s : string) :
  Py.endswith s "  " = true -> last_char s = Some " "%char.
Proof.
  induction s as [|a s IH]; [discriminate|].
  cbn [Py.endswith]. intros H. apply orb_true_iff in H. destruct H as [H|H].
  - apply String.eqb_eq in H. now rewrite H.
  - specialize (IH H). destruct s; [discriminate|exact IH].
Qed.

Lemma word_text (w : string) : plain_word w = true -> text_facts w.
Proof.
  intros Hw. destruct (plain_word_inv w Hw) as (c & t' & E & Hc & Hall).
  split.
  - now exists c, t'.
  - now apply letters_plain.
  - subst w. destruct (last_char_some c t') as (d & Hd). exists d.
    split; [assumption|]. eapply forall_last; eassumption.
  - now apply word_no_newline.
  - eapply str_forall_impl; [|exact Hall]. intros x Hx. now rewrite Hx.
Qed.

Lemma join_text (ws : list string) :
  ws <> [] -> Forall (fun w => plain_word w = true) ws ->
  text_facts (Py.join " " ws).
Proof.
  intros Hne Hall. induction Hall as [|w ws Hw Hws IH]; [congruence|].
  destruct ws as [|w' ws']; [now apply word_text|].
  rewrite join_cons by discriminate.
  destruct IH as [(c & s & E & Hc) Hp (d & Hd & Hdl) Hn Hch]; [discriminate|].
  destruct (word_text w Hw) as [(c0 & s0 & E0 & Hc0) Hp0 _ Hn0 Hch0].
  split.
  - exists c0, (s0 ++ " " ++ Py.join " " (w' :: ws'))%string.
    now rewrite E0.
  - now rewrite !str_forall_app, Hp0, Hp.
  - exists d. split; [|assumption].
    rewrite E in *. change (" " ++ String c s)%string with (String " " (String c s)).
    rewrite last_char_app. exact Hd.
  - now rewrite !str_forall_app, Hn0, Hn.
  - now rewrite !str_forall_app, Hch0, Hch.
Qed.

Lemma text_line_facts (l : string) : text_line l = true -> text_facts l.
Proof.
  unfold text_line. intros H.
  apply andb_true_iff in H. destruct H as [H H3].
  apply andb_true_iff in H. destruct H as [H1 H2].
  apply String.eqb_eq in H3. rewrite <- H3. apply join_text.
  - destruct (words_of l); [discriminate|discriminate].
  - apply Forall_forall. intros w Hw. rewrite forallb_forall in H2. auto.
Qed.

Section Text.
Variable l : string.
Hypothesis Hl : text_line l = true.

Lemma text_normalize : normalize l = l.
Proof. apply normalize_plain, text_line_facts, Hl. Qed.

Lemma text_strip : Py.strip Py.isspace l = l.
Proof.
  destruct (text_line_facts l Hl) as [(c & s & E & Hc) _ (d & Hd & Hdl) _ _].
  destruct (letter_facts c Hc) as (Hsp & _).
  destruct (letter_facts d Hdl) as (Hsd & _).
  unfold Py.strip. replace (Py.lstrip Py.isspace l) with l.
  - eapply rstrip_last; eassumption.
  - rewrite E. simpl. now rewrite Hsp.
Qed.

Lemma text_no_break : Py.endswith l "  " = false.
Proof.
  destruct (text_line_facts l Hl) as [_ _ (d & Hd & Hdl) _ _].
  destruct (Py.endswith l "  ") eqn:E; [|reflexivity].
  apply endswith_last in E. rewrite E in Hd. injection Hd as <-. discriminate.
Qed.

Lemma text_not_marker : String.eqb l (String "010" "") = false.
Proof.
  destruct (text_line_facts l Hl) as [(c & s & E & Hc) _ _ _ _].
  destruct (letter_facts c Hc) as (_ & _ & _ & _ & _ & _ & _ & _ & _ & _ & Hnl).
  rewrite E. simpl. now rewrite Hnl.
Qed.

Lemma text_not_blank : blank_line l = false.
Proof.
  unfold blank_line. rewrite text_normalize, text_strip.
  destruct (text_line_facts l Hl) as [(c & s & -> & _) _ _ _ _]. reflexivity.
Qed.

Lemma text_kind (g : Grouper) : line_kind_of g l = OtherLine.
Proof.
  destruct (text_line_facts l Hl) as [(c & s & E & Hc) _ _ _ _].
  destruct (letter_facts c Hc) as (Hsp & _ & _ & _ & _ & Hhash & Heq & Hdash & _).
  apply line_kind_other; rewrite text_normalize.
  - rewrite text_strip, E. reflexivity.
  - right. rewrite E. unfold Re._setext_header. now rewrite Heq, Hdash.
  - rewrite E. unfold Re._atx_header. simpl. unfold Py.is_char. now rewrite Hhash.
Qed.

Lemma text_identify (g : Grouper) : identify l g = new_state St.empty g.
Proof.
  destruct (text_line_facts l Hl) as [(c & t' & E & Hc) _ _ _ _].
  destruct (letter_facts c Hc)
    as (Hsp & Hhr & Hul & Hdig & _ & _ & _ & _ & Hblank & Hgt & _).
  rewrite E. unfold identify, SPECIAL_TYPES. cbn [find].
  assert (Hls : Re.leading_spaces (String c t') = 0%nat).
  { simpl. destruct c as [[] [] [] [] [] [] [] []]; try reflexivity; discriminate. }
  assert (H1 : Re._hr (String c t') = None).
  { unfold Re._hr. simpl. now rewrite Hhr, Hsp. }
  assert (H2 : Re._ul_indent (String c t') = None).
  { unfold Re._ul_indent. rewrite Hls. cbn [Nat.leb Py.lstrip].
    unfold Py.is_char. now rewrite Hblank, Hul. }
  assert (H3 : Re._ol_indent (String c t') = None).
  { unfold Re._ol_indent. rewrite Hls. cbn [Nat.leb Py.lstrip].
    unfold Py.is_char. rewrite Hblank. cbn [Py.take_while]. now rewrite Hdig. }
  assert (H4 : Re._blockquote (String c t') = None).
  { unfold Re._blockquote.
    destruct c as [[] [] [] [] [] [] [] []]; try reflexivity; discriminate. }
  assert (H5 : Re._code (String c t') = false).
  { unfold Re._code. now rewrite Hls. }
  rewrite H1, H2, H3, H4, H5. reflexivity.
Qed.

End Text.

(** * A paragraph in the renderer *)

Lemma print_all_put (lines : list string) :
  forall o, softspace o = false -> print_all lines o = put_lines lines o.
Proof.
  induction lines as [|x lines IH]; intros o Ho; [reflexivity|].
  unfold print_all, put_lines in *. cbn [fold_left].
  rewrite print_put_line by assumption. now apply IH.
Qed.

Lemma put_lines_app (a b : list string) (o : Stdout) :
  put_lines (a ++ b) o = put_lines b (put_lines a o).
Proof. unfold put_lines. apply fold_left_app. Qed.

Lemma put_lines_soft (lines : list string) :
  forall o, softspace o = false -> softspace (put_lines lines o) = false.
Proof.
  induction lines as [|x lines IH]; intros o Ho; [assumption|].
  unfold put_lines in *. cbn [fold_left]. now apply IH.
Qed.

Lemma paragraph_inv (p : list string) :
  paragraph p = true -> p <> [] /\ Forall (fun l => text_line l = true) p.
Proof.
  unfold paragraph. intros H. apply andb_true_iff in H. destruct H as [H1 H2].
  split; [now destruct p|].
  apply Forall_forall. intros l Hin. rewrite forallb_forall in H2. auto.
Qed.

Lemma paragraph_intro (p : list string) :
  p <> [] -> Forall (fun l => text_line l = true) p -> paragraph p = true.
Proof.
  intros Hne Hall. unfold paragraph. apply andb_true_iff.
  split; [now destruct p|].
  apply forallb_forall. intros l Hin. rewrite Forall_forall in Hall. auto.
Qed.

(** the lines of a paragraph make one section *)
Lemma sections_text (n : nat) (G : list string) :
  Forall (fun l => text_line l = true) G ->
  forall i secs cur,
    G <> [] -> (i + List.length G = n)%nat ->
    build_sections n i G secs cur
    = (secs ++ [(cur ++ (if Nat.eqb i 0 then "" else " ") ++ Py.join " " G)%string])%list.
Proof.
  induction 1 as [|line rest Hline Hrest IH]; intros i secs cur Hne Hn; [congruence|].
  cbn [build_sections].
  rewrite text_strip, text_no_break, text_not_marker by assumption.
  cbn [orb]. unfold Py.append. destruct rest as [|line' rest'].
  - simpl in Hn. replace (Nat.eqb (i + 1) n) with true
      by (symmetry; apply Nat.eqb_eq; lia).
    cbn [build_sections Py.join String.concat]. now rewrite append_nil_r.
  - replace (Nat.eqb (i + 1) n) with false
      by (symmetry; apply Nat.eqb_neq; simpl in Hn; lia).
    rewrite IH; [|discriminate|simpl in *; lia].
    rewrite (join_cons " " line (line' :: rest')) by discriminate.
    cbn [Nat.eqb]. now rewrite !append_assoc.
Qed.

Lemma wrapped_one_section (s : string) (rw : Z) :
  wrapped_lines [s] rw "" "" "" "" = _fit_text s rw false.
Proof.
  unfold wrapped_lines, enumerate. cbn [List.length seq combine flat_map].
  rewrite app_nil_r. apply no_margin.
Qed.

Lemma render_text (rec : list string -> Z -> string -> Stdout -> option Stdout)
    (G : list string) (width : Z) (fr line_after : bool) (o : Stdout) :
  paragraph G = true -> softspace o = false ->
  render_group_with rec G width "" fr "" "" line_after false o
  = Some (put_lines (fitted_paragraph width G
                     ++ (if line_after then [""] else []))%list o).
Proof.
  intros HG Ho. destruct (paragraph_inv G HG) as [Hne Hall].
  unfold render_group_with. cbn [Py.nonempty andb].
  rewrite (sections_text (List.length G) G Hall 0%nat [] "") by auto.
  cbn [Nat.eqb app append].
  replace (if fr then "" else "") with "" by now destruct fr.
  rewrite wrapped_one_section, print_all_put by assumption.
  fold (fitted_paragraph width G).
  destruct line_after; [|now rewrite app_nil_r].
  rewrite put_lines_app. cbn [put_lines fold_left].
  change (Re.sub_end_space "") with "".
  now rewrite print_put_line by (now apply put_lines_soft).
Qed.

(** the lines [_fit_text] returns are made of characters of the section *)
Lemma split_chars (p : ascii -> bool) (sep : ascii) (s : string) :
  str_forall p s = true ->
  Forall (fun w => str_forall p w = true) (Py.split sep s).
Proof.
  induction s as [|c s IH]; simpl; intros H; [repeat constructor|].
  apply andb_true_iff in H. destruct H as [Hc Hs]. specialize (IH Hs).
  destruct (Ascii.eqb c sep); [now constructor|].
  destruct (Py.split sep s) as [|w ws]; [repeat constructor; simpl; now rewrite Hc|].
  inversion IH; subst. constructor; [simpl; now rewrite Hc|assumption].
Qed.

Lemma join_chars (p : ascii -> bool) (c : list string) :
  p " "%char = true -> Forall (fun w => str_forall p w = true) c ->
  str_forall p (Py.join " " c) = true.
Proof.
  intros Hsp. induction 1 as [|w ws Hw Hws IH]; [reflexivity|].
  destruct ws as [|w' ws']; [assumption|].
  rewrite join_cons by discriminate.
  rewrite !str_forall_app, Hw, IH. simpl. now rewrite Hsp.
Qed.

Lemma marked_chars (p : ascii -> bool) (ws : list string) :
  p " "%char = true -> Forall (fun w => str_forall p w = true) ws ->
  Forall (fun w => str_forall p w = true) (append_to_last ws "  ").
Proof.
  intros Hsp. induction 1 as [|w ws Hw Hws IH]; [constructor|].
  destruct ws as [|w' ws'].
  - repeat constructor. rewrite str_forall_app, Hw. simpl. now rewrite Hsp.
  - rewrite append_to_last_cons by discriminate. now constructor.
Qed.

Lemma fit_text_chars (p : ascii -> bool) (section : string) (width : Z) (b : bool) :
  p " "%char = true -> str_forall p section = true ->
  Forall (fun line => str_forall p line = true) (_fit_text section width b).
Proof.
  intros Hsp Hs.
  destruct (fit_text_chunks section width b) as (chunks & H1 & H2 & _).
  assert (Hw : Forall (fun w => str_forall p w = true) (fit_words section b)).
  { assert (H0 : Forall (fun w => str_forall p w = true) (words_of section)).
    { pose proof (split_chars p " " section Hs) as H.
      apply Forall_forall. intros w Hin. unfold words_of in Hin.
      apply filter_In in Hin. rewrite Forall_forall in H. now apply H. }
    unfold fit_words. destruct b; [now apply marked_chars|assumption]. }
  rewrite <- H1 in Hw. apply Forall_concat in Hw.
  rewrite H2. apply Forall_map.
  eapply Forall_impl; [|exact Hw]. intros c Hc. now apply join_chars.
Qed.

Lemma fitted_no_newline (width : Z) (G : list string) :
  paragraph G = true ->
  Forall (fun line => str_forall no_newline line = true) (fitted_paragraph width G).
Proof.
  intros HG. destruct (paragraph_inv G HG) as [_ Hall].
  apply fit_text_chars; [reflexivity|]. apply join_chars; [reflexivity|].
  eapply Forall_impl; [|exact Hall].
  intros l Hl. now destruct (text_line_facts l Hl).
Qed.

(** * Documents of paragraphs *)

Section Lines.
Variable rec : list string -> Z -> string -> Stdout -> option Stdout.
Variables (width : Z) (indent : string).

Let steps := step Stdout (render_group_with rec) width indent.
Let loop := main_loop Stdout (render_group_with rec) width indent.

Lemma step_blank_line (raw : string) (g : Grouper) (o : Stdout) :
  blank_line raw = true ->
  steps raw g o = Some (if negb (forced_break g) then set_has_break true g else g, o).
Proof.
  unfold blank_line, steps, step. intros H. now rewrite H.
Qed.

Lemma step_text_open (l : string) (hb fb fr : bool) (ps : St.t) (o : Stdout) :
  text_line l = true ->
  steps l (mkGrouper [] hb fb fr ps St.empty) o
  = Some (mkGrouper [l] hb false fr St.empty St.empty, o).
Proof.
  intros Hl. unfold steps. rewrite step_other by (now apply text_kind).
  rewrite text_normalize by assumption.
  unfold other_line_step, continuation, flush_if_group.
  destruct hb; grouper_simpl; now rewrite text_identify by assumption.
Qed.

Lemma step_text_more (l : string) (G : list string) (fb fr : bool) (ps : St.t)
    (o : Stdout) :
  text_line l = true -> G <> [] ->
  steps l (mkGrouper G false fb fr ps St.empty) o
  = Some (mkGrouper (G ++ [l]) false false fr ps St.empty, o).
Proof.
  intros Hl HG. unfold steps. rewrite step_other by (now apply text_kind).
  rewrite text_normalize by assumption.
  unfold other_line_step, continuation. grouper_simpl.
  destruct G as [|x G']; [congruence|].
  cbn [app List.length Nat.eqb]. rewrite length_app, Nat.add_1_r. reflexivity.
Qed.

Lemma gap_loop (b rest : list string) (g : Grouper) (o : Stdout) :
  gap b = true -> forced_break g = false ->
  loop (b ++ rest)%list g o = loop rest (set_has_break true g) o.
Proof.
  unfold gap. intros H Hfb. apply andb_true_iff in H. destruct H as [Hne Hall].
  assert (Hgen : forall g, forced_break g = false ->
            loop (b ++ rest)%list g o
            = loop rest (if nonnil b then set_has_break true g else g) o).
  { clear g Hfb Hne. induction b as [|x b IH]; intros g Hfb; [reflexivity|].
    cbn [forallb] in Hall. apply andb_true_iff in Hall. destruct Hall as [Hx Hb].
    unfold loop in *. cbn [app main_loop]. fold steps.
    rewrite step_blank_line by assumption. rewrite Hfb. cbn [negb].
    rewrite IH by assumption. now destruct b. }
  rewrite Hgen by assumption. now rewrite Hne.
Qed.

Lemma para_loop (p rest : list string) :
  Forall (fun l => text_line l = true) p ->
  forall G fr ps o, G <> [] ->
    loop (p ++ rest)%list (mkGrouper G false false fr ps St.empty) o
    = loop rest (mkGrouper (G ++ p) false false fr ps St.empty) o.
Proof.
  induction 1 as [|l p Hl Hp IH]; intros G fr ps o HG.
  - now rewrite app_nil_r.
  - unfold loop in *. cbn [app main_loop]. fold steps.
    rewrite step_text_more by assumption.
    rewrite IH by (now destruct G). now rewrite <- app_assoc.
Qed.

Lemma para_end (p : list string) :
  Forall (fun l => text_line l = true) p ->
  forall G fr ps o, G <> [] ->
    loop p (mkGrouper G false false fr ps St.empty) o
    = loop [] (mkGrouper (G ++ p) false false fr ps St.empty) o.
Proof.
  intros Hp G fr ps o HG. rewrite <- (app_nil_r p) at 1. now apply para_loop.
Qed.

Lemma open_loop (p rest : list string) (fb fr : bool) (ps : St.t) (o : Stdout) :
  paragraph p = true ->
  loop (p ++ rest)%list (mkGrouper [] false fb fr ps St.empty) o
  = loop rest (mkGrouper p false false fr St.empty St.empty) o.
Proof.
  intros Hp. destruct (paragraph_inv p Hp) as [Hne Hall].
  destruct p as [|l p']; [congruence|]. inversion Hall; subst.
  unfold loop. cbn [app main_loop]. fold steps.
  rewrite step_text_open by assumption.
  fold loop. now rewrite para_loop by (assumption || discriminate).
Qed.

Lemma open_end (p : list string) (fb fr : bool) (ps : St.t) (o : Stdout) :
  paragraph p = true ->
  loop p (mkGrouper [] false fb fr ps St.empty) o
  = loop [] (mkGrouper p false false fr St.empty St.empty) o.
Proof.
  intros Hp. rewrite <- (app_nil_r p) at 1. now apply open_loop.
Qed.

End Lines.

Section Paragraphs.
Variable rec : list string -> Z -> string -> Stdout -> option Stdout.
Variable width : Z.

Lemma step_text_break (l : string) (G : list string) (fb fr : bool) (ps : St.t)
    (o : Stdout) :
  text_line l = true -> paragraph G = true -> softspace o = false ->
  step Stdout (render_group_with rec) width "" l (mkGrouper G true fb fr ps St.empty) o
  = Some (mkGrouper [l] false false false St.empty St.empty,
          put_lines (fitted_paragraph width G ++ [""]) o).
Proof.
  intros Hl HG Ho. rewrite step_other by (now apply text_kind).
  rewrite text_normalize by assumption.
  unfold other_line_step, continuation, flush_if_group, _do_render_group.
  grouper_simpl.
  destruct (paragraph_inv G HG) as [Hne _].
  replace (nonnil G) with true by now destruct G.
  rewrite render_text by assumption. grouper_simpl.
  rewrite text_identify by assumption. reflexivity.
Qed.

Lemma rest_loop (rest : list (list string * list string)) :
  forallb (fun '(b, p) => gap b && paragraph p) rest = true ->
  forall G fr ps o,
    paragraph G = true -> softspace o = false ->
    main_loop Stdout (render_group_with rec) width ""
      (flat_map (fun '(b, p) => b ++ p)%list rest)
      (mkGrouper G false false fr ps St.empty) o
    = Some (put_lines
              (fitted_paragraph width G
               ++ flat_map (fun '(_, p) => "" :: fitted_paragraph width p) rest) o).
Proof.
  induction rest as [|[b p] rest IH]; intros Hrest G fr ps o HG Ho.
  - cbn [flat_map main_loop]. unfold flush_if_group, _do_render_group.
    grouper_simpl. destruct (paragraph_inv G HG) as [Hne _].
    replace (nonnil G) with true by now destruct G.
    rewrite render_text by assumption. reflexivity.
  - cbn [forallb] in Hrest. apply andb_true_iff in Hrest.
    destruct Hrest as [Hbp Hrest]. apply andb_true_iff in Hbp.
    destruct Hbp as [Hb Hp]. destruct (paragraph_inv p Hp) as [Hne Hall].
    cbn [flat_map]. rewrite <- !app_assoc.
    rewrite gap_loop by (assumption || reflexivity).
    destruct p as [|l p']; [congruence|]. inversion Hall; subst.
    unfold set_has_break. cbn [app main_loop]. grouper_simpl.
    rewrite step_text_break by assumption.
    rewrite para_loop by (assumption || discriminate).
    cbn [app]. rewrite IH; [|assumption|assumption|].
    + rewrite <- put_lines_app, <- !app_assoc. reflexivity.
    + apply put_lines_soft. assumption.
Qed.

End Paragraphs.

Lemma paragraphs_no_newline (width : Z) (p1 : list string)
    (rest : list (list string * list string)) :
  paragraph p1 = true ->
  forallb (fun '(b, p) => gap b && paragraph p) rest = true ->
  Forall (fun x => str_forall no_newline x = true) (paragraphs_printed width p1 rest).
Proof.
  intros H1 Hrest. unfold paragraphs_printed. apply Forall_app. split.
  - now apply fitted_no_newline.
  - induction rest as [|[b p] rest IH]; [constructor|].
    cbn [forallb] in Hrest. apply andb_true_iff in Hrest.
    destruct Hrest as [Hbp Hrest]. apply andb_true_iff in Hbp.
    cbn [flat_map]. constructor; [reflexivity|].
    apply Forall_app. split; [now apply fitted_no_newline|now apply IH].
Qed.

Lemma paragraphs_written (fuel : nat) (width : Z) (p1 : list string)
    (rest : list (list string * list string)) :
  paragraph p1 = true ->
  forallb (fun '(b, p) => gap b && paragraph p) rest = true ->
  _groupify (S fuel) (paragraphs_source p1 rest) width "" stdout0
  = Some (put_lines (paragraphs_printed width p1 rest) stdout0).
Proof.
  intros H1 Hrest. unfold paragraphs_source. rewrite groupify_S.
  unfold groupify_with, grouper0.
  rewrite open_loop by assumption.
  now rewrite rest_loop by (assumption || reflexivity).
Qed.

(** X4.  A document of paragraphs of text separated by blank lines: the
    lines of each paragraph are joined and wrapped again at the width (at
    least [MIN_WIDTH], or not at all for -1), and the paragraphs are
    separated by exactly one empty line, however many blank lines the
    source has between them. *)
Theorem paragraphs_reflowed (fuel : nat) (width : Z) (p1 : list string)
    (rest : list (list string * list string)) :
  paragraph p1 = true ->
  forallb (fun '(b, p) => gap b && paragraph p) rest = true ->
  rendering (S fuel) (paragraphs_source p1 rest) width
  = Some (paragraphs_printed width p1 rest).
Proof.
  intros H1 Hrest. unfold rendering.
  rewrite paragraphs_written by assumption.
  cbn [option_map]. f_equal. apply output_lines_put.
  now apply paragraphs_no_newline.
Qed.

Lemma paragraphs_reflowed_witness :
  rendering 1 ["one two"; "three"; ""; "  "; "four five six"] 10
  = Some ["one two"; "three"; ""; "four five"; "six"].
Proof.
  apply (paragraphs_reflowed 0 10 ["one two"; "three"]
           [([""; "  "], ["four five six"])]); reflexivity.
Defined.

(** X5.  Blank lines at the start of a document break its first paragraph
    after the first line: the pending break they leave is still set when the
    second line arrives, so the first line is printed as a paragraph of its
    own, followed by an empty line. *)
Theorem leading_blank_splits (fuel : nat) (width : Z) (b : list string)
    (l : string) (p : list string) :
  gap b = true -> text_line l = true -> paragraph p = true ->
  rendering (S fuel) (b ++ l :: p) width
  = Some (paragraphs_printed width [l] [([""], p)]).
Proof.
  intros Hb Hl Hp. unfold rendering. rewrite groupify_S.
  unfold groupify_with, grouper0.
  rewrite gap_loop by (assumption || reflexivity).
  destruct (paragraph_inv p Hp) as [Hne Hall].
  destruct p as [|l2 p']; [congruence|]. inversion Hall; subst.
  unfold set_has_break. cbn [main_loop]. grouper_simpl.
  rewrite step_text_open by assumption.
  rewrite step_text_break
    by (assumption || reflexivity || (apply paragraph_intro; [discriminate|auto])).
  rewrite para_end by (assumption || discriminate).
  rewrite (rest_loop _ width [] eq_refl)
    by (assumption || (apply put_lines_soft; reflexivity)).
  unfold paragraphs_printed. cbn [option_map flat_map].
  rewrite <- put_lines_app, <- app_assoc. cbn [app].
  f_equal. apply output_lines_put.
  apply (paragraphs_no_newline width [l] [([""], l2 :: p')]).
  - apply paragraph_intro; [discriminate|auto].
  - cbn [forallb]. now rewrite Hp.
Qed.

Lemma leading_blank_splits_witness :
  rendering 1 [""; "one"; "two"] 80 = Some ["one"; ""; "two"].
Proof.
  apply (leading_blank_splits 0 80 [""] "one" ["two"]); reflexivity.
Defined.

(** * Blank documents and code blocks *)

(** X6.  A document without a line, or with blank lines only, prints
    nothing: no group is ever opened, so the renderer is not called, at any
    indent and on any output so far. *)
Theorem blank_document_silent (fuel : nat) (f : list string) (width : Z)
    (indent : string) (o : Stdout) :
  forallb blank_line f = true ->
  _groupify (S fuel) f width indent o = Some o.
Proof.
  intros Hf. rewrite groupify_S. unfold groupify_with.
  assert (H : forall g, group g = [] ->
            main_loop Stdout (render_group_with (_groupify fuel)) width indent f g o
            = Some o).
  { induction f as [|raw f IH]; intros g Hg.
    - cbn [main_loop]. unfold flush_if_group. now rewrite Hg.
    - cbn [forallb] in Hf. apply andb_true_iff in Hf. destruct Hf as [Hraw Hf].
      cbn [main_loop]. rewrite step_blank_line by assumption.
      apply IH; [assumption|]. now destruct (forced_break g). }
  now apply H.
Qed.

Lemma blank_document_silent_witness :
  _groupify 1 [""; "   "; String "009" (String "010" "")] 80 "" stdout0
  = Some stdout0.
Proof.
  apply (blank_document_silent 0 [""; "   "; String "009" (String "010" "")]
           80 "" stdout0).
  reflexivity.
Defined.

Lemma code_line_inv (l : string) :
  code_line l = true ->
  str_forall plain_char l = true /\ Re._code l = true /\ blank_line l = false
  /\ exists s, l = String " " s.
Proof.
  unfold code_line. intros H.
  apply andb_true_iff in H. destruct H as [H H3].
  apply andb_true_iff in H. destruct H as [H1 H2].
  apply negb_true_iff in H3. repeat split; try assumption.
  unfold Re._code in H2. apply andb_true_iff in H2. destruct H2 as [H2 _].
  destruct l as [|c s]; [discriminate|].
  destruct c as [[] [] [] [] [] [] [] []]; try discriminate. now exists s.
Qed.

Section Code.
Variable l : string.
Hypothesis Hl : code_line l = true.

Lemma code_normalize : normalize l = l.
Proof. apply normalize_plain. now destruct (code_line_inv l Hl). Qed.

Lemma code_kind (g : Grouper) : line_kind_of g l = OtherLine.
Proof.
  destruct (code_line_inv l Hl) as (_ & _ & Hb & s & E).
  apply line_kind_other; rewrite code_normalize.
  - unfold blank_line in Hb. rewrite code_normalize in Hb.
    now apply negb_false_iff in Hb.
  - right. now rewrite E.
  - now rewrite E.
Qed.

Lemma code_identify (g : Grouper) :
  identify l g
  = mkGrouper (group g) (has_break g) (forced_break g) (first_render g)
      (state g) code_state.
Proof.
  destruct (code_line_inv l Hl) as (_ & Hc & _ & s & E).
  unfold identify, SPECIAL_TYPES. cbn [find]. rewrite Hc.
  assert (H4 : (4 <= Re.leading_spaces l)%nat).
  { unfold Re._code in Hc. apply andb_true_iff in Hc. destruct Hc as [Hc _].
    now apply Nat.leb_le in Hc. }
  assert (H1 : Re._hr l = None) by now rewrite E.
  assert (H2 : Re._ul_indent l = None).
  { unfold Re._ul_indent.
    replace (Re.leading_spaces l <=? 3)%nat with false; [reflexivity|].
    symmetry. apply Nat.leb_gt. lia. }
  assert (H3 : Re._ol_indent l = None).
  { unfold Re._ol_indent.
    replace (Re.leading_spaces l <=? 3)%nat with false; [reflexivity|].
    symmetry. apply Nat.leb_gt. lia. }
  assert (H5 : Re._blockquote l = None) by now rewrite E.
  rewrite H1, H2, H3, H5. reflexivity.
Qed.

End Code.

Section CodeBlock.
Variable rec : list string -> Z -> string -> Stdout -> option Stdout.
Variables (width : Z) (indent : string).

Lemma step_code_open (l : string) (fb fr : bool) (ps : St.t) (o : Stdout) :
  code_line l = true ->
  step Stdout (render_group_with rec) width indent l
    (mkGrouper [] false fb fr ps St.empty) o
  = Some (mkGrouper [l] false false fr St.empty code_state, o).
Proof.
  intros Hl. rewrite step_other by (now apply code_kind).
  rewrite code_normalize by assumption.
  unfold other_line_step, continuation. grouper_simpl.
  now rewrite code_identify by assumption.
Qed.

Lemma step_code_more (l : string) (G : list string) (fb fr : bool) (ps : St.t)
    (o : Stdout) :
  code_line l = true -> G <> [] ->
  step Stdout (render_group_with rec) width indent l
    (mkGrouper G false fb fr ps code_state) o
  = Some (mkGrouper (G ++ [l]) false false fr ps code_state, o).
Proof.
  intros Hl HG. rewrite step_other by (now apply code_kind).
  rewrite code_normalize by assumption.
  destruct (code_line_inv l Hl) as (_ & Hc & _).
  unfold other_line_step, continuation, code_state. grouper_simpl. rewrite Hc.
  grouper_simpl. destruct G as [|x G']; [congruence|].
  cbn [app List.length Nat.eqb]. rewrite length_app, Nat.add_1_r. reflexivity.
Qed.

Lemma code_loop (p : list string) :
  Forall (fun l => code_line l = true) p ->
  forall G fr ps o, G <> [] ->
    main_loop Stdout (render_group_with rec) width indent p
      (mkGrouper G false false fr ps code_state) o
    = main_loop Stdout (render_group_with rec) width indent []
        (mkGrouper (G ++ p) false false fr ps code_state) o.
Proof.
  induction 1 as [|l p Hl Hp IH]; intros G fr ps o HG.
  - now rewrite app_nil_r.
  - cbn [main_loop]. rewrite step_code_more by assumption.
    rewrite IH by (now destruct G). now rewrite <- app_assoc.
Qed.

End CodeBlock.

Lemma pre_lines_margin (G : list string) :
  forall start,
    map (fun '(i, line) => ((if Nat.eqb i 0 then "" else "") ++ line)%string)
        (combine (seq start (List.length G)) G)
    = G.
Proof.
  induction G as [|x G IH]; intros start; [reflexivity|].
  cbn [List.length seq combine map]. rewrite IH. now destruct (Nat.eqb start 0).
Qed.

(** X7.  A code block is printed as it is: lines indented by four spaces
    or more, one after the other, come out unchanged, whatever the width;
    they are never wrapped. *)
Theorem code_block_verbatim (fuel : nat) (width : Z) (l : string)
    (p : list string) :
  forallb code_line (l :: p) = true ->
  rendering (S fuel) (l :: p) width = Some (l :: p).
Proof.
  intros H. cbn [forallb] in H. apply andb_true_iff in H. destruct H as [Hl Hp].
  assert (Hall : Forall (fun x => code_line x = true) p).
  { apply Forall_forall. intros x Hx. rewrite forallb_forall in Hp. auto. }
  unfold rendering. rewrite groupify_S. unfold groupify_with, grouper0.
  cbn [main_loop]. rewrite step_code_open by assumption.
  rewrite code_loop by (assumption || discriminate).
  cbn [main_loop app]. unfold flush_if_group, _do_render_group, code_state.
  grouper_simpl. unfold render_group_with, pre_lines, enumerate.
  rewrite (pre_lines_margin (l :: p) 0).
  rewrite print_all_put by reflexivity. cbn [option_map]. f_equal.
  apply output_lines_put. constructor.
  - destruct (code_line_inv l Hl) as (Hplain & _).
    eapply str_forall_impl; [|exact Hplain].
    intros c Hc. unfold plain_char in Hc. unfold no_newline.
    now destruct c as [[] [] [] [] [] [] [] []].
  - eapply Forall_impl; [|exact Hall]. intros x Hx.
    destruct (code_line_inv x Hx) as (Hplain & _).
    eapply str_forall_impl; [|exact Hplain].
    intros c Hc. unfold plain_char in Hc. unfold no_newline.
    now destruct c as [[] [] [] [] [] [] [] []].
Qed.

Lemma code_block_verbatim_witness :
  rendering 1 ["    def f(x):"; "        return x  # a very long comment"] 10
  = Some ["    def f(x):"; "        return x  # a very long comment"].
Proof.
  apply (code_block_verbatim 0 10 "    def f(x):"
           ["        return x  # a very long comment"]).
  reflexivity.
Defined.

(** * A quoted paragraph *)

Lemma fit_text_nonnil (section : string) (width : Z) (b : bool) :
  _fit_text section width b <> [].
Proof.
  unfold _fit_text. destruct (fit_loop _ _ _ _ _) as [result cur].
  unfold Py.append. now destruct result.
Qed.

Lemma rest_margin (fi indent : string) (r : list string) :
  forall k,
    map (fun '(j, line) =>
           let first := Nat.eqb 0 0 && Nat.eqb j 0 in
           ((if first then fi else indent) ++ (if first then "" else "") ++ line)%string)
        (combine (seq (S k) (List.length r)) r)
    = map (fun y => (indent ++ y)%string) r.
Proof.
  induction r as [|x r IH]; intros k; [reflexivity|].
  cbn [List.length seq combine map]. now rewrite IH.
Qed.

Lemma wrapped_one_margin (s : string) (rw : Z) (fi indent : string) :
  wrapped_lines [s] rw fi indent "" ""
  = margin_lines fi indent (_fit_text s rw false).
Proof.
  unfold wrapped_lines, enumerate. cbn [List.length seq combine flat_map].
  rewrite app_nil_r. destruct (_fit_text s rw _) as [|x r]; [reflexivity|].
  cbn [List.length seq combine map margin_lines]. f_equal. apply rest_margin.
Qed.

(** a paragraph rendered at any indent *)
Lemma render_text_margin (rec : list string -> Z -> string -> Stdout -> option Stdout)
    (G : list string) (width : Z) (indent : string) (fr : bool) (o : Stdout) :
  paragraph G = true ->
  render_group_with rec G width indent fr "" "" false false o
  = Some (print_all
            (margin_lines (if fr then "" else indent) indent
               (_fit_text (Py.join " " G) (relative_width_of width indent "" "") false))
            o).
Proof.
  intros HG. destruct (paragraph_inv G HG) as [Hne Hall].
  unfold render_group_with. cbn [Py.nonempty andb].
  rewrite (sections_text (List.length G) G Hall 0%nat [] "") by auto.
  cbn [Nat.eqb app append]. now rewrite wrapped_one_margin.
Qed.

Section Quote.
Variable l : string.
Hypothesis Hl : text_line l = true.

Lemma quote_normalize : normalize ("> " ++ l) = "> " ++ l.
Proof.
  apply normalize_plain. cbn [append str_forall]. now destruct (text_line_facts l Hl).
Qed.

Lemma quote_kind (g : Grouper) : line_kind_of g ("> " ++ l) = OtherLine.
Proof.
  apply line_kind_other; rewrite quote_normalize.
  - now apply strip_cons_keep.
  - now right.
  - reflexivity.
Qed.

Lemma quote_blockquote : Re._blockquote ("> " ++ l) = Some l.
Proof.
  destruct (text_line_facts l Hl) as [(c & s & E & Hc) _ _ _ _].
  destruct (letter_facts c Hc) as (Hsp & _).
  rewrite E. cbn [append Re._blockquote Py.lstrip Py.isspace]. now rewrite Hsp.
Qed.

Lemma quote_identify (hb fb fr : bool) (ps st : St.t) :
  identify ("> " ++ l) (mkGrouper ["> " ++ l] hb fb fr ps st)
  = mkGrouper [l] hb fb fr st block_state.
Proof.
  unfold identify, SPECIAL_TYPES. cbn [find].
  replace (Re._hr ("> " ++ l)) with (@None string) by reflexivity.
  replace (Re._ul_indent ("> " ++ l)) with (@None (string * string)) by reflexivity.
  replace (Re._ol_indent ("> " ++ l)) with (@None string) by reflexivity.
  rewrite quote_blockquote. grouper_simpl. cbn [map_last].
  unfold Re.sub_blockquote. rewrite quote_blockquote. reflexivity.
Qed.

End Quote.

Section QuoteLoop.
Variable rec : list string -> Z -> string -> Stdout -> option Stdout.
Variables (width : Z) (indent : string).

Lemma step_quote_open (l : string) (fb fr : bool) (ps : St.t) (o : Stdout) :
  text_line l = true ->
  step Stdout (render_group_with rec) width indent ("> " ++ l)
    (mkGrouper [] false fb fr ps St.empty) o
  = Some (mkGrouper [l] false false fr St.empty block_state, o).
Proof.
  intros Hl. rewrite step_other by (now apply quote_kind).
  rewrite quote_normalize by assumption.
  unfold other_line_step, continuation. grouper_simpl.
  unfold group_append, set_group, set_forced_break. grouper_simpl.
  now rewrite quote_identify by assumption.
Qed.

Lemma step_quote_more (l : string) (G : list string) (fb fr : bool) (ps : St.t)
    (o : Stdout) :
  text_line l = true ->
  step Stdout (render_group_with rec) width indent ("> " ++ l)
    (mkGrouper G false fb fr ps block_state) o
  = Some (mkGrouper (G ++ [l]) false false fr ps block_state, o).
Proof.
  intros Hl. rewrite step_other by (now apply quote_kind).
  rewrite quote_normalize by assumption.
  unfold other_line_step, continuation, block_state. grouper_simpl.
  unfold Re.sub_blockquote. rewrite quote_blockquote by assumption.
  destruct (text_line_facts l Hl) as [(c & s & -> & _) _ _ _ _].
  grouper_simpl. reflexivity.
Qed.

Lemma quote_loop (p : list string) :
  Forall (fun l => text_line l = true) p ->
  forall G fr ps o,
    main_loop Stdout (render_group_with rec) width indent
      (map (fun l => "> " ++ l)%string p)
      (mkGrouper G false false fr ps block_state) o
    = main_loop Stdout (render_group_with rec) width indent []
        (mkGrouper (G ++ p) false false fr ps block_state) o.
Proof.
  induction 1 as [|l p Hl Hp IH]; intros G fr ps o.
  - now rewrite app_nil_r.
  - cbn [map main_loop]. rewrite step_quote_more by assumption.
    rewrite IH. now rewrite <- app_assoc.
Qed.

End QuoteLoop.

Lemma render_quote (fuel : nat) (G : list string) (width : Z) (o : Stdout) :
  paragraph G = true -> softspace o = false ->
  render_group_with (_groupify (S fuel)) G width "" true "> " "> " false false o
  = Some (put_lines (quoted_paragraph width G) o).
Proof.
  intros HG Ho. unfold render_group_with.
  cbn [Py.nonempty Py.endswith Py.drop_last String.eqb Ascii.eqb Bool.eqb
       andb orb append].
  rewrite groupify_S. unfold groupify_with, grouper0.
  rewrite open_end by assumption.
  cbn [main_loop]. unfold flush_if_group, _do_render_group. grouper_simpl.
  destruct (paragraph_inv G HG) as [Hne _].
  replace (nonnil G) with true by now destruct G.
  rewrite render_text_margin by assumption. unfold quoted_paragraph.
  destruct (_fit_text _ _ _) as [|x r] eqn:E; [now apply fit_text_nonnil in E|].
  cbn [margin_lines map].
  assert (E1 : print ("" ++ x) (print_comma ">" o) = put_line ("> " ++ x) o).
  { unfold print, print_newline, print_comma, print_item, put_line.
    cbn [written softspace last_char]. rewrite Ho. cbn [append].
    f_equal. now rewrite !append_assoc. }
  change (print_all (("" ++ x)%string :: ?m) ?o0)
    with (print_all m (print ("" ++ x) o0)).
  rewrite E1, print_all_put by reflexivity. reflexivity.
Qed.

Lemma quote_width (width : Z) :
  relative_width_of width "> " "" ""
  = if width =? -1 then -1 else Z.max MIN_WIDTH (width - 2).
Proof.
  unfold relative_width_of. destruct (Z.eqb_spec width (-1)); [assumption|].
  f_equal. change (Py.len "> ") with 2. change (Py.len "") with 0. lia.
Qed.

(** X8.  A quoted paragraph: lines that start with [> ] are gathered and
    the text is fitted again by [_fit_text]: for the width -1 it is put on
    one line, for any other width it is wrapped at the width less the two
    characters of the marker, and at [MIN_WIDTH] when that is less; every
    line that is printed starts with [> ]. *)
Theorem quoted_paragraph_reflowed (fuel : nat) (width : Z) (p : list string) :
  paragraph p = true ->
  rendering (S (S fuel)) (map (fun l => "> " ++ l) p) width
  = Some (map (fun line => "> " ++ line)
            (_fit_text (Py.join " " p)
               (if width =? -1 then -1 else Z.max MIN_WIDTH (width - 2))
               false)).
Proof.
  intros Hp. destruct (paragraph_inv p Hp) as [Hne Hall].
  destruct p as [|l p']; [congruence|].
  inversion Hall as [|? ? Hl Hp']; subst.
  unfold rendering. rewrite groupify_S. unfold groupify_with, grouper0.
  cbn [map main_loop]. rewrite step_quote_open by assumption.
  rewrite quote_loop by assumption.
  cbn [main_loop app]. unfold flush_if_group, _do_render_group, block_state.
  grouper_simpl. rewrite render_quote by (assumption || reflexivity).
  rewrite <- quote_width. fold (quoted_paragraph width (l :: p')).
  cbn [option_map]. f_equal. apply output_lines_put.
  unfold quoted_paragraph. apply Forall_map.
  eapply Forall_impl; [|apply (fit_text_chars no_newline); [reflexivity|]].
  - intros x Hx. exact Hx.
  - apply join_chars; [reflexivity|].
    eapply Forall_impl; [|exact Hall].
    intros x Hx. now destruct (text_line_facts x Hx).
Qed.

Lemma quoted_paragraph_reflowed_witness :
  rendering 2 ["> one two"; "> three four"] 12
  = Some ["> one two"; "> three four"].
Proof.
  apply (quoted_paragraph_reflowed 0 12 ["one two"; "three four"]).
  reflexivity.
Defined.

(** * Unordered lists *)

Lemma bullet_cases (b : ascii) :
  Re.ul_char b = true -> b = "*"%char \/ b = "+"%char \/ b = "-"%char.
Proof.
  destruct b as [[] [] [] [] [] [] [] []]; simpl; intros H;
    try discriminate; auto.
Qed.

Section Bullet.
Variables (b : ascii) (t : string).
Hypothesis Hb : Re.ul_char b = true.
Hypothesis Ht : plain_word t = true.

Lemma bullet_normalize : normalize (String b (" " ++ t)) = String b (" " ++ t).
Proof.
  apply normalize_plain. cbn [append str_forall].
  destruct (plain_word_inv t Ht) as (c & t' & _ & _ & Hall).
  rewrite (letters_plain t Hall).
  destruct (bullet_cases b Hb) as [-> | [-> | ->]]; reflexivity.
Qed.

Lemma bullet_text : Py.lstrip Py.isspace t = t /\ exists c t', t = String c t'.
Proof.
  destruct (plain_word_inv t Ht) as (c & t' & E & _ & Hall). split.
  - apply lstrip_none. now apply letters_no_space.
  - now exists c, t'.
Qed.

Lemma bullet_kind (g : Grouper) : line_kind_of g (String b (" " ++ t)) = OtherLine.
Proof.
  destruct bullet_text as (Hstrip & c & t' & E).
  apply line_kind_other; rewrite bullet_normalize.
  - apply strip_cons_keep.
    destruct (bullet_cases b Hb) as [-> | [-> | ->]]; reflexivity.
  - right. destruct (bullet_cases b Hb) as [-> | [-> | ->]]; try reflexivity.
    unfold Re._setext_header.
    cbn [Ascii.eqb Bool.eqb orb append Py.lstrip Py.is_char Py.isspace].
    rewrite Hstrip, E. reflexivity.
  - destruct (bullet_cases b Hb) as [-> | [-> | ->]]; reflexivity.
Qed.

Lemma bullet_hr : Re._hr (String b (" " ++ t)) = None.
Proof.
  destruct (plain_word_inv t Ht) as (c & t' & E & Hc & _).
  destruct (letter_facts c Hc) as (Hsp & Hhr & _).
  rewrite E. unfold Re._hr.
  destruct (bullet_cases b Hb) as [-> | [-> | ->]];
    cbn [append Re.hr_scan Re.hr_char Py.isspace Nat.eqb negb andb];
    rewrite ?Hhr, ?Hsp; reflexivity.
Qed.

Lemma bullet_ul : Re._ul_indent (String b (" " ++ t)) = Some (String b "", t).
Proof.
  destruct bullet_text as (Hstrip & _).
  change (String b (" " ++ t)) with (Py.mul " " 0 ++ String b (String " " t)).
  rewrite (ul_indent_indented 0 b " " t) by (lia || assumption || reflexivity).
  now rewrite Hstrip.
Qed.

Lemma step_first_bullet
    (rec : list string -> Z -> string -> Stdout -> option Stdout)
    (width : Z) (indent : string) (fb fr : bool) (ps : St.t) (o : Stdout) :
  step Stdout (render_group_with rec) width indent (String b (" " ++ t))
    (mkGrouper [] false fb fr ps St.empty) o
  = Some (mkGrouper [t] false false fr St.empty (ul_state b), o).
Proof.
  rewrite step_other by apply bullet_kind. rewrite bullet_normalize.
  unfold other_line_step, continuation. grouper_simpl.
  unfold identify, SPECIAL_TYPES. cbn [find]. rewrite bullet_hr, bullet_ul.
  unfold group_append, set_group, set_forced_break.
  grouper_simpl. cbn [map_last]. unfold Re.sub_ul_indent. rewrite bullet_ul.
  reflexivity.
Qed.

End Bullet.

(** what the Grouper does with the line of an item, whatever its marker *)
Lemma item_line (item : marker * string) :
  item_ok item = true ->
  normalize (item_source item) = item_source item
  /\ (forall g, line_kind_of g (item_source item) = OtherLine)
  /\ is_some (Re._ul_indent (item_source item))
     || is_some (Re._ol_indent (item_source item)) = true
  /\ (if is_some (Re._ul_indent (item_source item))
      then Re.sub_ul_indent (item_source item)
      else Re.sub_ol_indent (item_source item)) = snd item.
Proof.
  destruct item as [[b|d] t]; unfold item_ok, item_source; cbn [fst snd marker_ok];
    intros H; apply andb_true_iff in H; destruct H as [Hm Ht].
  - split; [now apply bullet_normalize|]. split; [intros g; now apply bullet_kind|].
    unfold Re.sub_ul_indent. rewrite (bullet_ul b t Hm Ht). now split.
  - split; [now apply item_normalize|]. split; [intros g; now apply item_kind|].
    unfold Re.sub_ol_indent. rewrite (item_ul d t Hm), (item_ol d t Hm Ht).
    now split.
Qed.

Lemma render_bullet (fuel : nat) (t : string) (width : Z) (fr : bool) (b : ascii)
    (o : Stdout) :
  plain_word t = true -> softspace o = false ->
  render_group_with (_groupify (S fuel)) [t] width "" fr (String b "   ") SPACES
    false false o
  = Some (put_line (String b ("   " ++ t)) o).
Proof.
  intros Ht Ho. unfold render_group_with.
  replace (Py.endswith (String b "   ") " ") with true
    by (cbn; now destruct (Ascii.eqb b " ")).
  cbn [SPACES NUM_SPACES Py.mul Py.nonempty andb Py.drop_last append].
  replace ((if fr then "" else "") ++ String b "  ") with (String b "  ")
    by (now destruct fr).
  rewrite groupify_word by assumption.
  unfold print, print_newline, print_comma, print_item, put_line.
  cbn [written softspace last_char]. rewrite Ho. cbn [append Py.isspace negb orb Ascii.eqb Bool.eqb].
  f_equal. rewrite !append_assoc. reflexivity.
Qed.

Lemma step_ul_next (fuel : nat) (width : Z) (item : marker * string) (b : ascii)
    (tp : string) (fr : bool) (ps : St.t) (o : Stdout) :
  item_ok item = true -> plain_word tp = true -> softspace o = false ->
  step Stdout (render_group_with (_groupify (S fuel))) width "" (item_source item)
    (mkGrouper [tp] false false fr ps (ul_state b)) o
  = Some (mkGrouper [snd item] false false false ps (ul_state b),
          put_line (String b ("   " ++ tp)) o).
Proof.
  intros Hitem Htp Ho. destruct (item_line item Hitem) as (Hn & Hk & Hm & Hsub).
  rewrite step_other by apply Hk. rewrite Hn.
  unfold other_line_step, continuation, ul_state. grouper_simpl.
  rewrite Hm. unfold _do_render_group. grouper_simpl.
  rewrite render_bullet by assumption. grouper_simpl. now rewrite Hsub.
Qed.

Lemma ul_loop (fuel : nat) (width : Z) (b : ascii) (rest : list (marker * string)) :
  forallb item_ok rest = true ->
  forall tp fr ps o,
    plain_word tp = true -> softspace o = false ->
    main_loop Stdout (render_group_with (_groupify (S fuel))) width ""
      (map item_source rest) (mkGrouper [tp] false false fr ps (ul_state b)) o
    = Some (put_lines (map (fun t => String b ("   " ++ t)) (tp :: map snd rest)) o).
Proof.
  induction rest as [|item rest IH]; intros Hrest tp fr ps o Htp Ho.
  - cbn [map main_loop]. unfold flush_if_group, _do_render_group, ul_state.
    grouper_simpl. now rewrite render_bullet by assumption.
  - cbn [forallb] in Hrest. apply andb_true_iff in Hrest.
    destruct Hrest as [Hitem Hrest]. cbn [map main_loop].
    rewrite step_ul_next by assumption.
    rewrite IH; [reflexivity|assumption| |reflexivity].
    unfold item_ok in Hitem. apply andb_true_iff in Hitem. tauto.
Qed.

(** X9.  In a list that a bullet opens, every item is printed with the
    bullet of the first item and three spaces, whatever marker the item has
    in the source: another bullet, or a number. *)
Theorem list_keeps_first_bullet (fuel : nat) (width : Z) (b : ascii) (t : string)
    (rest : list (marker * string)) :
  Re.ul_char b = true -> plain_word t = true -> forallb item_ok rest = true ->
  rendering (S (S fuel)) (String b (" " ++ t) :: map item_source rest) width
  = Some (map (fun t => String b ("   " ++ t)) (t :: map snd rest)).
Proof.
  intros Hb Ht Hrest. unfold rendering. rewrite groupify_S.
  unfold groupify_with, grouper0. cbn [main_loop].
  rewrite step_first_bullet by assumption.
  rewrite ul_loop by (assumption || reflexivity).
  cbn [option_map]. f_equal. apply output_lines_put.
  assert (Hw : forall w, plain_word w = true ->
            str_forall no_newline (String b ("   " ++ w)) = true).
  { intros w Hw. cbn [append str_forall]. rewrite (word_no_newline w Hw).
    destruct (bullet_cases b Hb) as [-> | [-> | ->]]; reflexivity. }
  apply Forall_map. constructor; [now apply Hw|].
  apply Forall_map. apply Forall_forall. intros item Hin.
  rewrite forallb_forall in Hrest. specialize (Hrest item Hin).
  unfold item_ok in Hrest. apply andb_true_iff in Hrest. apply Hw. tauto.
Qed.

Lemma list_keeps_first_bullet_witness :
  rendering 2 ["* one"; "+ two"; "7. three"; "- four"] 80
  = Some ["*   one"; "*   two"; "*   three"; "*   four"].
Proof.
  apply (list_keeps_first_bullet 0 80 "*" "one"
           [(Bullet "+", "two"); (Number "7", "three"); (Bullet "-", "four")]);
    reflexivity.
Defined.

(** * Lines that fit, and ATX headers *)

Lemma join_merge (cur word : string) (rest : list string) :
  Py.join " " ((cur ++ " " ++ word) :: rest) = Py.join " " (cur :: word :: rest).
Proof.
  destruct rest as [|w rest].
  - reflexivity.
  - rewrite !join_cons by discriminate. now rewrite !append_assoc.
Qed.

Lemma join_head_len (word : string) (rest : list string) :
  Py.len word <= Py.len (Py.join " " (word :: rest)).
Proof.
  destruct rest as [|w rest]; [simpl; lia|].
  rewrite join_cons by discriminate. rewrite len_append.
  pose proof (len_nonneg (" " ++ Py.join " " (w :: rest))). lia.
Qed.

Lemma greedy_pack_fits (width : Z) (words : list string) :
  forall cur,
    Py.len (Py.join " " (cur :: words)) <= width ->
    greedy_pack width cur words = [Py.join " " (cur :: words)].
Proof.
  induction words as [|word rest IH]; intros cur H; [reflexivity|].
  cbn [greedy_pack].
  assert (Hfit : Py.len cur + Py.len word + 1 <= width).
  { rewrite join_cons in H by discriminate.
    rewrite !len_append in H. change (Py.len " ") with 1 in H.
    pose proof (join_head_len word rest). lia. }
  replace (Py.len cur + Py.len word + 1 <=? width) with true
    by (symmetry; now apply Z.leb_le).
  rewrite IH; rewrite join_merge; [reflexivity|assumption].
Qed.

(** X10.  Words that fit stay together.  The word sequence of a section is
    its maximal runs of characters other than the space, the final one with
    the two spaces of the hard break appended when [with_break] is set; when
    that sequence, joined by single spaces, is no longer than the width, or
    the width is -1, [_fit_text] returns exactly that one line (which ends
    in the two spaces when [with_break] is set). *)
Theorem fit_text_fits (section : string) (width : Z) (with_break : bool) :
  width = -1
  \/ Py.len (Py.join " " (word_sequence section with_break)) <= width ->
  _fit_text section width with_break
  = [Py.join " " (word_sequence section with_break)].
Proof.
  intros H. rewrite fit_text_packs. rewrite fit_words_sequence.
  destruct (Z.eqb_spec width (-1)) as [E|E]; [reflexivity|].
  destruct H as [H|H]; [contradiction|].
  destruct (word_sequence section with_break) as [|word rest]; [reflexivity|].
  now apply greedy_pack_fits.
Qed.

Lemma fit_text_fits_witness :
  _fit_text "to   be or" 10 true = ["to be or  "].
Proof.
  apply (fit_text_fits "to   be or" 10 true). right. apply Z.leb_le. reflexivity.
Defined.

(** ** A single line in the renderer *)

Lemma lstrip_head (p : ascii -> bool) (c : ascii) (s : string) :
  p c = false -> Py.lstrip p (String c s) = String c s.
Proof. intros H. simpl. now rewrite H. Qed.

Lemma render_clean (rec : list string -> Z -> string -> Stdout -> option Stdout)
    (h : string) (width : Z) (fr line_after : bool) (o : Stdout) :
  (exists c s, h = String c s /\ Py.isspace c = false) ->
  (exists d, last_char h = Some d /\ Py.isspace d = false) ->
  softspace o = false ->
  render_group_with rec [h] width "" fr "" "" line_after false o
  = Some (put_lines (_fit_text h (relative_width_of width "" "" "") false
                     ++ (if line_after then [""] else []))%list o).
Proof.
  intros (c & s & E & Hc) (d & Hd & Hds) Ho.
  assert (Hstrip : Py.strip Py.isspace h = h).
  { unfold Py.strip. rewrite E, lstrip_head by assumption.
    rewrite <- E. eapply rstrip_last; eassumption. }
  assert (Hend : Py.endswith h "  " = false).
  { destruct (Py.endswith h "  ") eqn:Hend; [|reflexivity].
    apply endswith_last in Hend. rewrite Hend in Hd. injection Hd as <-.
    discriminate. }
  assert (Hnl : String.eqb h (String "010" "") = false).
  { rewrite E. simpl. destruct (Ascii.eqb_spec c "010"); [subst; discriminate|].
    reflexivity. }
  unfold render_group_with. cbn [Py.nonempty andb List.length build_sections].
  rewrite Hstrip, Hend, Hnl. cbn [orb Nat.eqb Nat.add Py.append app append].
  rewrite append_nil_r.
  replace (if fr then "" else "") with "" by now destruct fr.
  rewrite wrapped_one_section, print_all_put by assumption.
  destruct line_after; [|now rewrite app_nil_r].
  rewrite put_lines_app. cbn [put_lines fold_left].
  change (Re.sub_end_space "") with "".
  now rewrite print_put_line by (now apply put_lines_soft).
Qed.

(** ** The line of an ATX header *)

Lemma rstrip_all (p : ascii -> bool) (x : string) :
  str_forall p x = true -> Py.rstrip p x = "".
Proof.
  induction x as [|c x IH]; [reflexivity|].
  simpl. intros H. apply andb_true_iff in H. destruct H as [Hc Hx].
  now rewrite (IH Hx), Hc.
Qed.

Lemma rstrip_app_all (p : ascii -> bool) (s x : string) :
  str_forall p x = true -> Py.rstrip p (s ++ x) = Py.rstrip p s.
Proof.
  intros Hx. induction s as [|c s IH]; simpl.
  - now apply rstrip_all.
  - now rewrite IH.
Qed.

Section Atx.
Variables (n k j i : nat) (title : string).
Hypothesis Ht : text_line title = true.

Let tail : string := Py.mul " " k ++ title ++ Py.mul " " j ++ Py.mul "#" i.

Lemma atx_tail_head :
  exists a r, tail = String a r /\ Py.is_char "#" a = false.
Proof.
  destruct (text_line_facts title Ht) as [(c & s & E & Hc) _ _ _ _].
  destruct (letter_facts c Hc) as (_ & _ & _ & _ & _ & Hhash & _).
  unfold tail. destruct k as [|k'].
  - rewrite E. now exists c, (s ++ Py.mul " " j ++ Py.mul "#" i).
  - now exists " "%char, (Py.mul " " k' ++ title ++ Py.mul " " j ++ Py.mul "#" i).
Qed.

Lemma atx_plain : str_forall plain_char (atx_source n k title j i) = true.
Proof.
  unfold atx_source. rewrite !str_forall_app.
  destruct (text_line_facts title Ht) as [_ -> _ _ _].
  now rewrite !mul_char_forall by reflexivity.
Qed.

Lemma atx_hashes :
  Re._atx_header (atx_source n k title j i) = Some (Py.mul "#" (S n)).
Proof.
  destruct atx_tail_head as (a & r & E & Ha).
  unfold atx_source. fold tail. rewrite E. unfold Re._atx_header.
  assert (H : forall m, Py.take_while (Py.is_char "#") (Py.mul "#" m ++ String a r)
                        = Py.mul "#" m).
  { induction m as [|m IH]; simpl; [now rewrite Ha|now rewrite IH]. }
  rewrite H. reflexivity.
Qed.

Lemma atx_title :
  Py.strip (Py.is_char " ") (Py.strip (Py.is_char "#") (atx_source n k title j i))
  = title.
Proof.
  destruct atx_tail_head as (a & r & E & Ha).
  destruct (text_line_facts title Ht)
    as [(c & s & Et & Hc) Hp (d & Hd & Hdl) _ Hch].
  destruct (letter_facts c Hc) as (_ & _ & _ & _ & _ & _ & _ & _ & Hcb & _).
  destruct (letter_facts d Hdl) as (_ & _ & _ & _ & _ & _ & _ & _ & Hdb & _).
  assert (Hnh : str_forall (fun x => negb (Py.is_char "#" x)) title = true).
  { eapply str_forall_impl; [|exact Hch]. intros x Hx.
    apply orb_true_iff in Hx. destruct Hx as [Hx|Hx].
    - unfold Py.is_char.
      now destruct (letter_facts x Hx) as (_ & _ & _ & _ & _ & -> & _).
    - apply Ascii.eqb_eq in Hx. now subst x. }
  unfold Py.strip at 2, atx_source. fold tail. rewrite E.
  rewrite take_while_all by (assumption || (apply mul_char_forall; reflexivity)).
  rewrite <- E. unfold tail.
  replace (Py.mul " " k ++ title ++ Py.mul " " j ++ Py.mul "#" i)
    with ((Py.mul " " k ++ title ++ Py.mul " " j) ++ Py.mul "#" i)
    by now rewrite !append_assoc.
  rewrite rstrip_app_all by (apply mul_char_forall; reflexivity).
  rewrite rstrip_none
    by (rewrite !str_forall_app, Hnh, !mul_char_forall by reflexivity; reflexivity).
  unfold Py.strip. rewrite Et. cbn [append].
  rewrite lstrip_spaces_mul by (intros ->; discriminate).
  change (String c (s ++ Py.mul " " j)) with (String c s ++ Py.mul " " j).
  rewrite rstrip_app_all by (apply mul_char_forall; reflexivity).
  rewrite <- Et. eapply rstrip_last; [exact Hd|]. unfold Py.is_char. exact Hdb.
Qed.

End Atx.

Lemma atx_text_clean (n : nat) (title : string) :
  text_line title = true ->
  (exists c s, atx_text n title = String c s /\ Py.isspace c = false)
  /\ (exists d, last_char (atx_text n title) = Some d /\ Py.isspace d = false)
  /\ str_forall no_newline (atx_text n title) = true.
Proof.
  intros Ht.
  destruct (text_line_facts title Ht) as [(c & s & E & Hc) _ (d & Hd & Hdl) Hn _].
  destruct (letter_facts d Hdl) as (Hsp & _).
  unfold atx_text. split; [|split].
  - now exists "#"%char, (Py.mul "#" n ++ " " ++ title).
  - exists d. split; [|assumption].
    rewrite E in *. change (" " ++ String c s) with (String " " (String c s)).
    rewrite last_char_app.
    change (last_char (String " " (String c s))) with (last_char (String c s)).
    exact Hd.
  - rewrite !str_forall_app, Hn. now rewrite mul_char_forall by reflexivity.
Qed.

Lemma step_atx (rec : list string -> Z -> string -> Stdout -> option Stdout)
    (width : Z) (n k j i : nat) (title : string) (hb : bool) (ps st : St.t)
    (o : Stdout) :
  text_line title = true -> softspace o = false ->
  step Stdout (render_group_with rec) width "" (atx_source n k title j i)
    (mkGrouper [] hb false true ps st) o
  = Some (mkGrouper [] false true false st St.empty,
          put_lines (_fit_text (atx_text n title) (relative_width_of width "" "" "")
                       false ++ [""]) o).
Proof.
  intros Ht Ho. destruct (atx_text_clean n title Ht) as (Hhead & Hlast & _).
  unfold step. rewrite (normalize_plain _ (atx_plain n k j i title Ht)).
  replace (Py.nonempty (Py.strip Py.isspace (atx_source n k title j i))) with true
    by (symmetry; now apply strip_cons_keep).
  replace (Re._setext_header (atx_source n k title j i)) with (@None ascii)
    by reflexivity.
  rewrite atx_hashes by assumption.
  replace (if negb (has_break (mkGrouper [] hb false true ps st))
           then @None ascii else None) with (@None ascii) by now destruct hb.
  cbn [negb]. unfold atx_header_step, flush_if_group.
  rewrite atx_title by assumption.
  replace (Py.strip (Py.is_char " ") (Py.mul "#" (S n))) with (Py.mul "#" (S n)).
  2:{ unfold Py.strip.
      rewrite lstrip_none, rstrip_none by (apply mul_char_forall; reflexivity).
      reflexivity. }
  fold (atx_text n title). unfold _do_render_group. grouper_simpl.
  rewrite render_clean by assumption. reflexivity.
Qed.

(** X11.  An ATX header: the hashes, then one space, then the title are
    fitted like a paragraph and followed by one empty line; the spaces
    around the title and the closing hashes of the source are dropped. *)
Theorem atx_header_rendering (fuel : nat) (width : Z) (n k j i : nat)
    (title : string) :
  text_line title = true ->
  rendering (S fuel) [atx_source n k title j i] width
  = Some (_fit_text (atx_text n title) (relative_width_of width "" "" "") false
          ++ [""])%list.
Proof.
  intros Ht. unfold rendering. rewrite groupify_S.
  unfold groupify_with, grouper0. cbn [main_loop].
  rewrite step_atx by (assumption || reflexivity).
  unfold flush_if_group. grouper_simpl. cbn [option_map]. f_equal.
  apply output_lines_put. apply Forall_app. split; [|now repeat constructor].
  apply fit_text_chars; [reflexivity|].
  now destruct (atx_text_clean n title Ht) as (_ & _ & H).
Qed.

Lemma atx_header_rendering_witness :
  rendering 1 ["##Two words   ###"] 80 = Some ["## Two words"; ""].
Proof.
  apply (atx_header_rendering 0 80 1 0 0 3 "Two words"). reflexivity.
Defined.

(** * A Setext underline after a paragraph *)

Section Underline.
Variable rec : list string -> Z -> string -> Stdout -> option Stdout.
Variable width : Z.
Variables (c : ascii) (n : nat) (title : string).
Hypothesis Hc : c = "="%char \/ c = "-"%char.
Hypothesis Ht : text_line title = true.

Lemma underline_token : token (Py.mul (String c "") (String.length title)) = true.
Proof.
  destruct (text_line_facts title Ht) as [(a & s & -> & _) _ _ _ _].
  unfold token. rewrite mul_char_forall by (destruct Hc as [-> | ->]; reflexivity).
  reflexivity.
Qed.

Lemma underline_line (g : Grouper) (o : Stdout) :
  has_break g = false ->
  step Stdout (render_group_with rec) width "" (Py.mul (String c "") (S n)) g o
  = setext_header_step Stdout (render_group_with rec) width "" c g o.
Proof.
  intros Hb.
  assert (Hsp : Py.isspace c = false) by (destruct Hc as [-> | ->]; reflexivity).
  assert (Hnorm : normalize (Py.mul (String c "") (S n)) = Py.mul (String c "") (S n)).
  { apply normalize_plain, mul_char_forall. destruct Hc as [-> | ->]; reflexivity. }
  unfold step. rewrite Hnorm, Hb.
  replace (Py.nonempty (Py.strip Py.isspace (Py.mul (String c "") (S n)))) with true
    by (symmetry; now apply strip_cons_keep).
  cbn [negb]. now rewrite underline_setext.
Qed.

Lemma render_underline (o : Stdout) :
  softspace o = false ->
  render_group_with rec [Py.mul (String c "") (String.length title)] width ""
    false "" "" true false o
  = Some (put_lines [Py.mul (String c "") (String.length title); ""] o).
Proof.
  intros Ho. rewrite render_token by apply underline_token.
  cbn [append]. now rewrite !print_put_line by (reflexivity || assumption).
Qed.

Lemma step_underline_two (x : string) (fb fr : bool) (ps : St.t) (o : Stdout) :
  text_line x = true -> softspace o = false ->
  exists g',
    step Stdout (render_group_with rec) width "" (Py.mul (String c "") (S n))
      (mkGrouper [x; title] false fb fr ps St.empty) o
    = Some (g', put_lines (fitted_paragraph width [x; title]
                           ++ [Py.mul (String c "") (String.length title); ""]) o)
    /\ group g' = [].
Proof.
  intros Hx Ho. rewrite underline_line by reflexivity.
  unfold setext_header_step. grouper_simpl.
  cbn [List.last List.removelast List.length Nat.ltb Nat.leb].
  unfold _do_render_group. grouper_simpl.
  rewrite render_text
    by (assumption || (apply paragraph_intro; [discriminate|auto])).
  rewrite app_nil_r. grouper_simpl.
  rewrite render_underline by (now apply put_lines_soft).
  rewrite <- put_lines_app. eexists. split; reflexivity.
Qed.

Lemma step_underline_more (G : list string) (x : string) (fb fr : bool)
    (ps : St.t) (o : Stdout) :
  paragraph G = true -> softspace o = false ->
  exists g',
    step Stdout (render_group_with rec) width "" (Py.mul (String c "") (S n))
      (mkGrouper (G ++ [x; title]) false fb fr ps St.empty) o
    = Some (g', put_lines (fitted_paragraph width G
                           ++ "" :: fitted_paragraph width [title]
                           ++ [Py.mul (String c "") (String.length title); ""]) o)
    /\ group g' = [].
Proof.
  intros HG Ho. destruct (paragraph_inv G HG) as [Hne _].
  rewrite underline_line by reflexivity.
  unfold setext_header_step. grouper_simpl.
  replace (G ++ [x; title])%list with ((G ++ [x]) ++ [title])%list
    by now rewrite <- app_assoc.
  rewrite last_last, !removelast_last.
  replace (1 <? List.length (G ++ [x]))%nat with true.
  2:{ symmetry. apply Nat.ltb_lt. rewrite length_app. simpl.
      destruct G; [congruence|simpl; lia]. }
  unfold _do_render_group. grouper_simpl.
  rewrite render_text by assumption. grouper_simpl.
  rewrite render_text
    by ((apply paragraph_intro; [discriminate|auto])
        || (now apply put_lines_soft)).
  rewrite app_nil_r. grouper_simpl.
  rewrite render_underline by (now repeat apply put_lines_soft).
  rewrite <- !put_lines_app, <- !app_assoc. eexists. split; reflexivity.
Qed.

End Underline.

Lemma underline_no_newline (c : ascii) (k : nat) :
  c = "="%char \/ c = "-"%char ->
  str_forall no_newline (Py.mul (String c "") k) = true.
Proof. intros [-> | ->]; now apply mul_char_forall. Qed.

(** X12.  A Setext underline after a paragraph of exactly two lines: the
    two lines are printed together, as one fitted paragraph, and the
    underline below them is only as long as the second line. *)
Theorem setext_joins_two_lines (fuel : nat) (width : Z) (x title : string)
    (c : ascii) (n : nat) :
  text_line x = true -> text_line title = true ->
  c = "="%char \/ c = "-"%char ->
  rendering (S fuel) [x; title; Py.mul (String c "") (S n)] width
  = Some (fitted_paragraph width [x; title]
          ++ [Py.mul (String c "") (String.length title); ""])%list.
Proof.
  intros Hx Ht Hc.
  assert (Hp : paragraph [x; title] = true)
    by (apply paragraph_intro; [discriminate|auto]).
  unfold rendering. rewrite groupify_S. unfold groupify_with, grouper0.
  change [x; title; Py.mul (String c "") (S n)]
    with ([x; title] ++ [Py.mul (String c "") (S n)])%list.
  rewrite open_loop by assumption. cbn [main_loop].
  destruct (step_underline_two (_groupify fuel) width c n title Hc Ht x false true
              St.empty stdout0 Hx eq_refl) as (g' & -> & Hg).
  unfold flush_if_group. rewrite Hg. cbn [nonnil option_map]. f_equal.
  apply output_lines_put. apply Forall_app. split.
  - now apply fitted_no_newline.
  - repeat constructor. now apply underline_no_newline.
Qed.

Lemma setext_joins_two_lines_witness :
  rendering 1 ["Some text"; "Title"; "====="] 80
  = Some ["Some text Title"; "====="; ""].
Proof.
  apply (setext_joins_two_lines 0 80 "Some text" "Title" "=" 4);
    (reflexivity || now left).
Defined.

(** X13.  A Setext underline after a paragraph of three lines or more: the
    last line is the title, the line before it is dropped and never
    printed, and the lines before that are printed as a paragraph of their
    own. *)
Theorem setext_drops_line (fuel : nat) (width : Z) (G : list string)
    (x title : string) (c : ascii) (n : nat) :
  paragraph G = true -> text_line x = true -> text_line title = true ->
  c = "="%char \/ c = "-"%char ->
  rendering (S fuel) (G ++ [x; title; Py.mul (String c "") (S n)]) width
  = Some (fitted_paragraph width G
          ++ "" :: fitted_paragraph width [title]
          ++ [Py.mul (String c "") (String.length title); ""])%list.
Proof.
  intros HG Hx Ht Hc. destruct (paragraph_inv G HG) as [Hne Hall].
  assert (Hp : paragraph (G ++ [x; title]) = true).
  { apply paragraph_intro; [now destruct G|].
    apply Forall_app. split; [assumption|auto]. }
  unfold rendering. rewrite groupify_S. unfold groupify_with, grouper0.
  replace (G ++ [x; title; Py.mul (String c "") (S n)])%list
    with ((G ++ [x; title]) ++ [Py.mul (String c "") (S n)])%list
    by now rewrite <- app_assoc.
  rewrite open_loop by assumption. cbn [main_loop].
  destruct (step_underline_more (_groupify fuel) width c n title Hc Ht G x false
              true St.empty stdout0 HG eq_refl) as (g' & -> & Hg).
  unfold flush_if_group. rewrite Hg. cbn [nonnil option_map]. f_equal.
  apply output_lines_put. apply Forall_app. split.
  - now apply fitted_no_newline.
  - constructor; [reflexivity|]. apply Forall_app. split.
    + apply fitted_no_newline. apply paragraph_intro; [discriminate|auto].
    + repeat constructor. now apply underline_no_newline.
Qed.

Lemma setext_drops_line_witness :
  rendering 1 ["first"; "second"; "Title"; "---"] 80
  = Some ["first"; ""; "Title"; "-----"; ""].
Proof.
  apply (setext_drops_line 0 80 ["first"] "second" "Title" "-" 2);
    (reflexivity || now right).
Defined.

(** * The whole program *)

(** X14.  [readmd] never runs forever, and the nesting of its calls is
    bounded by the size of the document: [_groupify] is never called more
    deeply than the normalized lines have characters.  So wherever the
    interpreter has room for more nested calls than that ([fuel] above the
    number of characters) [readmd] returns, and what it prints does not
    depend on how much more room there is; with less room it may fail
    with RuntimeError. *)
Theorem readmd_returns (dims : option (Z * Z)) (f : list string)
    (width : option Z) :
  exists o, forall fuel,
    (total_weight f < fuel)%nat -> readmd fuel dims f width = Some o.
Proof.
  unfold readmd.
  set (w := match width with
            | Some w => if w =? 0 then fst (St.get dims (80, 24)) else w
            | None => fst (St.get dims (80, 24))
            end).
  destruct (groupify_returns (total_weight f) f w "" stdout0 (Nat.le_refl _))
    as (o & E).
  exists o. intros fuel Hfuel.
  apply (groupify_fuel (S (total_weight f)) fuel); [lia|exact E].
Qed.

Lemma readmd_returns_witness :
  exists o, readmd 9 None ["> a"; String "009" "b"] (Some 0) = Some o.
Proof.
  destruct (readmd_returns None ["> a"; String "009" "b"] (Some 0)) as (o & H).
  exists o. apply H. vm_compute. lia.
Defined.

Section CommandLine.
Variable int : string -> option Z.

Lemma parse_args_width (args : list string) :
  forall paths was_width width ps w,
    (forall w0, width = Some w0 -> w0 = -1 \/ MIN_WIDTH <= w0) ->
    parse_args int args paths was_width width = inr (ps, Some w) ->
    w = -1 \/ MIN_WIDTH <= w.
Proof.
  induction args as [|arg rest IH]; intros paths ww width ps w Hinv H.
  - cbn [parse_args] in H. injection H as _ ->. now apply Hinv.
  - cbn [parse_args] in H. destruct ww.
    + destruct (int arg) as [w1|]; [|discriminate].
      destruct (Z.ltb_spec w1 MIN_WIDTH) as [Hlt|Hge];
        destruct (Z.eqb_spec w1 (-1)) as [Heq|Hne]; cbn [negb andb] in H;
        try discriminate;
        (eapply IH; [|exact H]); intros w0 [= <-]; auto.
    + destruct (String.eqb arg "-w" || String.eqb arg "--width");
        (eapply IH; [|exact H]); exact Hinv.
Qed.

Lemma parse_args_paths (before rest : list string) :
  forallb (fun arg => negb (width_option arg)) before = true ->
  forall paths width,
    parse_args int (before ++ rest) paths false width
    = parse_args int rest (paths ++ before) false width.
Proof.
  induction before as [|arg before IH]; intros Hb paths width.
  - now rewrite app_nil_r.
  - cbn [forallb] in Hb. apply andb_true_iff in Hb. destruct Hb as [Ha Hb].
    cbn [app parse_args]. unfold width_option in Ha.
    apply negb_true_iff in Ha. rewrite Ha.
    rewrite IH by assumption. unfold Py.append. now rewrite <- app_assoc.
Qed.

End CommandLine.

(** X15.  A width given on the command line is checked against
    [MIN_WIDTH]: when the main block goes on to read files at a width, that
    width is -1 or at least [MIN_WIDTH], whatever the conversion of the
    argument to an integer is; and when no help option is given and the
    value of the first width option is below [MIN_WIDTH] and not -1, the
    main block raises its exception, before any file is opened.  (With a
    help option the usage is printed and the width is not looked at.) *)
Theorem cli_width_checked (int : string -> option Z) (args : list string) :
  (forall paths w,
      main_args int args = inr (Run paths (Some w)) -> w = -1 \/ MIN_WIDTH <= w)
  /\ (forall before option value after w,
      args = (before ++ option :: value :: after)%list ->
      forallb (fun arg => negb (width_option arg)) before = true ->
      width_option option = true ->
      int value = Some w -> w < MIN_WIDTH -> w <> -1 ->
      main_args int args
      = if contains "--help" args || contains "-h" args
        then inr PrintUsage else inl WidthTooSmall).
Proof.
  split.
  - unfold main_args. intros paths w H.
    destruct (contains "--help" args || contains "-h" args); [discriminate|].
    destruct (parse_args int args [] false None) as [e|[ps width]] eqn:E;
      [discriminate|].
    injection H as _ ->.
    apply (parse_args_width int args [] false None ps w); [discriminate|exact E].
  - intros before option value after w -> Hb Ho Hv Hlt Hne.
    unfold main_args.
    destruct (contains "--help" _ || contains "-h" _); [reflexivity|].
    rewrite parse_args_paths by assumption.
    cbn [parse_args]. unfold width_option in Ho. rewrite Ho, Hv.
    destruct (Z.ltb_spec w MIN_WIDTH); [|lia].
    destruct (Z.eqb_spec w (-1)); [contradiction|]. reflexivity.
Qed.

Lemma cli_width_checked_witness :
  (40 = -1 \/ MIN_WIDTH <= 40)
  /\ main_args (fun s => if String.eqb s "5" then Some 5 else None)
       ["a.md"; "-w"; "5"; "b.md"]
     = inl WidthTooSmall.
Proof.
  split.
  - apply (proj1 (cli_width_checked
                    (fun s => if String.eqb s "40" then Some 40 else None)
                    ["a.md"; "-w"; "40"; "b.md"]) ["a.md"; "b.md"] 40).
    reflexivity.
  - apply (proj2 (cli_width_checked
                    (fun s => if String.eqb s "5" then Some 5 else None)
                    ["a.md"; "-w"; "5"; "b.md"]) ["a.md"] "-w" "5" ["b.md"] 5);
      reflexivity || lia.
Defined.

(** * Printing twice *)

Lemma plain_words_fixed (ws : list string) :
  Forall (fun w => plain_word w = true) ws -> flat_map words_of ws = ws.
Proof.
  intros H. apply words_fixed.
  - eapply Forall_impl; [|exact H]. intros w Hw.
    now destruct (plain_word_inv w Hw) as (c & t' & -> & _).
  - eapply Forall_impl; [|exact H]. intros w Hw.
    destruct (plain_word_inv w Hw) as (c & t' & _ & _ & Hall).
    now apply letters_no_blank.
Qed.

Lemma text_line_words (l : string) :
  text_line l = true ->
  words_of l <> [] /\ Forall (fun w => plain_word w = true) (words_of l).
Proof.
  unfold text_line. intros H.
  apply andb_true_iff in H. destruct H as [H _].
  apply andb_true_iff in H. destruct H as [H1 H2]. split.
  - now destruct (words_of l).
  - apply Forall_forall. intros w Hw. rewrite forallb_forall in H2. auto.
Qed.

Lemma joined_text (c : list string) :
  c <> [] -> Forall (fun w => plain_word w = true) c ->
  text_line (Py.join " " c) = true.
Proof.
  intros Hne Hall. unfold text_line.
  rewrite words_of_join, plain_words_fixed by assumption.
  rewrite String.eqb_refl, andb_true_r. apply andb_true_iff. split.
  - now destruct c.
  - apply forallb_forall. intros w Hw. rewrite Forall_forall in Hall. auto.
Qed.

Lemma paragraph_words (p : list string) :
  paragraph p = true ->
  words_of (Py.join " " p) <> []
  /\ Forall (fun w => plain_word w = true) (words_of (Py.join " " p)).
Proof.
  intros Hp. destruct (paragraph_inv p Hp) as [Hne Hall].
  rewrite words_of_join. split.
  - destruct p as [|l p']; [congruence|]. inversion Hall; subst.
    destruct (text_line_words l) as [Hw _]; [assumption|].
    cbn [flat_map]. destruct (words_of l); [congruence|discriminate].
  - clear Hne Hp. induction Hall as [|l p' Hl Hp' IH]; [constructor|].
    cbn [flat_map]. apply Forall_app. split; [|assumption].
    now apply text_line_words.
Qed.

(** the fitted lines of a paragraph are a paragraph again *)
Lemma fitted_text (width : Z) (p : list string) :
  paragraph p = true -> paragraph (fitted_paragraph width p) = true.
Proof.
  intros Hp. destruct (paragraph_words p Hp) as [Hne Hall].
  unfold fitted_paragraph.
  destruct (fit_text_chunks (Py.join " " p) (relative_width_of width "" "" "") false)
    as (chunks & H1 & H2 & H3).
  unfold fit_words in H1, H3. destruct H3 as [H3|H3]; [congruence|].
  apply paragraph_intro; [apply fit_text_nonnil|].
  rewrite H2. apply Forall_map. rewrite <- H1 in Hall.
  apply Forall_concat in Hall. clear H1 H2 Hne.
  induction chunks as [|c cs IH]; [constructor|].
  inversion H3; subst. inversion Hall; subst.
  constructor; [now apply joined_text|now apply IH].
Qed.

(** and fitting them again changes nothing *)
Lemma fitted_fixed (width : Z) (p : list string) :
  fitted_paragraph width (fitted_paragraph width p) = fitted_paragraph width p.
Proof.
  unfold fitted_paragraph.
  set (rw := relative_width_of width "" "" "").
  set (inner := _fit_text (Py.join " " p) rw false).
  rewrite fit_text_words. unfold fit_words. rewrite words_of_join.
  unfold inner. rewrite fit_text_words_kept. symmetry. apply fit_text_words.
Qed.

Lemma printed_source (width : Z) (p1 : list string)
    (rest : list (list string * list string)) :
  paragraphs_printed width p1 rest
  = paragraphs_source (fitted_paragraph width p1)
      (map (fun '(_, p) => ([""], fitted_paragraph width p)) rest).
Proof.
  unfold paragraphs_printed, paragraphs_source. f_equal.
  induction rest as [|[b p] rest IH]; [reflexivity|].
  cbn [flat_map map app]. now rewrite IH.
Qed.

Lemma printed_fixed (width : Z) (p1 : list string)
    (rest : list (list string * list string)) :
  paragraphs_printed width (fitted_paragraph width p1)
    (map (fun '(_, p) => ([""], fitted_paragraph width p)) rest)
  = paragraphs_printed width p1 rest.
Proof.
  unfold paragraphs_printed. rewrite fitted_fixed. f_equal.
  induction rest as [|[b p] rest IH]; [reflexivity|].
  cbn [flat_map map]. now rewrite IH, fitted_fixed.
Qed.

(** X16.  Printing what was printed.  On paragraphs whose words are
    made of letters printing is idempotent: what the program prints for
    such a document is printed unchanged when it is given to the program
    again at the same width.  On other text it is not: at the width 10 the
    line [see issue #12] is printed as [see issue] and [#12], and in that
    output the line [#12] is a header, so printing it again gives [see
    issue], an empty line, [# 12] and an empty line. *)
Theorem paragraphs_printed_twice (fuel : nat) (width : Z) (p1 : list string)
    (rest : list (list string * list string)) :
  paragraph p1 = true ->
  forallb (fun '(b, p) => gap b && paragraph p) rest = true ->
  rendering (S fuel) (paragraphs_printed width p1 rest) width
  = Some (paragraphs_printed width p1 rest)
  /\ rendering (S fuel) ["see issue #12"] 10 = Some ["see issue"; "#12"]
  /\ rendering (S fuel) ["see issue"; "#12"] 10
     = Some ["see issue"; ""; "# 12"; ""].
Proof.
  intros H1 Hrest. split; [|split; reflexivity].
  unfold rendering. rewrite printed_source at 1.
  assert (Hrest' : forallb (fun '(b, p) => gap b && paragraph p)
                     (map (fun '(_, p) => ([""], fitted_paragraph width p)) rest)
                   = true).
  { clear H1. induction rest as [|[b p] rest IH]; [reflexivity|].
    cbn [forallb map] in *. apply andb_true_iff in Hrest.
    destruct Hrest as [Hbp Hrest]. apply andb_true_iff in Hbp.
    rewrite IH by assumption. rewrite fitted_text by tauto. reflexivity. }
  rewrite paragraphs_written by (assumption || now apply fitted_text).
  rewrite printed_fixed. cbn [option_map]. f_equal.
  apply output_lines_put. now apply paragraphs_no_newline.
Qed.

Lemma paragraphs_printed_twice_witness :
  rendering 1 ["one two"; "three"; ""; "four five"; "six"] 10
  = Some ["one two"; "three"; ""; "four five"; "six"]
  /\ rendering 1 ["see issue #12"] 10 = Some ["see issue"; "#12"]
  /\ rendering 1 ["see issue"; "#12"] 10
     = Some ["see issue"; ""; "# 12"; ""].
Proof.
  apply (paragraphs_printed_twice 0 10 ["one two three"]
           [([""; ""], ["four"; "five six"])]); reflexivity.
Defined.

(** * What follows a header, and what follows a code block *)

Lemma forced_gap_loop (rec : list string -> Z -> string -> Stdout -> option Stdout)
    (width : Z) (indent : string) (b rest : list string) (g : Grouper)
    (o : Stdout) :
  forallb blank_line b = true -> forced_break g = true ->
  main_loop Stdout (render_group_with rec) width indent (b ++ rest) g o
  = main_loop Stdout (render_group_with rec) width indent rest g o.
Proof.
  intros Hb Hfb. induction b as [|x b IH]; [reflexivity|].
  cbn [forallb] in Hb. apply andb_true_iff in Hb. destruct Hb as [Hx Hb].
  cbn [app main_loop]. rewrite step_blank_line by assumption.
  rewrite Hfb. cbn [negb]. now apply IH.
Qed.

(** X17.  After an ATX header there is exactly one empty line, whether the
    source has no blank line after the header or many: the header is
    followed by its empty line and blank lines that come next are
    ignored. *)
Theorem header_then_text (fuel : nat) (width : Z) (n k j i : nat)
    (title : string) (b p : list string) :
  text_line title = true -> forallb blank_line b = true -> paragraph p = true ->
  rendering (S fuel) (atx_source n k title j i :: b ++ p) width
  = Some (_fit_text (atx_text n title) (relative_width_of width "" "" "") false
          ++ "" :: fitted_paragraph width p)%list.
Proof.
  intros Ht Hb Hp. unfold rendering. rewrite groupify_S.
  unfold groupify_with, grouper0. cbn [main_loop].
  rewrite step_atx by (assumption || reflexivity).
  rewrite forced_gap_loop by (assumption || reflexivity).
  rewrite open_end by assumption.
  cbn [main_loop]. unfold flush_if_group, _do_render_group. grouper_simpl.
  destruct (paragraph_inv p Hp) as [Hne _].
  replace (nonnil p) with true by now destruct p.
  rewrite render_text by (assumption || (apply put_lines_soft; reflexivity)).
  rewrite <- put_lines_app, app_nil_r, <- app_assoc.
  cbn [option_map app]. f_equal. apply output_lines_put.
  apply Forall_app. split.
  - apply fit_text_chars; [reflexivity|].
    now destruct (atx_text_clean n title Ht) as (_ & _ & H).
  - constructor; [reflexivity|now apply fitted_no_newline].
Qed.

Lemma header_then_text_witness :
  rendering 1 ["# Title"; "text"] 80 = Some ["# Title"; ""; "text"]
  /\ rendering 1 ["# Title"; ""; ""; "text"] 80 = Some ["# Title"; ""; "text"].
Proof.
  split.
  - apply (header_then_text 0 80 0 1 0 0 "Title" [] ["text"]); reflexivity.
  - apply (header_then_text 0 80 0 1 0 0 "Title" [""; ""] ["text"]); reflexivity.
Defined.

Section AfterCode.
Variable rec : list string -> Z -> string -> Stdout -> option Stdout.
Variable width : Z.

Lemma code_loop_rest (c rest : list string) :
  Forall (fun l => code_line l = true) c ->
  forall G fr ps o, G <> [] ->
    main_loop Stdout (render_group_with rec) width "" (c ++ rest)
      (mkGrouper G false false fr ps code_state) o
    = main_loop Stdout (render_group_with rec) width "" rest
        (mkGrouper (G ++ c) false false fr ps code_state) o.
Proof.
  induction 1 as [|l c Hl Hc IH]; intros G fr ps o HG.
  - now rewrite app_nil_r.
  - cbn [app main_loop]. rewrite step_code_more by assumption.
    rewrite IH by (now destruct G). now rewrite <- app_assoc.
Qed.

Lemma render_code (C : list string) (fr line_after : bool) (o : Stdout) :
  softspace o = false ->
  render_group_with rec C width "" fr SPACES SPACES line_after true o
  = Some (put_lines (C ++ (if line_after then [""] else []))%list o).
Proof.
  intros Ho. unfold render_group_with, pre_lines, enumerate.
  replace (if fr then "" else "") with "" by now destruct fr.
  rewrite (pre_lines_margin C 0), print_all_put by assumption.
  destruct line_after; [|now rewrite app_nil_r].
  rewrite put_lines_app. cbn [put_lines fold_left].
  change (Re.sub_end_space "") with "".
  now rewrite print_put_line by (now apply put_lines_soft).
Qed.

Lemma step_text_after_code (t : string) (C : list string) (fb fr : bool)
    (ps : St.t) (o : Stdout) :
  text_line t = true -> softspace o = false ->
  step Stdout (render_group_with rec) width "" t
    (mkGrouper C false fb fr ps code_state) o
  = Some (mkGrouper [t] false false false code_state St.empty,
          put_lines (C ++ [""]) o).
Proof.
  intros Ht Ho. rewrite step_other by (now apply text_kind).
  rewrite text_normalize by assumption.
  assert (Hcode : Re._code t = false).
  { destruct (text_line_facts t Ht) as [(c & s & -> & Hc) _ _ _ _].
    unfold Re._code.
    replace (Re.leading_spaces (String c s)) with 0%nat; [reflexivity|].
    simpl. destruct c as [[] [] [] [] [] [] [] []]; try reflexivity; discriminate. }
  unfold other_line_step, continuation, code_state. grouper_simpl.
  rewrite Hcode. cbn [negb]. unfold _do_render_group. grouper_simpl.
  fold code_state.
  replace (St.get (St.prefix_first code_state) "") with SPACES by reflexivity.
  replace (St.get (St.prefix_rest code_state) "") with SPACES by reflexivity.
  replace (St.has_type TYPE_CODE code_state) with true by reflexivity.
  rewrite render_code by assumption. grouper_simpl.
  unfold group_append, set_group. grouper_simpl.
  now rewrite text_identify by assumption.
Qed.

End AfterCode.

(** X18.  Text that follows a code block without a blank line is still
    printed as a paragraph of its own: the code block is printed as it is
    and closed by an empty line, then comes the fitted paragraph. *)
Theorem code_then_text (fuel : nat) (width : Z) (l : string) (c p : list string) :
  forallb code_line (l :: c) = true -> paragraph p = true ->
  rendering (S fuel) ((l :: c) ++ p) width
  = Some ((l :: c) ++ "" :: fitted_paragraph width p)%list.
Proof.
  intros H Hp. cbn [forallb] in H. apply andb_true_iff in H. destruct H as [Hl Hc].
  assert (Hall : Forall (fun x => code_line x = true) c).
  { apply Forall_forall. intros x Hx. rewrite forallb_forall in Hc. auto. }
  destruct (paragraph_inv p Hp) as [Hne Hp'].
  destruct p as [|t p']; [congruence|]. inversion Hp'; subst.
  unfold rendering. rewrite groupify_S. unfold groupify_with, grouper0.
  cbn [app main_loop]. rewrite step_code_open by assumption.
  rewrite code_loop_rest by (assumption || discriminate).
  cbn [app main_loop]. rewrite step_text_after_code by (assumption || reflexivity).
  rewrite para_end by (assumption || discriminate).
  cbn [main_loop app]. unfold flush_if_group, _do_render_group. grouper_simpl.
  rewrite render_text by (assumption || (apply put_lines_soft; reflexivity)).
  rewrite <- put_lines_app, app_nil_r.
  change (l :: c ++ [""]) with ((l :: c) ++ [""])%list.
  rewrite <- app_assoc. cbn [option_map app]. f_equal. apply output_lines_put.
  assert (Hnl : forall x, code_line x = true -> str_forall no_newline x = true).
  { intros x Hx. destruct (code_line_inv x Hx) as (Hplain & _).
    eapply str_forall_impl; [|exact Hplain].
    intros a Ha. unfold plain_char in Ha. unfold no_newline.
    now destruct a as [[] [] [] [] [] [] [] []]. }
  constructor; [now apply Hnl|]. apply Forall_app. split.
  - eapply Forall_impl; [|exact Hall]. exact Hnl.
  - constructor; [reflexivity|now apply fitted_no_newline].
Qed.

Lemma code_then_text_witness :
  rendering 1 ["    x = 1"; "and some text"] 80
  = Some ["    x = 1"; ""; "and some text"].
Proof.
  apply (code_then_text 0 80 "    x = 1" [] ["and some text"]); reflexivity.
Defined.

(** * An underline without a title, and nested quotes *)

Lemma render_empty_line (rec : list string -> Z -> string -> Stdout -> option Stdout)
    (width : Z) (fr line_after : bool) (o : Stdout) :
  softspace o = false ->
  render_group_with rec [""] width "" fr "" "" line_after false o
  = Some (put_lines ("" :: (if line_after then [""] else [])) o).
Proof.
  intros Ho. unfold render_group_with.
  cbn [Py.nonempty andb List.length build_sections Py.strip Py.lstrip Py.rstrip
       Py.endswith String.eqb orb Nat.eqb Nat.add Py.append app append].
  replace (if fr then "" else "") with "" by now destruct fr.
  rewrite wrapped_one_section.
  replace (_fit_text "" (relative_width_of width "" "" "") false) with [""]
    by reflexivity.
  rewrite print_all_put by assumption.
  destruct line_after; [|reflexivity].
  cbn [put_lines fold_left]. change (Re.sub_end_space "") with "".
  now rewrite print_put_line by reflexivity.
Qed.

(** X19.  A Setext underline with no line above it, as at the start of a
    document, is still taken for an underline: the missing title counts as
    an empty line, the underline is as long as that title, and the program
    prints three empty lines and nothing of the line itself. *)
Theorem underline_without_title (fuel : nat) (width : Z) (c : ascii) (n : nat) :
  c = "="%char \/ c = "-"%char ->
  rendering (S fuel) [Py.mul (String c "") (S n)] width = Some [""; ""; ""].
Proof.
  intros Hc. unfold rendering. rewrite groupify_S.
  unfold groupify_with, grouper0. cbn [main_loop].
  assert (Hsp : Py.isspace c = false) by (destruct Hc as [-> | ->]; reflexivity).
  assert (Hnorm : normalize (Py.mul (String c "") (S n)) = Py.mul (String c "") (S n)).
  { apply normalize_plain, mul_char_forall. destruct Hc as [-> | ->]; reflexivity. }
  unfold step. rewrite Hnorm.
  replace (Py.nonempty (Py.strip Py.isspace (Py.mul (String c "") (S n)))) with true
    by (symmetry; now apply strip_cons_keep).
  grouper_simpl. rewrite underline_setext by assumption.
  unfold setext_header_step. grouper_simpl.
  cbn [List.last List.removelast List.length Nat.ltb Nat.leb].
  unfold _do_render_group. grouper_simpl.
  rewrite render_empty_line by reflexivity. grouper_simpl.
  cbn [String.length Py.mul].
  rewrite render_empty_line by reflexivity.
  unfold flush_if_group. grouper_simpl. reflexivity.
Qed.

Lemma underline_without_title_witness :
  rendering 1 ["---"] 80 = Some [""; ""; ""].
Proof. apply (underline_without_title 0 80 "-" 2). now right. Defined.

(** ** Quotes in quotes *)

Section Nest.
Variable s : string.
Hypothesis Hplain : str_forall plain_char s = true.
Hypothesis Hhead : exists c r, s = String c r /\ Py.isspace c = false.

Lemma nest_normalize : normalize ("> " ++ s) = "> " ++ s.
Proof. apply normalize_plain. cbn [append str_forall]. now rewrite Hplain. Qed.

Lemma nest_kind (g : Grouper) : line_kind_of g ("> " ++ s) = OtherLine.
Proof.
  apply line_kind_other; rewrite nest_normalize.
  - now apply strip_cons_keep.
  - now right.
  - reflexivity.
Qed.

Lemma nest_blockquote : Re._blockquote ("> " ++ s) = Some s.
Proof.
  destruct Hhead as (c & r & -> & Hc).
  cbn [append Re._blockquote Py.lstrip Py.isspace]. now rewrite Hc.
Qed.

Lemma step_nest_open
    (rec : list string -> Z -> string -> Stdout -> option Stdout)
    (width : Z) (indent : string) (fb fr : bool) (ps : St.t) (o : Stdout) :
  step Stdout (render_group_with rec) width indent ("> " ++ s)
    (mkGrouper [] false fb fr ps St.empty) o
  = Some (mkGrouper [s] false false fr St.empty block_state, o).
Proof.
  rewrite step_other by apply nest_kind. rewrite nest_normalize.
  unfold other_line_step, continuation. grouper_simpl.
  unfold group_append, set_group, set_forced_break. grouper_simpl.
  unfold identify, SPECIAL_TYPES. cbn [find].
  replace (Re._hr ("> " ++ s)) with (@None string) by reflexivity.
  replace (Re._ul_indent ("> " ++ s)) with (@None (string * string)) by reflexivity.
  replace (Re._ol_indent ("> " ++ s)) with (@None string) by reflexivity.
  rewrite nest_blockquote. grouper_simpl. cbn [map_last].
  unfold Re.sub_blockquote. rewrite nest_blockquote. reflexivity.
Qed.

End Nest.

Lemma nest_line (d : nat) (t : string) :
  plain_word t = true ->
  str_forall plain_char (Py.mul "> " d ++ t) = true
  /\ str_forall no_newline (Py.mul "> " d ++ t) = true
  /\ exists c r, Py.mul "> " d ++ t = String c r /\ Py.isspace c = false.
Proof.
  intros Ht. destruct (plain_word_inv t Ht) as (c & t' & E & Hc & Hall).
  destruct (letter_facts c Hc) as (Hsp & _).
  assert (Hm : str_forall plain_char (Py.mul "> " d) = true
               /\ str_forall no_newline (Py.mul "> " d) = true).
  { induction d as [|d IH]; [now split|]. cbn [Py.mul append str_forall]. exact IH. }
  split; [|split].
  - rewrite str_forall_app. destruct Hm as [-> _]. now apply letters_plain.
  - rewrite str_forall_app. destruct Hm as [_ ->]. now apply word_no_newline.
  - destruct d as [|d]; [now exists c, t'; rewrite E|].
    now exists ">"%char, (" " ++ Py.mul "> " d ++ t).
Qed.

Lemma nested_written (t : string) :
  plain_word t = true ->
  forall d fuel width indent o,
    _groupify (S (d + fuel)) [Py.mul "> " d ++ t] width indent o
    = Some (print (Py.mul "> " d ++ t) o).
Proof.
  intros Ht. induction d as [|d IH]; intros fuel width indent o.
  - now apply groupify_word.
  - destruct (nest_line d t Ht) as (Hplain & _ & Hhead).
    replace (Py.mul "> " (S d) ++ t) with ("> " ++ (Py.mul "> " d ++ t))
      by (cbn [Py.mul]; now rewrite !append_assoc).
    rewrite groupify_S. unfold groupify_with, grouper0. cbn [main_loop].
    rewrite step_nest_open by assumption.
    unfold flush_if_group, _do_render_group, block_state. grouper_simpl.
    unfold render_group_with.
    cbn [Py.nonempty Py.endswith Py.drop_last String.eqb Ascii.eqb Bool.eqb
         andb orb append].
    change (S d + fuel)%nat with (S (d + fuel)). rewrite IH.
    unfold print, print_newline, print_comma, print_item.
    cbn [written softspace last_char Py.isspace negb orb append].
    f_equal. f_equal. now rewrite !append_assoc.
Qed.

Lemma nested_overflow (t : string) :
  plain_word t = true ->
  forall d fuel width indent o,
    (fuel <= d)%nat ->
    _groupify fuel [Py.mul "> " d ++ t] width indent o = None.
Proof.
  intros Ht. induction d as [|d IH]; intros fuel width indent o Hfuel.
  - replace fuel with 0%nat by lia. reflexivity.
  - destruct fuel as [|fuel]; [reflexivity|].
    destruct (nest_line d t Ht) as (Hplain & _ & Hhead).
    replace (Py.mul "> " (S d) ++ t) with ("> " ++ (Py.mul "> " d ++ t))
      by (cbn [Py.mul]; now rewrite !append_assoc).
    rewrite groupify_S. unfold groupify_with, grouper0. cbn [main_loop].
    rewrite step_nest_open by assumption.
    unfold flush_if_group, _do_render_group, block_state. grouper_simpl.
    unfold render_group_with.
    cbn [Py.nonempty Py.endswith Py.drop_last String.eqb Ascii.eqb Bool.eqb
         andb orb append].
    rewrite IH by lia. reflexivity.
Qed.

(** X20.  Nested quotes and the depth of the calls.  A word behind [d]
    quote markers makes the renderer call [_groupify] [d] times, each call
    inside the one before.  Where the interpreter has room for that nesting
    ([fuel] above [d]) the line is printed as it is, behind the same [d]
    markers; where it has not, the program fails (Python raises
    RuntimeError, maximum recursion depth exceeded) and the result is
    [None]. *)
Theorem nested_quotes_kept (d : nat) (width : Z) (t : string) :
  plain_word t = true ->
  forall fuel,
    rendering fuel [Py.mul "> " d ++ t] width
    = if (d <? fuel)%nat then Some [Py.mul "> " d ++ t] else None.
Proof.
  intros Ht fuel. unfold rendering. destruct (Nat.ltb_spec d fuel) as [H|H].
  - replace fuel with (S (d + (fuel - S d)))%nat by lia.
    rewrite nested_written by assumption.
    rewrite print_put_line by reflexivity. cbn [option_map]. f_equal.
    apply (output_lines_put [Py.mul "> " d ++ t]).
    constructor; [|constructor]. now destruct (nest_line d t Ht) as (_ & H0 & _).
  - now rewrite nested_overflow.
Qed.

Lemma nested_quotes_kept_witness :
  rendering 4 ["> > > deep"] 12 = Some ["> > > deep"]
  /\ rendering 3 ["> > > deep"] 12 = None.
Proof.
  split.
  - apply (nested_quotes_kept 3 12 "deep" eq_refl 4%nat).
  - apply (nested_quotes_kept 3 12 "deep" eq_refl 3%nat).
Defined.

(** * Lists with blank lines between the items *)

Lemma render_bullet_after (fuel : nat) (t : string) (width : Z) (fr : bool)
    (b : ascii) (line_after : bool) (o : Stdout) :
  plain_word t = true -> softspace o = false ->
  render_group_with (_groupify (S fuel)) [t] width "" fr (String b "   ") SPACES
    line_after false o
  = Some (put_lines (String b ("   " ++ t) :: (if line_after then [""] else [])) o).
Proof.
  intros Ht Ho.
  pose proof (render_bullet fuel t width fr b o Ht Ho) as H.
  unfold render_group_with in *.
  destruct (if Py.nonempty (String b "   ") && Py.nonempty SPACES
            then _ else _) as [o1|]; [|discriminate].
  injection H as ->. destruct line_after; [|reflexivity].
  cbn [put_lines fold_left]. change (Re.sub_end_space "") with "".
  now rewrite print_put_line by reflexivity.
Qed.

Lemma step_ul_loose (fuel : nat) (width : Z) (item : marker * string) (b : ascii)
    (tp : string) (hb fr : bool) (ps : St.t) (o : Stdout) :
  item_ok item = true -> plain_word tp = true -> softspace o = false ->
  step Stdout (render_group_with (_groupify (S fuel))) width "" (item_source item)
    (mkGrouper [tp] hb false fr ps (ul_state b)) o
  = Some (mkGrouper [snd item] false false false ps (ul_state b),
          put_lines (String b ("   " ++ tp) :: (if hb then [""] else [])) o).
Proof.
  intros Hitem Htp Ho. destruct (item_line item Hitem) as (Hn & Hk & Hm & Hsub).
  rewrite step_other by apply Hk. rewrite Hn.
  unfold other_line_step, continuation, ul_state. grouper_simpl.
  rewrite Hm. unfold _do_render_group. grouper_simpl.
  rewrite render_bullet_after by assumption. grouper_simpl. now rewrite Hsub.
Qed.

Lemma loose_loop (fuel : nat) (width : Z) (b : ascii)
    (rest : list (list string * (marker * string))) :
  forallb (fun '(g, item) => forallb blank_line g && item_ok item) rest = true ->
  forall tp fr ps o,
    plain_word tp = true -> softspace o = false ->
    main_loop Stdout (render_group_with (_groupify (S fuel))) width ""
      (loose_source rest) (mkGrouper [tp] false false fr ps (ul_state b)) o
    = Some (put_lines (loose_printed b tp rest) o).
Proof.
  induction rest as [|[g item] rest IH]; intros Hrest tp fr ps o Htp Ho.
  - cbn [loose_source flat_map main_loop].
    unfold flush_if_group, _do_render_group, ul_state. grouper_simpl.
    now rewrite render_bullet by assumption.
  - cbn [forallb] in Hrest. apply andb_true_iff in Hrest.
    destruct Hrest as [Hgi Hrest]. apply andb_true_iff in Hgi.
    destruct Hgi as [Hg Hitem].
    assert (Ht : plain_word (snd item) = true).
    { unfold item_ok in Hitem. apply andb_true_iff in Hitem. tauto. }
    unfold loose_source, loose_printed. cbn [flat_map].
    fold (loose_source rest). rewrite <- !app_assoc. cbn [app].
    assert (Hstep : main_loop Stdout (render_group_with (_groupify (S fuel))) width ""
                      (g ++ item_source item :: loose_source rest)
                      (mkGrouper [tp] false false fr ps (ul_state b)) o
                    = main_loop Stdout (render_group_with (_groupify (S fuel))) width ""
                        (item_source item :: loose_source rest)
                        (mkGrouper [tp] (nonnil g) false fr ps (ul_state b)) o).
    { destruct g as [|x g']; [reflexivity|].
      rewrite gap_loop by (assumption || reflexivity). reflexivity. }
    rewrite Hstep. cbn [main_loop]. rewrite step_ul_loose by assumption.
    rewrite IH by (assumption || (now apply put_lines_soft)).
    rewrite <- put_lines_app. unfold loose_printed.
    destruct (nonnil g); reflexivity.
Qed.

(** X21.  Blank lines between the items of a list are kept as one empty
    line: an item that is followed by blank lines is printed with one empty
    line after it, an item that is not is printed with none, and all the
    items carry the bullet of the first. *)
Theorem loose_list_kept (fuel : nat) (width : Z) (b : ascii) (t : string)
    (rest : list (list string * (marker * string))) :
  Re.ul_char b = true -> plain_word t = true ->
  forallb (fun '(g, item) => forallb blank_line g && item_ok item) rest = true ->
  rendering (S (S fuel)) (String b (" " ++ t) :: loose_source rest) width
  = Some (loose_printed b t rest).
Proof.
  intros Hb Ht Hrest. unfold rendering. rewrite groupify_S.
  unfold groupify_with, grouper0. cbn [main_loop].
  rewrite step_first_bullet by assumption.
  rewrite loose_loop by (assumption || reflexivity).
  cbn [option_map]. f_equal. apply output_lines_put.
  assert (Hw : forall w, plain_word w = true ->
            str_forall no_newline (String b ("   " ++ w)) = true).
  { intros w Hw. cbn [append str_forall]. rewrite (word_no_newline w Hw).
    destruct (bullet_cases b Hb) as [-> | [-> | ->]]; reflexivity. }
  unfold loose_printed. constructor; [now apply Hw|].
  induction rest as [|[g item] rest IH]; [constructor|].
  cbn [forallb] in Hrest. apply andb_true_iff in Hrest.
  destruct Hrest as [Hgi Hrest]. apply andb_true_iff in Hgi.
  destruct Hgi as [_ Hitem]. unfold item_ok in Hitem.
  apply andb_true_iff in Hitem. cbn [flat_map].
  apply Forall_app. split; [|now apply IH].
  apply Forall_app. split.
  - destruct (nonnil g); repeat constructor.
  - repeat constructor. apply Hw. tauto.
Qed.

Lemma loose_list_kept_witness :
  rendering 2 ["- one"; "- two"; ""; ""; "- three"] 80
  = Some ["-   one"; "-   two"; ""; "-   three"].
Proof.
  apply (loose_list_kept 0 80 "-" "one"
           [([], (Bullet "-", "two")); ([""; ""], (Bullet "-", "three"))]);
    reflexivity.
Defined.

(** * An indented line after a list item *)

Lemma code_patterns (x : string) :
  code_line x = true ->
  Re._ul_indent x = None /\ Re._ol_indent x = None /\ Re._indented x = true.
Proof.
  intros Hx. destruct (code_line_inv x Hx) as (_ & Hc & _).
  unfold Re._code in Hc. apply andb_true_iff in Hc. destruct Hc as [Hc _].
  assert (H4 : (4 <= Re.leading_spaces x)%nat) by now apply Nat.leb_le.
  unfold Re._ul_indent, Re._ol_indent, Re._indented.
  replace (Re.leading_spaces x <=? 3)%nat with false
    by (symmetry; apply Nat.leb_gt; lia).
  now rewrite Hc.
Qed.

Section Indented.
Variable rec : list string -> Z -> string -> Stdout -> option Stdout.
Variables (width : Z) (indent : string).
Variable x : string.
Hypothesis Hx : code_line x = true.

(** in an open list item, after a break: the line joins the group behind a
    line feed *)
Lemma step_indented (b : ascii) (tp : string) (fr : bool) (ps : St.t) (o : Stdout) :
  step Stdout (render_group_with rec) width indent x
    (mkGrouper [tp] true false fr ps (ul_state b)) o
  = Some (mkGrouper [tp; String "010" ""; x] true false fr ps (ul_state b), o).
Proof.
  destruct (code_patterns x Hx) as (Hul & Hol & Hind).
  rewrite step_other by (now apply code_kind).
  rewrite code_normalize by assumption.
  unfold other_line_step, continuation, ul_state. grouper_simpl.
  rewrite Hul, Hol, Hind. grouper_simpl. reflexivity.
Qed.

(** after a word and a break, in a group of no special type: the word is
    printed and the line opens a code block *)
Lemma step_code_break (tp : string) (fb fr : bool) (ps : St.t) (o : Stdout) :
  plain_word tp = true ->
  step Stdout (render_group_with rec) width indent x
    (mkGrouper [tp] true fb fr ps St.empty) o
  = Some (mkGrouper [x] false false false St.empty code_state,
          print (Re.sub_end_space indent)
            (print ((if fr then "" else indent) ++ tp) o)).
Proof.
  intros Htp. rewrite step_other by (now apply code_kind).
  rewrite code_normalize by assumption.
  unfold other_line_step, continuation, flush_if_group, _do_render_group.
  grouper_simpl. rewrite render_token by (now apply plain_word_token).
  grouper_simpl. unfold group_append, set_group. grouper_simpl.
  now rewrite code_identify by assumption.
Qed.

End Indented.

Lemma nested_item (fuel : nat) (width : Z) (t x : string) (o : Stdout) :
  plain_word t = true -> code_line x = true ->
  _groupify (S fuel) [t; String "010" ""; x] width "    " o
  = Some (print ("    " ++ x) (print "" (print t o))).
Proof.
  intros Ht Hx. rewrite groupify_S. unfold groupify_with. cbn [main_loop].
  rewrite step_word by assumption.
  rewrite step_blank_line by reflexivity. unfold set_has_break. grouper_simpl.
  rewrite step_code_break by assumption.
  unfold flush_if_group, _do_render_group, code_state. grouper_simpl.
  reflexivity.
Qed.

(** X22.  An indented line that follows a list item after blank lines
    stays in the item, but the nested call takes it for a code block and
    the indent of the item is put in front of it: it is printed four spaces
    deeper than it is in the source, after one empty line. *)
Theorem indented_after_item (fuel : nat) (width : Z) (b : ascii) (t x : string)
    (g : list string) :
  Re.ul_char b = true -> plain_word t = true -> gap g = true ->
  code_line x = true ->
  rendering (S (S fuel)) (String b (" " ++ t) :: g ++ [x]) width
  = Some [String b ("   " ++ t); ""; "    " ++ x].
Proof.
  intros Hb Ht Hg Hx. unfold rendering. rewrite groupify_S.
  unfold groupify_with, grouper0. cbn [main_loop].
  rewrite step_first_bullet by assumption.
  rewrite gap_loop by (assumption || reflexivity).
  unfold set_has_break. grouper_simpl. cbn [main_loop].
  rewrite step_indented by assumption.
  unfold flush_if_group, _do_render_group, ul_state. grouper_simpl.
  unfold render_group_with.
  replace (Py.endswith (String b "   ") " ") with true
    by (cbn; now destruct (Ascii.eqb b " ")).
  cbn [SPACES NUM_SPACES Py.mul Py.nonempty andb Py.drop_last append].
  rewrite nested_item by assumption. cbn [option_map]. f_equal.
  replace (print t (print_comma (String b "  ") stdout0))
    with (put_line (String b ("   " ++ t)) stdout0).
  - rewrite !print_put_line by reflexivity.
    apply (output_lines_put [String b ("   " ++ t); ""; "    " ++ x]).
    repeat constructor.
    + cbn [append str_forall]. rewrite (word_no_newline t Ht).
      destruct (bullet_cases b Hb) as [-> | [-> | ->]]; reflexivity.
    + cbn [append str_forall]. destruct (code_line_inv x Hx) as (Hplain & _).
      eapply str_forall_impl; [|exact Hplain].
      intros a Ha. unfold plain_char in Ha. unfold no_newline.
      now destruct a as [[] [] [] [] [] [] [] []].
  - unfold print, print_newline, print_comma, print_item, put_line.
    cbn [written softspace last_char append Py.isspace negb orb Ascii.eqb Bool.eqb].
    reflexivity.
Qed.

Lemma indented_after_item_witness :
  rendering 2 ["* item"; ""; "    more"] 80
  = Some ["*   item"; ""; "        more"].
Proof.
  apply (indented_after_item 0 80 "*" "item" "    more" [""]); reflexivity.
Defined.

(** * Quoted paragraphs *)

Lemma render_text_margin_after
    (rec : list string -> Z -> string -> Stdout -> option Stdout)
    (G : list string) (width : Z) (indent : string) (fr : bool) (o : Stdout) :
  paragraph G = true ->
  render_group_with rec G width indent fr "" "" true false o
  = Some (print (Re.sub_end_space indent)
            (print_all
               (margin_lines (if fr then "" else indent) indent
                  (_fit_text (Py.join " " G) (relative_width_of width indent "" "")
                     false))
               o)).
Proof.
  intros HG. pose proof (render_text_margin rec G width indent fr o HG) as H.
  unfold render_group_with in *.
  destruct (if Py.nonempty "" && Py.nonempty "" then _ else _) as [o1|];
    [|discriminate].
  now injection H as ->.
Qed.

Lemma print_all_quoted (x : string) (r : list string) (o : Stdout) :
  softspace o = false ->
  print_all (margin_lines "" "> " (x :: r)) (print_comma ">" o)
  = put_lines (map (fun y => "> " ++ y) (x :: r)) o.
Proof.
  intros Ho. cbn [margin_lines map].
  assert (E1 : print ("" ++ x) (print_comma ">" o) = put_line ("> " ++ x) o).
  { unfold print, print_newline, print_comma, print_item, put_line.
    cbn [written softspace last_char]. rewrite Ho. cbn [append].
    f_equal. now rewrite !append_assoc. }
  change (print_all (("" ++ x)%string :: ?m) ?o0)
    with (print_all m (print ("" ++ x) o0)).
  rewrite E1, print_all_put by reflexivity. reflexivity.
Qed.

Lemma print_all_indented (lines : list string) (o : Stdout) :
  softspace o = false -> lines <> [] ->
  print_all (margin_lines "> " "> " lines) o
  = put_lines (map (fun y => "> " ++ y) lines) o.
Proof.
  intros Ho Hne. destruct lines as [|x r]; [congruence|].
  cbn [margin_lines]. now rewrite print_all_put.
Qed.

Section QuotedParagraphs.
Variable rec : list string -> Z -> string -> Stdout -> option Stdout.
Variables (width : Z) (indent : string).

(** a marker alone on its line *)
Lemma step_quote_bare (G : list string) (fb fr : bool) (ps : St.t) (o : Stdout) :
  step Stdout (render_group_with rec) width indent ">"
    (mkGrouper G false fb fr ps block_state) o
  = Some (mkGrouper (G ++ [""]) true false fr ps block_state, o).
Proof. reflexivity. Qed.

(** a quoted line after a break in the quote *)
Lemma step_quote_resume (l : string) (G : list string) (fb fr : bool)
    (ps : St.t) (o : Stdout) :
  text_line l = true ->
  step Stdout (render_group_with rec) width indent ("> " ++ l)
    (mkGrouper G true fb fr ps block_state) o
  = Some (mkGrouper (G ++ [String "010" ""; l]) false false fr ps block_state, o).
Proof.
  intros Hl. rewrite step_other by (now apply quote_kind).
  rewrite quote_normalize by assumption.
  unfold other_line_step, continuation, block_state. grouper_simpl.
  unfold Re.sub_blockquote. rewrite quote_blockquote by assumption.
  destruct (text_line_facts l Hl) as [(c & s & -> & _) _ _ _ _].
  cbn [Py.nonempty negb].
  unfold group_append, set_group, set_has_break, set_forced_break.
  grouper_simpl. now rewrite <- app_assoc.
Qed.

(** a line of text after a break, at any indent *)
Lemma step_text_break_at (l : string) (G : list string) (fb fr : bool)
    (ps : St.t) (o : Stdout) :
  text_line l = true -> paragraph G = true ->
  step Stdout (render_group_with rec) width indent l
    (mkGrouper G true fb fr ps St.empty) o
  = Some (mkGrouper [l] false false false St.empty St.empty,
          print (Re.sub_end_space indent)
            (print_all
               (margin_lines (if fr then "" else indent) indent
                  (_fit_text (Py.join " " G) (relative_width_of width indent "" "")
                     false))
               o)).
Proof.
  intros Hl HG. rewrite step_other by (now apply text_kind).
  rewrite text_normalize by assumption.
  unfold other_line_step, continuation, flush_if_group, _do_render_group.
  grouper_simpl.
  destruct (paragraph_inv G HG) as [Hne _].
  replace (nonnil G) with true by now destruct G.
  rewrite render_text_margin_after by assumption. grouper_simpl.
  unfold group_append, set_group. grouper_simpl.
  rewrite text_identify by assumption. reflexivity.
Qed.

End QuotedParagraphs.

Lemma nested_paragraphs (fuel : nat) (width : Z) (p1 p2 : list string)
    (o : Stdout) :
  paragraph p1 = true -> paragraph p2 = true -> softspace o = false ->
  _groupify (S fuel) (p1 ++ [""; String "010" ""] ++ p2) width "> "
    (print_comma ">" o)
  = Some (put_lines (quoted_paragraph width p1 ++ ">" :: quoted_paragraph width p2) o).
Proof.
  intros H1 H2 Ho. destruct (paragraph_inv p2 H2) as [Hne Hall].
  destruct p2 as [|l p2']; [congruence|]. inversion Hall; subst.
  rewrite groupify_S. unfold groupify_with, grouper0.
  rewrite open_loop by assumption.
  rewrite gap_loop by reflexivity.
  unfold set_has_break. grouper_simpl. cbn [main_loop].
  rewrite step_text_break_at by assumption.
  rewrite para_end by (assumption || discriminate).
  cbn [main_loop app]. unfold flush_if_group, _do_render_group. grouper_simpl.
  rewrite render_text_margin by assumption.
  unfold quoted_paragraph.
  destruct (_fit_text (Py.join " " p1) _ _) as [|x r] eqn:E1;
    [now apply fit_text_nonnil in E1|].
  rewrite print_all_quoted by assumption.
  change (Re.sub_end_space "> ") with ">".
  rewrite print_put_line by (now apply put_lines_soft).
  rewrite print_all_indented
    by (apply fit_text_nonnil || (cbn [put_line softspace]; reflexivity)).
  rewrite put_lines_app. reflexivity.
Qed.

(** X23.  Two quoted paragraphs separated by a line that holds the marker
    alone stay two quoted paragraphs: each is wrapped again behind [> ], and
    the line between them is printed as the marker alone. *)
Theorem quoted_paragraphs_kept (fuel : nat) (width : Z) (p1 p2 : list string) :
  paragraph p1 = true -> paragraph p2 = true ->
  rendering (S (S fuel))
    (map (fun l => "> " ++ l) p1 ++ ">" :: map (fun l => "> " ++ l) p2) width
  = Some (quoted_paragraph width p1 ++ ">" :: quoted_paragraph width p2)%list.
Proof.
  intros H1 H2.
  destruct (paragraph_inv p1 H1) as [Hne1 Hall1].
  destruct (paragraph_inv p2 H2) as [Hne2 Hall2].
  destruct p1 as [|l1 p1']; [congruence|].
  inversion Hall1 as [|? ? Hl1 Hp1']; subst.
  destruct p2 as [|l2 p2']; [congruence|].
  inversion Hall2 as [|? ? Hl2 Hp2']; subst.
  unfold rendering. rewrite groupify_S. unfold groupify_with, grouper0.
  cbn [map app main_loop]. rewrite step_quote_open by assumption.
  assert (Hloop : forall rest G fr ps o,
            main_loop Stdout (render_group_with (_groupify (S fuel))) width ""
              (map (fun l => "> " ++ l)%string p1' ++ rest)
              (mkGrouper G false false fr ps block_state) o
            = main_loop Stdout (render_group_with (_groupify (S fuel))) width ""
                rest (mkGrouper (G ++ p1') false false fr ps block_state) o).
  { clear - Hp1'. induction Hp1' as [|l p Hl Hp IH]; intros rest G fr ps o.
    - now rewrite app_nil_r.
    - cbn [map app main_loop]. rewrite step_quote_more by assumption.
      rewrite IH. now rewrite <- app_assoc. }
  rewrite Hloop. cbn [main_loop]. rewrite step_quote_bare.
  rewrite step_quote_resume by assumption.
  rewrite quote_loop by assumption.
  cbn [main_loop]. unfold flush_if_group, _do_render_group, block_state.
  grouper_simpl.
  unfold render_group_with.
  cbn [Py.nonempty Py.endswith Py.drop_last String.eqb Ascii.eqb Bool.eqb
       andb orb append app nonnil].
  replace (l1 :: ((p1' ++ [""]) ++ [String "010" ""; l2]) ++ p2')%list
    with ((l1 :: p1') ++ [""; String "010" ""] ++ (l2 :: p2'))%list
    by (cbn [app]; now rewrite <- !app_assoc).
  rewrite nested_paragraphs by (assumption || reflexivity).
  cbn [option_map]. f_equal. apply output_lines_put.
  assert (Hq : forall p, paragraph p = true ->
            Forall (fun x => str_forall no_newline x = true)
                   (quoted_paragraph width p)).
  { intros p Hp. destruct (paragraph_inv p Hp) as [_ Hall].
    unfold quoted_paragraph. apply Forall_map.
    eapply Forall_impl; [|apply (fit_text_chars no_newline); [reflexivity|]].
    - intros x Hx. exact Hx.
    - apply join_chars; [reflexivity|].
      eapply Forall_impl; [|exact Hall].
      intros x Hx. now destruct (text_line_facts x Hx). }
  apply Forall_app. split; [now apply Hq|].
  constructor; [reflexivity|now apply Hq].
Qed.

Lemma quoted_paragraphs_kept_witness :
  rendering 2 ["> one two"; "> three"; ">"; "> four"] 80
  = Some ["> one two three"; ">"; "> four"].
Proof.
  apply (quoted_paragraphs_kept 0 80 ["one two"; "three"] ["four"]); reflexivity.
Defined.

(** * The width of printed lines *)

Lemma writes_trans (width : Z) (indent : string) (o1 o2 o3 : Stdout) :
  writes width indent o1 o2 -> writes width indent o2 o3 ->
  writes width indent o1 o3.
Proof.
  intros H. revert o3.
  induction H as [indent o|indent first body o o' Hb H IH
                 |indent first line o o' Hc H IH
                 |indent o o' H IH
                 |indent first pf pr o o1 o' Hm H1 IH1 H2 IH2]; intros o3 H3.
  - exact H3.
  - eapply writes_line; [exact Hb|]. now apply IH.
  - eapply writes_code; [exact Hc|]. now apply IH.
  - apply writes_after. now apply IH.
  - eapply writes_element; [exact Hm|exact H1|]. now apply IH2.
Qed.

Lemma in_append_to_last (ws : list string) (suffix x : string) :
  In x (append_to_last ws suffix) ->
  In x ws \/ exists w, In w ws /\ x = w ++ suffix.
Proof.
  induction ws as [|w ws IH]; [intros []|].
  destruct ws as [|w' ws'].
  - simpl. intros [<-|[]]. right. exists w. auto.
  - rewrite append_to_last_cons by discriminate.
    intros [<-|H]; [left; now left|].
    destruct (IH H) as [H1|(w0 & H1 & ->)]; [left; now right|].
    right. exists w0. split; [now right|reflexivity].
Qed.

Lemma word_one_word (section w : string) :
  In w (words_of section) -> words_of w = [w].
Proof.
  intros H. apply words_of_word; [|].
  - right. pose proof (words_of_nonempty section) as Hne.
    rewrite Forall_forall in Hne. now apply Hne.
  - pose proof (words_of_no_space section) as Hsp.
    rewrite Forall_forall in Hsp. now apply Hsp.
Qed.

Lemma fit_word_one_word (section : string) (b : bool) (body : string) :
  In body (fit_words section b) -> one_word body = true.
Proof.
  unfold one_word, fit_words. rewrite <- words_of_section_words.
  destruct b; intros H.
  - apply in_append_to_last in H. destruct H as [H|(w & H & ->)].
    + now rewrite (word_one_word section body H).
    + now rewrite words_of_break, (word_one_word section w H).
  - now rewrite (word_one_word section body H).
Qed.

Lemma writes_lines (width : Z) (indent : string) (lines : list string) :
  Forall (fun x =>
            exists (first : bool) body,
              x = (if first then "" else indent) ++ body
              /\ (one_word body = true
                  \/ Py.len body <= Z.max MIN_WIDTH (width - Py.len indent)))
         lines ->
  forall o, writes width indent o (print_all lines o).
Proof.
  induction 1 as [|x lines (first & body & -> & Hb) Hlines IH]; intros o.
  - apply writes_nothing.
  - eapply writes_line; [exact Hb|]. apply IH.
Qed.

Lemma writes_codes (width : Z) (indent : string) (lines : list string) :
  Forall (fun x =>
            exists (first : bool) line,
              x = (if first then "" else indent) ++ line /\ Re._code line = true)
         lines ->
  forall o, writes width indent o (print_all lines o).
Proof.
  induction 1 as [|x lines (first & line & -> & Hc) Hlines IH]; intros o.
  - apply writes_nothing.
  - eapply writes_code; [exact Hc|]. apply IH.
Qed.

Lemma element_prefixes_shape (pf pr : string) :
  element_prefixes pf pr ->
  Py.nonempty pf && Py.nonempty pr = true
  /\ Py.endswith pf " " = true.
Proof.
  intros [[-> ->]|[-> [(c & _ & ->)|(n & ->)]]].
  - split; reflexivity.
  - split; [reflexivity|].
    change (String c "   ") with (String c "  " ++ String " " "").
    apply endswith_snoc.
  - destruct (ol_prefix_shape n) as (q & -> & _).
    change (q ++ " ") with (q ++ String " " ""). rewrite endswith_snoc.
    split; [|reflexivity]. now destruct q.
Qed.

Lemma render_writes (rec : list string -> Z -> string -> Stdout -> option Stdout)
    (width : Z) (indent : string) :
  width <> -1 ->
  (forall grp pr o o',
      rec grp width (indent ++ pr) o = Some o' ->
      writes width (indent ++ pr) o o') ->
  forall grp fr pf pr la is_pre o o',
    render_ok grp pf pr is_pre ->
    render_group_with rec grp width indent fr pf pr la is_pre o = Some o' ->
    writes width indent o o'.
Proof.
  intros Hw Hrec grp fr pf pr la is_pre o o' Hok H.
  unfold render_group_with in H.
  assert (Hafter : forall o1,
            writes width indent o o1 ->
            Some (if la then print (Re.sub_end_space indent) o1 else o1) = Some o' ->
            writes width indent o o').
  { intros o1 H1 [= <-]. destruct la; [|exact H1].
    eapply writes_trans; [exact H1|]. apply writes_after, writes_nothing. }
  destruct Hok as [[-> Hcode]|[(-> & -> & ->)|[-> Hm]]].
  - (* a code block *)
    eapply Hafter; [|exact H]. apply writes_codes.
    apply Forall_forall. intros x Hx. unfold pre_lines in Hx.
    apply in_map_iff in Hx. destruct Hx as ([i line] & <- & Hin).
    apply enumerate_In, nth_error_In in Hin.
    exists (Nat.eqb i 0 && fr), line. split.
    + destruct (Nat.eqb i 0); destruct fr; reflexivity.
    + rewrite Forall_forall in Hcode. now apply Hcode.
  - (* a group without prefixes *)
    cbn [Py.nonempty andb] in H. eapply Hafter; [|exact H].
    apply writes_lines. apply Forall_forall. intros x Hx.
    apply wrapped_lines_In in Hx.
    destruct Hx as (i & section & j & body & Hs & Hb & ->).
    exists (Nat.eqb i 0 && Nat.eqb j 0 && fr), body. split.
    + destruct (Nat.eqb i 0 && Nat.eqb j 0); destruct fr; reflexivity.
    + apply nth_error_In in Hb.
      pose proof (relative_width_floor width indent "" "" Hw) as Hfloor.
      assert (Erw : relative_width_of width indent "" ""
                    = Z.max MIN_WIDTH (width - Py.len indent)).
      { unfold relative_width_of. destruct (Z.eqb_spec width (-1)); [contradiction|].
        f_equal. change (Py.len "") with 0. lia. }
      assert (H0 : 0 <= relative_width_of width indent "" "")
        by (unfold MIN_WIDTH in Hfloor; lia).
      destruct (proj1 (Forall_forall _ _) (fit_text_width section _ _ H0) body Hb)
        as [Hlen|Hword].
      * right. now rewrite <- Erw.
      * left. eapply fit_word_one_word; eassumption.
  - (* a nested element *)
    destruct (element_prefixes_shape pf pr Hm) as [Hne Hend].
    rewrite Hne, Hend in H.
    match type of H with
    | context [rec grp width (indent ++ pr) ?o1] =>
        destruct (rec grp width (indent ++ pr) o1) as [o2|] eqn:E; [|discriminate]
    end.
    eapply Hafter; [|exact H].
    eapply (writes_element width indent fr pf pr); [exact Hm| |apply writes_nothing].
    eapply Hrec. exact E.
Qed.

(** *** The Grouper keeps the prefixes of its state *)

Lemma state_ok_render (g : Grouper) :
  grouper_ok g ->
  render_ok (group g)
    (St.get (St.prefix_first (state g)) "")
    (St.get (St.prefix_rest (state g)) "")
    (St.has_type TYPE_CODE (state g)).
Proof.
  unfold grouper_ok, state_ok, render_ok, St.has_type.
  destruct (St.type (state g)) as [[]|]; cbn [special_type_eqb]; intros [Hs Hc].
  - right. left. destruct Hs as [-> ->]. auto.
  - right. right. destruct Hs as [-> (c & Hc' & ->)]. split; [reflexivity|].
    right. split; [reflexivity|]. left. now exists c.
  - right. right. destruct Hs as [-> (n & ->)]. split; [reflexivity|].
    right. split; [reflexivity|]. right. now exists n.
  - right. right. destruct Hs as [-> ->]. split; [reflexivity|]. now left.
  - left. auto.
  - right. left. destruct Hs as [-> ->]. auto.
Qed.

Lemma grouper_ok_sub (g g' : Grouper) :
  grouper_ok g -> state g' = state g ->
  (forall line, In line (group g') -> In line (group g)) ->
  grouper_ok g'.
Proof.
  intros [Hs Hc] E Hin. unfold grouper_ok. rewrite E. split; [assumption|].
  intros H. specialize (Hc H). rewrite Forall_forall in *. auto.
Qed.

Lemma grouper_ok_empty (grp : list string) (hb fb fr : bool) (ps : St.t) :
  grouper_ok (mkGrouper grp hb fb fr ps St.empty).
Proof. split; [split; reflexivity|discriminate]. Qed.

Lemma ul_indent_bullet (line bullet rest : string) :
  Re._ul_indent line = Some (bullet, rest) ->
  exists c, Re.ul_char c = true /\ bullet = String c "".
Proof.
  unfold Re._ul_indent. destruct (_ <=? 3)%nat; [|discriminate].
  destruct (Py.lstrip (Py.is_char " ") line) as [|c s]; [discriminate|].
  destruct (Re.ul_char c) eqn:E; [|discriminate].
  destruct (Re.after_spaces1 s); [|discriminate].
  intros [= <- _]. now exists c.
Qed.

Lemma identify_ok (line : string) (g : Grouper) :
  group g = [line] -> grouper_ok (identify line g).
Proof.
  intros Hg. unfold identify, SPECIAL_TYPES. cbn [find].
  destruct (is_some (Re._hr line)).
  { split; [split; reflexivity|discriminate]. }
  destruct (Re._ul_indent line) as [[bullet rest]|] eqn:Eul; cbn [is_some].
  { destruct (ul_indent_bullet _ _ _ Eul) as (c & Hc & ->).
    split; [|discriminate]. split; [reflexivity|]. now exists c. }
  destruct (Re._ol_indent line) as [rest|] eqn:Eol; cbn [is_some].
  { split; [|discriminate]. split; [reflexivity|]. eexists. reflexivity. }
  destruct (Re._blockquote line) as [rest|] eqn:Ebq; cbn [is_some].
  { split; [|discriminate]. split; reflexivity. }
  destruct (Re._code line) eqn:Ec.
  - split; [exact I|]. intros _. grouper_simpl. rewrite Hg. now constructor.
  - apply grouper_ok_empty.
Qed.

Section Width.
Variable Out : Type.
Variable render :
  list string -> Z -> string -> bool -> string -> string -> bool -> bool ->
  Out -> option Out.
Variables (width : Z) (indent : string).
Variable R : Out -> Out -> Prop.

Hypothesis R_refl : forall o, R o o.
Hypothesis R_trans : forall o1 o2 o3, R o1 o2 -> R o2 o3 -> R o1 o3.

(** what the renderer writes is in [R] when it is handed the prefixes of a
    state *)
Hypothesis Hrender :
  forall grp fr pf pr la is_pre o o',
    render_ok grp pf pr is_pre ->
    render grp width indent fr pf pr la is_pre o = Some o' ->
    R o o'.

Lemma do_render_ok (line_after : bool) (g g' : Grouper) (o o' : Out) :
  _do_render_group Out render width indent line_after g o = Some (g', o') ->
  grouper_ok g ->
  R o o' /\ g' = mkGrouper [] false false false (prev_state g) (state g).
Proof.
  unfold _do_render_group. intros H Hok.
  destruct (render _ _ _ _ _ _ _ _ _) as [o1|] eqn:E; [|discriminate].
  injection H as <- <-. split; [|reflexivity].
  eapply Hrender; [|exact E]. now apply state_ok_render.
Qed.

Lemma flush_if_ok (line_after : bool) (g g' : Grouper) (o o' : Out) :
  flush_if_group Out render width indent line_after g o = Some (g', o') ->
  grouper_ok g ->
  R o o' /\ state g' = state g /\ (group g' = group g \/ group g' = []).
Proof.
  unfold flush_if_group. intros H Hok. destruct (nonnil (group g)).
  - apply do_render_ok in H; [|assumption]. destruct H as [HR ->]. auto.
  - injection H as <- <-. auto.
Qed.

Lemma flushed_ok (g g' : Grouper) :
  grouper_ok g -> state g' = state g -> (group g' = group g \/ group g' = []) ->
  grouper_ok g'.
Proof.
  intros Hok Hs [Hg|Hg]; apply (grouper_ok_sub g g' Hok Hs); rewrite Hg;
    [auto|intros line []].
Qed.

Lemma setext_ok (underline : ascii) (g g' : Grouper) (o o' : Out) :
  setext_header_step Out render width indent underline g o = Some (g', o') ->
  grouper_ok g -> R o o' /\ grouper_ok g'.
Proof.
  unfold setext_header_step. cbv zeta. intros H Hok.
  assert (Hok1 : grouper_ok (set_group (List.removelast (group g)) g)).
  { apply (grouper_ok_sub g); [assumption|reflexivity|].
    intros line Hin. cbn [group set_group] in Hin.
    destruct (group g) as [|x l] using rev_ind; [destruct Hin|].
    rewrite removelast_last in Hin. apply in_or_app. now left. }
  match type of H with
  | context [if ?c then ?a else ?b] =>
      destruct (if c then a else b) as [[g2 o2]|] eqn:E1; [|discriminate]
  end.
  assert (H1 : R o o2).
  { destruct (1 <? _)%nat.
    - apply do_render_ok in E1; [tauto|].
      apply (grouper_ok_sub (set_group (List.removelast (group g)) g));
        [assumption|reflexivity|].
      intros line Hin. cbn [group set_group] in Hin |- *.
      destruct (List.removelast (group g)) as [|x l] using rev_ind; [destruct Hin|].
      rewrite removelast_last in Hin. apply in_or_app. now left.
    - injection E1 as <- <-. apply R_refl. }
  cbv beta iota in H.
  match type of H with
  | context [_do_render_group Out render width indent false ?g3 o2] =>
      destruct (_do_render_group Out render width indent false g3 o2)
        as [[g4 o4]|] eqn:E2; [|discriminate];
      apply do_render_ok in E2; [|apply grouper_ok_empty]
  end.
  destruct E2 as [H2 ->]. cbv beta iota in H.
  match type of H with
  | context [_do_render_group Out render width indent true ?g5 o4] =>
      destruct (_do_render_group Out render width indent true g5 o4)
        as [[g6 o6]|] eqn:E3; [|discriminate];
      apply do_render_ok in E3; [|apply grouper_ok_empty]
  end.
  destruct E3 as [H3 ->]. injection H as <- <-. split.
  - eapply R_trans; [exact H1|]. eapply R_trans; eassumption.
  - apply grouper_ok_empty.
Qed.

Lemma atx_ok (hashes line : string) (g g' : Grouper) (o o' : Out) :
  atx_header_step Out render width indent hashes line g o = Some (g', o') ->
  grouper_ok g -> R o o' /\ grouper_ok g'.
Proof.
  unfold atx_header_step. intros H Hok.
  destruct (flush_if_group Out render width indent true g o) as [[g1 o1]|] eqn:E1;
    [|discriminate].
  apply flush_if_ok in E1; [|assumption]. destruct E1 as (H1 & _).
  cbv beta iota in H.
  match type of H with
  | context [_do_render_group Out render width indent true ?g2 o1] =>
      destruct (_do_render_group Out render width indent true g2 o1)
        as [[g3 o3]|] eqn:E2; [|discriminate];
      apply do_render_ok in E2; [|apply grouper_ok_empty]
  end.
  destruct E2 as [H2 ->]. injection H as <- <-. split.
  - eapply R_trans; eassumption.
  - apply grouper_ok_empty.
Qed.

Lemma increment_ok (st : St.t) :
  St.type st = Some TYPE_OL -> state_ok st ->
  state_ok (_increment_ol_state st None).
Proof.
  unfold state_ok, _increment_ol_state. cbn [St.type St.set_prefix_first St.set_number
    St.prefix_rest St.prefix_first].
  intros -> [Hr _]. split; [exact Hr|]. eexists. reflexivity.
Qed.

(** what the continuation block leaves *)
Lemma continuation_ok (line line1 : string) (g g1 : Grouper) (o o1 : Out)
    (wc : bool) :
  continuation Out render width indent line g o = Some (g1, o1, line1, wc) ->
  grouper_ok g ->
  R o o1 /\ state_ok (state g1)
  /\ (St.has_type TYPE_CODE (state g1) = true ->
      wc = false /\ line1 = line
      /\ (group g1 = []
          \/ (Re._code line = true
              /\ Forall (fun l => Re._code l = true) (group g1)))).
Proof.
  unfold continuation. cbv zeta. intros H Hok.
  pose proof Hok as [Hs Hc].
  assert (Hlist :
    St.has_type TYPE_CODE (state g) = false ->
    (St.type (state g) = Some TYPE_OL \/ St.has_type TYPE_OL (state g) = false) ->
    (if is_some (Re._ul_indent line) || is_some (Re._ol_indent line)
     then
       ' (g0, o0) <- _do_render_group Out render width indent (has_break g) g o ;;
       Some (if St.has_type TYPE_OL (state g0)
             then set_state (_increment_ol_state (state g0) None) g0 else g0,
             o0,
             if is_some (Re._ul_indent line)
             then Re.sub_ul_indent line else Re.sub_ol_indent line,
             true)
     else if has_break g && Re._indented line
          then Some (group_append (String "010" "") g, o, line, true)
          else Some (g, o, line, false))
    = Some (g1, o1, line1, wc) ->
    R o o1 /\ state_ok (state g1) /\ St.has_type TYPE_CODE (state g1) = false).
  { intros Hnc Hol H0.
    destruct (is_some (Re._ul_indent line) || is_some (Re._ol_indent line)).
    - destruct (_do_render_group Out render width indent (has_break g) g o)
        as [[g0 o0]|] eqn:E; [|discriminate].
      apply do_render_ok in E; [|assumption]. destruct E as [HR ->].
      cbn [state] in H0. injection H0 as <- <- _ _. split; [exact HR|].
      destruct Hol as [Hty|Hty].
      + unfold St.has_type. rewrite Hty. cbn [special_type_eqb state set_state].
        split; [now apply increment_ok|].
        unfold _increment_ol_state. cbn [St.type St.set_prefix_first St.set_number].
        now rewrite Hty.
      + rewrite Hty. auto.
    - destruct (has_break g && Re._indented line); injection H0 as <- <- _ _;
        auto. }
  destruct (St.type (state g)) as [[]|] eqn:Ety.
  - (* a horizontal rule *)
    injection H as <- <- <- <-. split; [apply R_refl|]. split; [assumption|].
    unfold St.has_type. rewrite Ety. discriminate.
  - destruct Hlist as (H1 & H2 & H3); [| |exact H|].
    + unfold St.has_type. now rewrite Ety.
    + right. unfold St.has_type. now rewrite Ety.
    + split; [assumption|]. split; [assumption|]. rewrite H3. discriminate.
  - destruct Hlist as (H1 & H2 & H3); [| |exact H|].
    + unfold St.has_type. now rewrite Ety.
    + now left.
    + split; [assumption|]. split; [assumption|]. rewrite H3. discriminate.
  - (* a blockquote *)
    assert (Hb : St.has_type TYPE_CODE (state g) = false)
      by (unfold St.has_type; now rewrite Ety).
    destruct (is_some (Re._blockquote line)); injection H as <- <- _ _;
      (split; [apply R_refl|]);
      repeat match goal with
             | |- context [if ?c then _ else _] => destruct c
             end;
      cbn [state set_has_break group_append set_group]; rewrite Hb;
      (split; [assumption|discriminate]).
  - (* a code block *)
    assert (Hb : St.has_type TYPE_CODE (state g) = true)
      by (unfold St.has_type; now rewrite Ety).
    destruct (Re._code line) eqn:Ecode; cbn [negb] in H.
    + injection H as <- <- <- <-. split; [apply R_refl|]. split; [assumption|].
      intros _. repeat split. right. auto.
    + destruct (_do_render_group Out render width indent true g o)
        as [[g0 o0]|] eqn:E; [|discriminate].
      apply do_render_ok in E; [|assumption]. destruct E as [HR ->].
      injection H as <- <- <- <-. split; [exact HR|]. split; [assumption|].
      intros _. repeat split. now left.
  - injection H as <- <- <- <-. split; [apply R_refl|]. split; [assumption|].
    unfold St.has_type. rewrite Ety. discriminate.
Qed.

Lemma other_ok (line : string) (g g' : Grouper) (o o' : Out) :
  other_line_step Out render width indent line g o = Some (g', o') ->
  grouper_ok g -> R o o' /\ grouper_ok g'.
Proof.
  unfold other_line_step. cbv zeta. intros H Hok.
  destruct (continuation Out render width indent line (set_forced_break false g) o)
    as [[[[g1 o1] line1] wc]|] eqn:Ec; [|discriminate].
  apply continuation_ok in Ec; [|exact Hok].
  destruct Ec as (H1 & Hs1 & Hc1). cbv beta iota in H.
  assert (Hok1 : grouper_ok g1).
  { split; [assumption|]. intros Hc. destruct (Hc1 Hc) as (_ & _ & [-> | [_ Hf]]);
      [constructor|assumption]. }
  match type of H with
  | context [if ?c then ?a else ?b] =>
      destruct (if c then a else b) as [[g2 o2]|] eqn:Ef; [|discriminate]
  end.
  assert (H2 : R o1 o2 /\ state g2 = state g1
               /\ (group g2 = group g1 \/ group g2 = [])).
  { destruct (negb wc && has_break g1).
    - now apply flush_if_ok in Ef.
    - injection Ef as <- <-. auto. }
  destruct H2 as (H2 & Hs2 & Hg2). cbv beta iota in H.
  destruct (negb wc && Nat.eqb (List.length (group (group_append line1 g2))) 1)
    eqn:Eid; injection H as <- <-; (split; [eapply R_trans; eassumption|]).
  - apply identify_ok. apply andb_true_iff in Eid. destruct Eid as [_ Elen].
    apply Nat.eqb_eq in Elen. cbn [group group_append set_group] in *.
    unfold Py.append in *. rewrite length_app in Elen. simpl in Elen.
    destruct (group g2); [reflexivity|simpl in Elen; lia].
  - split; [cbn [state group_append set_group]; now rewrite Hs2|].
    cbn [state group group_append set_group]. rewrite Hs2. intros Hc.
    destruct (Hc1 Hc) as (-> & -> & Hcase). cbn [negb andb] in Eid.
    unfold Py.append. apply Forall_app.
    assert (Hne : group g2 <> []).
    { intros E. cbn [group group_append set_group] in Eid.
      rewrite E in Eid. discriminate. }
    destruct Hg2 as [Hg2|Hg2]; [|contradiction].
    rewrite Hg2 in *. destruct Hcase as [E|[Hl Hf]]; [contradiction|].
    split; [assumption|]. now constructor.
Qed.

Lemma step_ok (raw : string) (g g' : Grouper) (o o' : Out) :
  step Out render width indent raw g o = Some (g', o') ->
  grouper_ok g -> R o o' /\ grouper_ok g'.
Proof.
  unfold step. cbv zeta. intros H Hok.
  destruct (negb (Py.nonempty (Py.strip Py.isspace (normalize raw)))).
  { injection H as <- <-. split; [apply R_refl|].
    destruct (negb (forced_break g)); [|assumption].
    apply (grouper_ok_sub g); auto. }
  destruct (if negb (has_break g) then Re._setext_header (normalize raw) else None)
    as [underline|].
  { eapply setext_ok; eassumption. }
  destruct (Re._atx_header (normalize raw)) as [hashes|].
  { eapply atx_ok; eassumption. }
  eapply other_ok; eassumption.
Qed.

Lemma main_loop_ok (f : list string) :
  forall g o o',
    main_loop Out render width indent f g o = Some o' ->
    grouper_ok g -> R o o'.
Proof.
  induction f as [|raw f IH]; intros g o o' H Hok; cbn [main_loop] in H.
  - destruct (flush_if_group Out render width indent false g o) as [[g1 o1]|] eqn:E;
      [|discriminate].
    injection H as <-. now apply flush_if_ok in E.
  - destruct (step Out render width indent raw g o) as [[g1 o1]|] eqn:E;
      [|discriminate].
    apply step_ok in E; [|assumption]. destruct E as [H1 Hok1].
    eapply R_trans; [exact H1|]. eapply IH; eassumption.
Qed.

End Width.

Lemma groupify_writes (fuel : nat) :
  forall f width indent o o',
    width <> -1 ->
    _groupify fuel f width indent o = Some o' ->
    writes width indent o o'.
Proof.
  induction fuel as [|fuel IH]; intros f width indent o o' Hw H; [discriminate|].
  rewrite groupify_S in H. unfold groupify_with in H.
  eapply (main_loop_ok Stdout _ width indent (writes width indent)); [| | |exact H|].
  - apply writes_nothing.
  - apply writes_trans.
  - intros grp fr pf pr la is_pre o0 o0' Hok Hr.
    eapply (render_writes (_groupify fuel)); try eassumption.
    intros grp0 pr0 o1 o1' H1. now apply IH in H1.
  - apply grouper_ok_empty.
Qed.

(** *** The markers and the indent *)

Lemma ol_prefix_length (n : Z) : 0 <= n < 100 -> Py.len (ol_prefix n) = 4.
Proof.
  intros Hn.
  assert (H : forallb (fun k => Py.len (ol_prefix (Z.of_nat k)) =? 4) (seq 0 100)
              = true) by (vm_compute; reflexivity).
  rewrite forallb_forall in H. specialize (H (Z.to_nat n)).
  rewrite Z2Nat.id in H by lia. apply Z.eqb_eq, H, in_seq. lia.
Qed.

Lemma element_prefixes_length (pf pr : string) :
  element_prefixes pf pr ->
  Py.len pf = Py.len pr
  \/ exists n, pf = ol_prefix n /\ (n < 0 \/ 100 <= n).
Proof.
  intros [[-> ->]|[-> [(c & _ & ->)|(n & ->)]]]; try (left; reflexivity).
  destruct (Z_lt_ge_dec n 0); [right; exists n; auto|].
  destruct (Z_lt_ge_dec n 100); [|right; exists n; split; [reflexivity|lia]].
  left. now rewrite ol_prefix_length by lia.
Qed.

(** *** The words of the lines *)

Lemma wrapped_lines_whole_words (grp : list string) (width : Z) (indent : string)
    (fr : bool) (pf pr : string) :
  let rw := relative_width_of width indent pf pr in
  let first_indent := if fr then "" else indent in
  let sections := build_sections (List.length grp) 0 grp [] "" in
  Forall (fun x =>
            exists (first : bool) body section b,
              x = (if first then first_indent else indent)
                  ++ (if first then pf else pr) ++ body
              /\ In section sections
              /\ In body (_fit_text section rw b)
              /\ exists chunks,
                   List.concat chunks = word_sequence section b
                   /\ _fit_text section rw b = map (Py.join " ") chunks)
         (wrapped_lines sections rw first_indent indent pf pr).
Proof.
  intros rw first_indent sections.
  apply Forall_forall. intros x Hx. apply wrapped_lines_In in Hx.
  destruct Hx as (i & section & j & body & Hs & Hb & ->).
  exists (Nat.eqb i 0 && Nat.eqb j 0), body, section,
         (i + 1 <? List.length sections)%nat.
  split; [reflexivity|]. split; [eapply nth_error_In; eassumption|].
  split; [eapply nth_error_In; eassumption|].
  destruct (fit_text_chunks section rw (i + 1 <? List.length sections)%nat)
    as (chunks & H1 & H2 & _).
  exists chunks. now rewrite <- fit_words_sequence.
Qed.

(** *** The first line of a nested element *)

Lemma str_of_int_head (n : Z) :
  exists c s, Py.str_of_int n = String c s
              /\ (Py.isdigit c = true \/ c = "-"%char).
Proof.
  unfold Py.str_of_int. destruct n as [|p|p]; cbn.
  - exists "0"%char, "". auto.
  - pose proof (uint_digits (Pos.to_uint p)) as H.
    unfold NilZero.string_of_uint.
    destruct (Pos.to_uint p) eqn:E; cbn in H |- *;
      try (eexists _, _; split; [reflexivity|left; reflexivity]).
  - eexists _, _. split; [reflexivity|]. now right.
Qed.


Lemma element_prefixes_last (pf pr : string) :
  element_prefixes pf pr ->
  exists q c r,
    pf = q ++ " " /\ q = r ++ String c ""
    /\ negb (Py.isspace c) || Ascii.eqb c " " = true.
Proof.
  intros [[-> ->]|[-> [(c & _ & ->)|(n & ->)]]].
  - now exists ">", ">"%char, "".
  - now exists (String c "  "), " "%char, (String c " ").
  - destruct (ol_prefix_shape n) as (q & Eq & Hq).
    destruct (ol_prefix_padded n) as (_ & k & Ek).
    destruct (str_of_int_head n) as (c0 & s0 & En & _).
    assert (Hne : Py.nonempty q = true).
    { destruct q; [|reflexivity]. rewrite Ek, En in Eq. cbn [append] in Eq.
      injection Eq as _ Eq. destruct s0; discriminate. }
    destruct (string_last q Hne) as (r & c & Er).
    exists q, c, r. split; [assumption|]. split; [assumption|].
    rewrite Er in Hq. rewrite last_char_app in Hq. exact Hq.
Qed.

Lemma first_line_behind_marker (width : Z) (indent pf pr : string) (first : bool)
    (body : string) (o : Stdout) :
  element_prefixes pf pr -> softspace o = false ->
  Py.len pf = Py.len pr ->
  Py.len body <= Z.max MIN_WIDTH (width - Py.len (indent ++ pr)) ->
  let line := (if first then "" else indent) ++ pf ++ body in
  written (print body
             (print_comma ((if first then "" else indent) ++ Py.drop_last pf) o))
  = written o ++ line ++ String "010" ""
  /\ Py.len line <= Z.max width (Py.len (indent ++ pr) + MIN_WIDTH).
Proof.
  intros Hm Ho Hlen Hb line. split.
  - destruct (element_prefixes_last pf pr Hm) as (q & c & r & -> & -> & Hc).
    change ((r ++ String c "") ++ " ") with ((r ++ String c "") ++ String " " "").
    rewrite drop_last_snoc.
    unfold print, print_newline, print_comma, print_item.
    cbn [written softspace]. rewrite Ho.
    set (fi := if first then "" else indent) in *.
    replace (fi ++ r ++ String c "") with ((fi ++ r) ++ String c "")
      by (now rewrite append_assoc).
    rewrite last_char_app. cbn [last_char]. rewrite Hc.
    unfold line. rewrite !append_assoc. reflexivity.
  - unfold line. rewrite !len_append in *.
    pose proof (len_nonneg indent).
    destruct first; [change (Py.len "") with 0|]; lia.
Qed.



(** The first line of an item comes behind its number.  From the number
    100 on the prefix has five characters where the indent of the item has
    four, and the line of the hundredth item of a list, fitted to the 16
    columns the indent leaves of 20, is 21 characters long. *)
Lemma long_number_overhangs :
  option_map (fun lines => nth 99 lines "")
    (rendering 2 (map (fun _ => "1. aaaaaaa bbbbbbbb") (seq 0 100)) 20)
  = Some "100. aaaaaaa bbbbbbbb".
Proof. vm_compute. reflexivity. Qed.

(** An item without text prints its bullet and no newline, and the next
    item comes behind it on the same line. *)
Lemma empty_items_share_a_line :
  rendering 2 ["* "; "* "; "* aaaa bbbb"] 20 = Some ["*   *   *   aaaa bbbb"].
Proof. reflexivity. Qed.

(** *** What [writes] leaves out *)

Lemma print_item_written (x : string) (o : Stdout) :
  written (print_item x o) = written o ++ (if softspace o then " " else "") ++ x.
Proof. reflexivity. Qed.

Lemma writes_grows (width : Z) (indent : string) (o o' : Stdout) :
  writes width indent o o' -> exists t, written o' = written o ++ t.
Proof.
  induction 1 as [indent o|indent first body o o' Hb H [t IH]
                 |indent first line o o' Hc H [t IH]
                 |indent o o' H [t IH]
                 |indent first pf pr o o1 o' Hm H1 [t1 IH1] H2 [t2 IH2]].
  - exists "". now rewrite append_nil_r.
  - eexists. rewrite IH. unfold print, print_newline.
    cbn [written]. rewrite print_item_written, !append_assoc. reflexivity.
  - eexists. rewrite IH. unfold print, print_newline.
    cbn [written]. rewrite print_item_written, !append_assoc. reflexivity.
  - eexists. rewrite IH. unfold print, print_newline.
    cbn [written]. rewrite print_item_written, !append_assoc. reflexivity.
  - eexists. rewrite IH2, IH1. unfold print_comma.
    rewrite print_item_written, !append_assoc. reflexivity.
Qed.

Lemma first_line_eq (s : string) :
  str_forall no_newline s = true ->
  forall body t,
    s ++ String "010" "" = (body ++ String "010" "") ++ t -> body = s.
Proof.
  induction s as [|a s IH]; intros Hs body t E.
  - destruct body as [|c b]; [reflexivity|].
    cbn [append] in E. injection E as _ E. destruct b; discriminate.
  - cbn [str_forall] in Hs. apply andb_true_iff in Hs. destruct Hs as [Ha Hs].
    destruct body as [|c b]; cbn [append] in E.
    + injection E as -> _. discriminate.
    + injection E as <- E. f_equal. eapply IH; eassumption.
Qed.

(** At the width 10 and the left margin, a line of three words that is 14
    characters long is not what [writes] allows. *)
Lemma writes_excludes_wide_line :
  ~ writes 10 "" stdout0 (print "aaaa bbbb cccc" stdout0).
Proof.
  intros H.
  assert (Hs : str_forall no_newline "aaaa bbbb cccc" = true) by reflexivity.
  inversion H as [indent o E1 E2|indent first body o o' Hb H' E1 E2 E3
                 |indent first line o o' Hc H' E1 E2 E3
                 |indent o o' H' E1 E2 E3
                 |indent first pf pr o o1 o' Hm H1 H2 E1 E2 E3]; subst.
  - apply writes_grows in H'. destruct H' as [t Ht].
    unfold print, print_newline in Ht. cbn [written] in Ht.
    rewrite !print_item_written in Ht. cbn [written softspace stdout0 append] in Ht.
    replace ((if first then "" else "") ++ body) with body in Ht
      by (now destruct first).
    apply (first_line_eq _ Hs) in Ht. subst body.
    destruct Hb as [Hb|Hb]; [discriminate|].
    apply Z.leb_le in Hb. discriminate.
  - apply writes_grows in H'. destruct H' as [t Ht].
    unfold print, print_newline in Ht. cbn [written] in Ht.
    rewrite !print_item_written in Ht. cbn [written softspace stdout0 append] in Ht.
    replace ((if first then "" else "") ++ line) with line in Ht
      by (now destruct first).
    apply (first_line_eq _ Hs) in Ht. subst line. discriminate.
  - apply writes_grows in H'. destruct H' as [t Ht].
    unfold print, print_newline in Ht. cbn [written] in Ht.
    rewrite !print_item_written in Ht. cbn [written softspace stdout0 append] in Ht.
    discriminate.
  - apply writes_grows in H1. destruct H1 as [t1 Ht1].
    apply writes_grows in H2. destruct H2 as [t2 Ht2].
    rewrite Ht1 in Ht2. unfold print_comma in Ht2.
    unfold print, print_newline in Ht2. cbn [written] in Ht2.
    rewrite !print_item_written in Ht2.
    cbn [written softspace stdout0 append] in Ht2.
    replace ((if first then "" else "") ++ Py.drop_last pf)
      with (Py.drop_last pf) in Ht2 by (now destruct first).
    destruct Hm as [[-> ->]|[-> [(c & Hc & ->)|(n & ->)]]].
    + discriminate.
    + cbn [Py.drop_last append] in Ht2. injection Ht2 as <- _. discriminate.
    + destruct (ol_prefix_shape n) as (q & Eq & _).
      rewrite Eq in Ht2. change (q ++ " ") with (q ++ String " " "") in Ht2.
      rewrite drop_last_snoc in Ht2.
      destruct (ol_prefix_padded n) as (_ & k & Ek). rewrite Ek in Eq.
      destruct (str_of_int_head n) as (c & s & En & Hc). rewrite En in Eq.
      destruct q as [|c' q'].
      { cbn [append] in Eq. injection Eq as _ Eq. destruct s; discriminate. }
      cbn [append] in Eq, Ht2. injection Eq as <- _. injection Ht2 as <- _.
      destruct Hc; discriminate.
Qed.

